(** * civ6mcp: the save-file decoder and the telemetry mappers

    A shallow embedding of [src/parser.ts] (binary save decoder), of the
    log parser ([buildPlayerIdMap], [parseDiplomacy]) and of the history
    parser ([parseGameHistory], [getLatestTurnStatsFullCivsOnly],
    [analyzeTrends]), followed by the properties of the specification
    that concern them.

    Conventions.
    - A Node [Buffer] is a [list byte]; offsets are [nat].
    - A JavaScript string is the list of its UTF-16 code units ([list Z]);
      [js "..."] turns a literal into such a list.
    - A JavaScript number that comes from [parseInt] is [NaN] or an exact
      integer ([num]), which is what the double holds up to 2^53 in
      magnitude; doubles that are not integers (threat and trust
      magnitudes, percentages) are kept behind the [Runtime] interface.
    - A thrown exception is the [Throw] case of [result].
    - What Node, V8 and zlib provide (UTF-8 decoding, inflation, Unicode
      case mapping, [parseFloat], double arithmetic) is the [Runtime]
      interface; every theorem holds for every runtime. *)

From Stdlib Require Import ZArith List Lia Bool String Ascii.
From Stdlib Require Import Strings.Byte DecimalString.
From stdpp Require Import base option list gmap sorting.
Import ListNotations.

Local Open Scope nat_scope.

(** ** JavaScript values *)

Abbreviation jsstring := (list Z).

Definition js (s : string) : jsstring :=
  map (fun a => Z.of_N (N_of_ascii a)) (list_ascii_of_string s).

Inductive num : Type :=
  | NaN
  | Num (z : Z).

#[global] Instance num_eq_dec : EqDecision num.
Proof. solve_decision. Defined.

#[global] Instance byte_eq_dec : EqDecision byte := Byte.byte_eq_dec.

(** Exceptions and the error monad of code that may throw. *)
Inductive exn : Type :=
  | RangeError                 (* ERR_OUT_OF_RANGE of the Buffer readers *)
  | Error (message : jsstring). (* new Error(message) *)

Inductive result (A : Type) : Type :=
  | Ok (a : A)
  | Throw (e : exn).
Arguments Ok {A} a.
Arguments Throw {A} e.

Definition bind {A B} (r : result A) (k : A -> result B) : result B :=
  match r with
  | Ok a => k a
  | Throw e => Throw e
  end.

Notation "'let!' x ':=' r 'in' k" := (bind r (fun x => k))
  (at level 10, x name, r at level 100, k at level 200).

Definition throws {A} (r : result A) : Prop := exists e, r = Throw e.
Definition returns {A} (r : result A) : Prop := exists a, r = Ok a.

(** ** Sequences: the string and buffer primitives the code calls *)

Section Seq.
Context {A : Type} `{EqDecision A}.

(** [s.startsWith(pat)] *)
Fixpoint startsWith (s pat : list A) {struct pat} : bool :=
  match pat, s with
  | [], _ => true
  | p :: ps, c :: cs => bool_decide (p = c) && startsWith cs ps
  | _ :: _, [] => false
  end.

(** [s.endsWith(pat)] *)
Definition endsWith (s pat : list A) : bool :=
  (length pat <=? length s) && startsWith (skipn (length s - length pat) s) pat.

Fixpoint indexOf_aux (pat s : list A) (i : nat) : option nat :=
  match s with
  | [] => None
  | _ :: rest => if startsWith s pat then Some i else indexOf_aux pat rest (S i)
  end.

(** [s.indexOf(pat, start)] for a non-empty [pat]: the first offset at or
    after [start] where [pat] occurs, [None] for -1. *)
Definition indexOf (s pat : list A) (start : nat) : option nat :=
  indexOf_aux pat (skipn start s) start.

(** [s.includes(pat)] *)
Definition includes (s pat : list A) : bool :=
  match pat with
  | [] => true
  | _ => bool_decide (is_Some (indexOf s pat 0))
  end.

(** [s.substring(a, b)], [s.slice(a, b)] and [buf.subarray(a, b)] for
    0 <= a: both ends are clamped to the length, and the result is empty
    when [b <= a]. *)
Definition substring (s : list A) (a b : nat) : list A :=
  firstn (b - a) (skipn a s).

(** [s.split(c)] for a one-character separator. *)
Fixpoint split (c : A) (s : list A) : list (list A) :=
  match s with
  | [] => [[]]
  | x :: xs =>
      if bool_decide (x = c) then [] :: split c xs
      else match split c xs with
           | hd :: tl => (x :: hd) :: tl
           | [] => [[x]]
           end
  end.

(** [parts.join(sep)] *)
Fixpoint join (sep : list A) (parts : list (list A)) : list A :=
  match parts with
  | [] => []
  | [p] => p
  | p :: rest => p ++ sep ++ join sep rest
  end.

(** [s.replace(pat, '')] with a string pattern: the first occurrence of
    [pat] is removed. *)
Fixpoint removeFirst (pat s : list A) : list A :=
  if startsWith s pat then skipn (length pat) s
  else match s with
       | [] => []
       | c :: cs => c :: removeFirst pat cs
       end.

(** [[...new Set(l)]]: duplicates removed, first occurrences kept in
    their order. *)
Fixpoint dedup_aux (seen l : list A) : list A :=
  match l with
  | [] => []
  | x :: xs =>
      if bool_decide (x ∈ seen) then dedup_aux seen xs
      else x :: dedup_aux (x :: seen) xs
  end.
Definition dedup (l : list A) : list A := dedup_aux [] l.

(** Global matching, [text.match(/re/g)] and [text.matchAll(/re/g)], for a
    regular expression given by [m]: [m suffix] is the length of the
    match that starts at the head of [suffix], if there is one. After a
    match the scan resumes behind it (every expression of the program
    matches at least one character). Each match comes with its index. *)
Fixpoint matchAll_aux (m : list A -> option nat) (text : list A) (i skip : nat)
  : list (nat * list A) :=
  match text with
  | [] => []
  | _ :: rest =>
      match skip with
      | S k => matchAll_aux m rest (S i) k
      | O =>
          match m text with
          | Some (S n) => (i, firstn (S n) text) :: matchAll_aux m rest (S i) n
          | _ => matchAll_aux m rest (S i) 0
          end
      end
  end.
Definition matchAll (m : list A -> option nat) (text : list A) : list (list A) :=
  map snd (matchAll_aux m text 0 0).

(** The loop [while (true) { pos = text.indexOf(pat, searchPos); ...;
    searchPos = pos + pat.length }]: the offsets of the successive
    occurrences of [pat]. *)
Definition occurrences (text pat : list A) : list nat :=
  map fst (matchAll_aux
             (fun s => if startsWith s pat then Some (length pat) else None)
             text 0 0).

(** [text.match(/re/)] for an expression with one capture group: [m]
    gives the capture of the match that starts at the head of its
    argument; the leftmost match wins. *)
Fixpoint matchFirst {B} (m : list A -> option B) (text : list A) : option B :=
  match text with
  | [] => None
  | _ :: rest =>
      match m text with
      | Some b => Some b
      | None => matchFirst m rest
      end
  end.

(** [l.findIndex(p)] *)
Fixpoint findIndex {B} (p : B -> bool) (l : list B) : option nat :=
  match l with
  | [] => None
  | x :: xs => if p x then Some 0 else S <$> findIndex p xs
  end.
End Seq.

(** Character classes. *)
Definition isUpper (c : Z) : bool := (65 <=? c)%Z && (c <=? 90)%Z.
Definition isLower (c : Z) : bool := (97 <=? c)%Z && (c <=? 122)%Z.
Definition isDigit (c : Z) : bool := (48 <=? c)%Z && (c <=? 57)%Z.
(** [[A-Z_]] *)
Definition isUpperUnderscore (c : Z) : bool := isUpper c || (c =? 95)%Z.
(** [\w] *)
Definition isWord (c : Z) : bool :=
isUpper c || isLower c || isDigit c || (c =? 95)%Z.
(** [[\d.]] *)
Definition isDigitDot (c : Z) : bool := isDigit c || (c =? 46)%Z.

(** WhiteSpace and LineTerminator of ECMAScript: what [trim] strips and
  [parseInt] skips. *)
Definition isWhiteSpace (c : Z) : bool :=
((9 <=? c) && (c <=? 13) || (c =? 32) || (c =? 160) || (c =? 5760)
 || (8192 <=? c) && (c <=? 8202) || (c =? 8232) || (c =? 8233)
 || (c =? 8239) || (c =? 8287) || (c =? 12288) || (c =? 65279))%Z.

Fixpoint takeWhile {A} (p : A -> bool) (s : list A) : list A :=
match s with
| [] => []
| c :: cs => if p c then c :: takeWhile p cs else []
end.

Fixpoint dropWhile {A} (p : A -> bool) (s : list A) : list A :=
match s with
| [] => []
| c :: cs => if p c then dropWhile p cs else s
end.

(** [s.trim()] *)
Definition trim (s : jsstring) : jsstring :=
rev (dropWhile isWhiteSpace (rev (dropWhile isWhiteSpace s))).

Definition digitsValue (ds : jsstring) : Z :=
fold_left (fun acc d => (10 * acc + (d - 48))%Z) ds 0%Z.

(** [parseInt(s, 10)]: leading white space, an optional sign, the longest
  run of decimal digits; [NaN] without a digit. The value is the integer
  that the digits spell; the double of JavaScript is that integer up to
  2^53 in magnitude and its rounding beyond. *)
Definition parseInt (s : jsstring) : num :=
let s1 := dropWhile isWhiteSpace s in
let '(neg, s2) :=
  match s1 with
  | 45%Z :: r => (true, r)
  | 43%Z :: r => (false, r)
  | _ => (false, s1)
  end in
match takeWhile isDigit s2 with
| [] => NaN
| ds => Num (if neg then - digitsValue ds else digitsValue ds)
end.

(** ** The runtime interface *)

Class Runtime : Type := {
(** [buf.toString('utf8')] *)
utf8Decode : list byte -> jsstring;
(** [unzipSync(data, { finishFlush: constants.Z_SYNC_FLUSH })]; [None]
    when zlib throws. *)
unzipSync : list byte -> option (list byte);
(** [s.toUpperCase()] and [s.toLowerCase()] *)
toUpperCase : jsstring -> jsstring;
toLowerCase : jsstring -> jsstring;
(** doubles: the literal [0] and [parseFloat] *)
float : Type;
float_zero : float;
parseFloat : jsstring -> float;
(** [Math.round(((e - s) / s) * 100)] in double arithmetic *)
roundPercent : Z -> Z -> Z;
}.

(** The test [isNaN(x)] on a double. *)
Class FloatTests `{Runtime} : Type := {
isNaN : float -> bool;
}.

(** ** [src/parser.ts] *)

Module Parser.

(** Binary markers from the save file format. *)
Definition COMPRESSED_DATA_END : list byte := [x00; x00; xff; xff].
Definition ZLIB_HEADER : list byte := [x78; x9c].

Definition GAME_TURN : list byte := [x9d; x2c; xe6; xbd].
Definition GAME_SPEED : list byte := [x99; xb0; xd9; x05].
Definition MAP_SIZE : list byte := [x40; x5c; x83; x0b].
Definition MAP_FILE : list byte := [x5a; x87; xd8; x63].

Definition byteVal (b : byte) : Z := Z.of_N (Byte.to_N b).

(** [buf.readUInt32LE(off)]: out of range when one of the four bytes is
  missing. *)
Definition readUInt32LE (buf : list byte) (off : nat) : result Z :=
match skipn off buf with
| b0 :: b1 :: b2 :: b3 :: _ =>
    Ok (byteVal b0 + 256 * byteVal b1 + 65536 * byteVal b2
        + 16777216 * byteVal b3)%Z
| _ => Throw RangeError
end.

(** [buf.readUInt16LE(off)] *)
Definition readUInt16LE (buf : list byte) (off : nat) : result Z :=
match skipn off buf with
| b0 :: b1 :: _ => Ok (byteVal b0 + 256 * byteVal b1)%Z
| _ => Throw RangeError
end.

(** [buf.toString('ascii')]: Node clears the high bit of every byte. *)
Definition asciiDecode (buf : list byte) : jsstring :=
map (fun b => Z.land (byteVal b) 127) buf.

Inductive markerData : Type :=
| DBool (b : bool)
| DNum (n : Z)
| DStr (s : jsstring).

Record markerValue : Type := MarkerValue {
mv_type : Z;
mv_data : markerData;
}.

Section WithRuntime.
Context `{Runtime}.

Definition readMarkerValue (buffer marker : list byte)
  : result (option markerValue) :=
  match indexOf buffer marker 0 with
  | None => Ok None
  | Some pos =>
      let! type := readUInt32LE buffer (pos + 4) in
      match type with
      | 1%Z => (* Boolean *)
          let! v := readUInt32LE buffer (pos + 16) in
          Ok (Some (MarkerValue type (DBool (negb (v =? 0)%Z))))
      | 2%Z => (* Integer *)
          let! v := readUInt32LE buffer (pos + 16) in
          Ok (Some (MarkerValue type (DNum v)))
      | 5%Z => (* String *)
          let! strLen := readUInt16LE buffer (pos + 8) in
          let str :=
            utf8Decode
              (substring buffer (pos + 16) (pos + 16 + Z.to_nat strLen - 1)) in
          Ok (Some (MarkerValue type (DStr str)))
      | _ => Ok None
      end
  end.

Definition chunkSize : nat := Z.to_nat (64 * 1024).
Definition headerArea : nat := Z.to_nat 200000.

(** The loop [while (pos < compressedChunk.length) { chunks.push(
    compressedChunk.subarray(pos, pos + chunkSize)); pos += chunkSize + 4 }],
    on the part of the slice from [pos] on. Every turn consumes at least
    one byte, so the length of the slice is fuel enough. *)
Fixpoint rechunk_loop (fuel : nat) (rest : list byte) : list (list byte) :=
  match fuel with
  | O => []
  | S fuel' =>
      match rest with
      | [] => []
      | _ :: _ =>
          firstn chunkSize rest :: rechunk_loop fuel' (skipn (chunkSize + 4) rest)
      end
  end.
Definition rechunk (compressedChunk : list byte) : list (list byte) :=
  rechunk_loop (length compressedChunk) compressedChunk.

(** The bytes handed to the inflater: [assembledData]. *)
Definition assembleCompressed (buffer : list byte) : option (list byte) :=
  match indexOf buffer ZLIB_HEADER headerArea with
  | None => None
  | Some zlibStart =>
      match indexOf buffer COMPRESSED_DATA_END zlibStart with
      | None => None
      | Some endPos =>
          if endPos <=? zlibStart then None
          else
            let compressedChunk :=
              substring buffer zlibStart (endPos + length COMPRESSED_DATA_END) in
            Some (concat (rechunk compressedChunk))
      end
  end.

Definition decompressGameData (buffer : list byte) : option (list byte) :=
  match assembleCompressed buffer with
  | None => None
  | Some assembledData => unzipSync assembledData
  end.

(** *** Roster extraction from the header text *)

Inductive civType : Type := full_civ | city_state | free_cities.

Record CivInfo : Type := mkCivInfo {
  leader : jsstring;
  civilization : jsstring;
  type : civType;
  isHuman : bool;
}.

Definition setHuman (b : bool) (c : CivInfo) : CivInfo :=
  mkCivInfo (leader c) (civilization c) (type c) b.

(** [word.charAt(0).toUpperCase() + word.slice(1).toLowerCase()] *)
Definition capitalize (word : jsstring) : jsstring :=
  toUpperCase (firstn 1 word) ++ toLowerCase (skipn 1 word).

Definition formatEnumValue (value : jsstring) : jsstring :=
  join (js " ") (map capitalize (split 95%Z value)).

(** Lookup among the own entries of an object literal used as a table.
    An object literal also answers to the names of the members it inherits
    from [Object.prototype] ([constructor], [toString], ...,
    [Spec.inheritedNames] below) with a function or an object; the table
    stands for the object on every other key. The keys that the program
    looks up are raw civilization names, runs of [[A-Z_]], and the display
    names of the cities of the allow-list, none of which is such a name. *)
Fixpoint lookupTable {V} (table : list (jsstring * V)) (key : jsstring)
  : option V :=
  match table with
  | [] => None
  | (k, v) :: rest => if bool_decide (k = key) then Some v else lookupTable rest key
  end.

Definition civToLeader : list (jsstring * jsstring) :=
  [ (js "VIETNAM", js "B" ++ [224%Z] ++ js " Tri" ++ [7879%Z] ++ js "u");
    (js "GEORGIA", js "Tamar");
    (js "PERSIA", js "Cyrus");
    (js "CANADA", js "Wilfrid Laurier");
    (js "NETHERLANDS", js "Wilhelmina");
    (js "OTTOMAN", js "Suleiman");
    (js "ROME", js "Trajan");
    (js "EGYPT", js "Cleopatra");
    (js "MACEDON", js "Alexander");
    (js "SUMERIA", js "Gilgamesh");
    (js "INDIA", js "Gandhi");
    (js "CHINA", js "Qin Shi Huang");
    (js "RUSSIA", js "Peter the Great");
    (js "ENGLAND", js "Victoria");
    (js "AZTEC", js "Montezuma");
    (js "GERMANY", js "Barbarossa");
    (js "GREECE", js "Pericles");
    (js "JAPAN", js "Hojo");
    (js "KONGO", js "Mvemba a Nzinga");
    (js "BRAZIL", js "Pedro II");
    (js "NORWAY", js "Harald Hardrada");
    (js "SCYTHIA", js "Tomyris");
    (js "SPAIN", js "Philip II");
    (js "POLAND", js "Jadwiga");
    (js "ARABIA", js "Saladin");
    (js "INDONESIA", js "Gitarja");
    (js "KHMER", js "Jayavarman VII");
    (js "AUSTRALIA", js "John Curtin");
    (js "ZULU", js "Shaka");
    (js "MONGOLIA", js "Genghis Khan");
    (js "SCOTLAND", js "Robert the Bruce");
    (js "GAUL", js "Ambiorix");
    (js "NUBIA", js "Amanitore") ].

Definition getLeaderForCiv (civ : jsstring) : jsstring :=
  match lookupTable civToLeader civ with
  | Some l => l
  | None => formatEnumValue civ
  end.

(** [/CIVILIZATION_([A-Z_]+?)(?=[^A-Z_]|$)/]: the lazy group grows until
    the look-ahead holds, that is to the end of the run of [[A-Z_]]. *)
Definition civTokenAt (s : jsstring) : option nat :=
  if startsWith s (js "CIVILIZATION_") then
    match takeWhile isUpperUnderscore (skipn 13 s) with
    | [] => None
    | run => Some (13 + length run)
    end
  else None.

(** [civ.replace(/_NAME$/, '')] *)
Definition stripNameSuffix (civ : jsstring) : jsstring :=
  if endsWith civ (js "_NAME") then firstn (length civ - 5) civ else civ.

(** The loop [for (let i = civMatches.length - 1; i >= 0; i--)] up to its
    first [break]: the closest capture that does not start with LEVEL,
    without its _NAME suffix. [captures] is in reverse order. *)
Fixpoint closestCiv (captures : list jsstring) : option jsstring :=
  match captures with
  | [] => None
  | civ :: earlier =>
      if startsWith civ (js "LEVEL") then closestCiv earlier
      else Some (stripNameSuffix civ)
  end.

(** The captures of [section.matchAll(...)] for the 500 characters before
    [pos], closest first. *)
Definition capturesBefore (headerText : jsstring) (pos : nat) : list jsstring :=
  let start := pos - 500 in (* Math.max(0, pos - 500) *)
  let section := substring headerText start pos in
  rev (map (skipn 13) (matchAll civTokenAt section)).

(** One turn of [for (const pos of fullCivPositions)]; the state is
    [(seenCivs, allCivs)]. *)
Definition fullCivStep (headerText : jsstring)
    (st : list jsstring * list CivInfo) (pos : nat)
  : list jsstring * list CivInfo :=
  let '(seenCivs, allCivs) := st in
  match closestCiv (capturesBefore headerText pos) with
  | None => st
  | Some civ =>
      if bool_decide (civ ∈ seenCivs) then st
      else
        let afterMarker := substring headerText pos (pos + 100) in
        let isHuman := includes afterMarker (js "Player") in
        (civ :: seenCivs,
         allCivs ++ [mkCivInfo (getLeaderForCiv civ) (formatEnumValue civ)
                               full_civ isHuman])
  end.

(** One turn of [for (const pos of csPositions)]; the state is
    [(seenCityStates, cityStates)]. *)
Definition cityStateStep (headerText : jsstring)
    (st : list jsstring * list jsstring) (pos : nat)
  : list jsstring * list jsstring :=
  let '(seenCityStates, cityStates) := st in
  match closestCiv (capturesBefore headerText pos) with
  | None => st
  | Some cs =>
      if bool_decide (cs ∈ seenCityStates) then st
      else (cs :: seenCityStates, cityStates ++ [formatEnumValue cs])
  end.

Record HeaderCivs : Type := mkHeaderCivs {
  player : option CivInfo;
  aiCivs : list CivInfo;
  hc_cityStates : list jsstring;
}.

Definition extractCivsFromHeader (headerText : jsstring) : HeaderCivs :=
  let fullCivPositions := occurrences headerText (js "CIVILIZATION_LEVEL_FULL_CIV") in
  let allCivs := snd (fold_left (fullCivStep headerText) fullCivPositions ([], [])) in
  let csPositions := occurrences headerText (js "CIVILIZATION_LEVEL_CITY_STATE") in
  let cityStates := snd (fold_left (cityStateStep headerText) csPositions ([], [])) in
  mkHeaderCivs (head allCivs) (skipn 1 allCivs) (firstn 15 cityStates).

(** Map known cities to their civilization. *)
Definition cityToCiv : list (jsstring * jsstring) :=
  [ (js "Hue", js "VIETNAM"); (js "Da Nang", js "VIETNAM");
    (js "Hanoi", js "VIETNAM"); (js "Saigon", js "VIETNAM");
    (js "Nha Trang", js "VIETNAM"); (js "Can Tho", js "VIETNAM");
    (js "Hai Phong", js "VIETNAM"); (js "Vinh", js "VIETNAM");
    (js "Thang Long", js "VIETNAM"); (js "Bien Hoa", js "VIETNAM");
    (js "Tbilisi", js "GEORGIA"); (js "Kutaisi", js "GEORGIA");
    (js "Batumi", js "GEORGIA");
    (js "Persepolis", js "PERSIA"); (js "Pasargadae", js "PERSIA");
    (js "Susa", js "PERSIA");
    (js "Ottawa", js "CANADA"); (js "Toronto", js "CANADA");
    (js "Montreal", js "CANADA");
    (js "Amsterdam", js "NETHERLANDS"); (js "Rotterdam", js "NETHERLANDS");
    (js "The Hague", js "NETHERLANDS");
    (js "Istanbul", js "OTTOMAN"); (js "Ankara", js "OTTOMAN");
    (js "Edirne", js "OTTOMAN");
    (js "Rome", js "ROME"); (js "Antium", js "ROME"); (js "Cumae", js "ROME");
    (js "Alexandria", js "EGYPT"); (js "Thebes", js "EGYPT");
    (js "Memphis", js "EGYPT") ].

Fixpoint identifyCivFromCities (cities : list jsstring) : option jsstring :=
  match cities with
  | [] => None
  | city :: rest =>
      match lookupTable cityToCiv city with
      | Some civ => if bool_decide (civ = []) then identifyCivFromCities rest
                    else Some civ
      | None => identifyCivFromCities rest
      end
  end.

(** *** The decompressed-content analyzer *)

(** [/PREFIX_[A-Z_]+/]: a literal prefix and the run of [[A-Z_]] behind it. *)
Definition tokenAt (prefix s : jsstring) : option nat :=
  if startsWith s prefix then
    match takeWhile isUpperUnderscore (skipn (length prefix) s) with
    | [] => None
    | run => Some (length prefix + length run)
    end
  else None.

(** [/GREAT_PERSON_INDIVIDUAL_[A-Z_]+_NAME/]: the greedy class takes the
    whole run and gives characters back until _NAME follows; the match
    ends at the last _NAME of the run that has a character before it. *)
Definition greatPersonAt (s : jsstring) : option nat :=
  let prefix := js "GREAT_PERSON_INDIVIDUAL_" in
  if startsWith s prefix then
    let run := takeWhile isUpperUnderscore (skipn (length prefix) s) in
    match find (fun n => startsWith (skipn n run) (js "_NAME"))
               (rev (seq 1 (length run))) with
    | Some n => Some (length prefix + n + 5)
    | None => None
    end
  else None.

Definition WONDER_NAMES : list jsstring :=
  map js
    [ "PYRAMIDS"; "STONEHENGE"; "HANGING_GARDENS"; "ORACLE"; "COLOSSEUM"; "PETRA";
      "TERRACOTTA_ARMY"; "MACHU_PICCHU"; "GREAT_LIBRARY"; "GREAT_LIGHTHOUSE";
      "COLOSSUS"; "ALHAMBRA"; "CHICHEN_ITZA"; "ANGKOR_WAT"; "MONT_ST_MICHEL";
      "FORBIDDEN_CITY"; "TAJ_MAHAL"; "POTALA_PALACE"; "ST_BASILS_CATHEDRAL";
      "BIG_BEN"; "HERMITAGE"; "BOLSHOI_THEATRE"; "OXFORD_UNIVERSITY";
      "RUHR_VALLEY"; "STATUE_OF_LIBERTY"; "EIFFEL_TOWER"; "BROADWAY";
      "CRISTO_REDENTOR"; "SYDNEY_OPERA_HOUSE"; "PANAMA_CANAL"; "VENETIAN_ARSENAL";
      "GREAT_ZIMBABWE"; "APADANA"; "HUEY_TEOCALLI"; "JEBEL_BARKAL"; "KILWA_KISIWANI";
      "KOTOKU_IN"; "MEENAKSHI_TEMPLE"; "STATUE_OF_ZEUS"; "TEMPLE_OF_ARTEMIS";
      "AMUNDSEN_SCOTT"; "BIOSPHERE"; "CASA_DE_CONTRATACION"; "GOLDEN_GATE_BRIDGE";
      "GREAT_BATH"; "HAGIA_SOPHIA"; "MAUSOLEUM_HALICARNASSUS" ]%string.

Definition isWonder (building : jsstring) : bool :=
  let name := removeFirst (js "BUILDING_") building in
  existsb (fun w => startsWith name w) WONDER_NAMES.

Definition wonderSuffixes : list jsstring :=
  map js
    [ "_NAME"; "_GOLD"; "_PRODUCTION"; "_CULTURE"; "_FAITH"; "_SCIENCE";
      "_DESCRIPTION"; "_RANDOMCIVICBOOST"; "_RANDOMTECHBOOST"; "_QUOTE" ]%string.

(** [for (const suffix of suffixes) if (name.endsWith(suffix))
    { name = name.slice(0, -suffix.length); break; }] *)
Fixpoint stripFirstSuffix (suffixes : list jsstring) (name : jsstring) : jsstring :=
  match suffixes with
  | [] => name
  | suffix :: rest =>
      if endsWith name suffix then firstn (length name - length suffix) name
      else stripFirstSuffix rest name
  end.

Definition cleanWonderName (building : jsstring) : jsstring :=
  let name := removeFirst (js "BUILDING_") building in
  formatEnumValue (stripFirstSuffix wonderSuffixes name).

Definition cityStateNames : list jsstring :=
  map js
    [ "HATTUSA"; "KABUL"; "SINGAPORE"; "NGAZARGAMU"; "HUNZA"; "LA_VENTA"; "AKKAD";
      "TARUGA"; "BRUSSELS"; "GENEVA"; "BABYLON"; "MUSCAT"; "VALLETTA"; "BUENOS_AIRES";
      "ANTANANARIVO"; "ZANZIBAR"; "KUMASI"; "VILNIUS"; "BOLOGNA"; "FEZ"; "JERUSALEM";
      "KANDY"; "YEREVAN"; "VATICAN_CITY"; "AUCKLAND"; "GRANADA"; "CAHOKIA";
      "MITLA"; "JOHANNESBURG"; "NAZCA"; "AYUTTHAYA"; "CAGUANA"; "CHINGUETTI";
      "HONG_KONG"; "MOHENJO_DARO"; "NAN_MADOL"; "PRESLAV"; "RAPA_NUI"; "TORONTO";
      "WOLIN"; "ARMAGH"; "LAHORE"; "SAMARKAND"; "MOGADISHU"; "NALANDA" ]%string.

Definition isCityState (civ : jsstring) : bool :=
  existsb (fun cs => includes civ cs) cityStateNames.

Definition formatGreatPersonName (raw : jsstring) : jsstring :=
  join (js " ")
    (map (fun w => firstn 1 w ++ toLowerCase (skipn 1 w))
       (split 95%Z
          (removeFirst (js "_NAME")
             (removeFirst (js "GREAT_PERSON_INDIVIDUAL_") raw)))).

Record DecompressedInfo : Type := mkDecompressedInfo {
  technologies : list jsstring;
  civics : list jsstring;
  wonders : list jsstring;
  greatPeople : list jsstring;
  cityStates : list jsstring;
  playerCities : list jsstring;
}.

Definition vietnamCities : list jsstring :=
  map js [ "THANG_LONG"; "HUE"; "HANOI"; "SAIGON"; "DA_NANG"; "HAI_PHONG";
           "NHA_TRANG"; "CAN_THO"; "BIEN_HOA"; "VINH" ]%string.

(** The lists of the analyzer before they are cut, as functions of the
    decoded text. (The local [cityNames] of the source is never read and is
    left out.) *)
Definition techsOf (text : jsstring) : list jsstring :=
  dedup (filter (fun t => negb (includes t (js "BOOST")) && negb (includes t (js "GRANT")))
           (matchAll (tokenAt (js "TECH_")) text)).

Definition civicsOf (text : jsstring) : list jsstring :=
  dedup (matchAll (tokenAt (js "CIVIC_")) text).

Definition wonderNamesCleanOf (text : jsstring) : list jsstring :=
  let wonderMatches :=
    dedup (filter isWonder (matchAll (tokenAt (js "BUILDING_")) text)) in
  dedup (map cleanWonderName wonderMatches).

Definition greatPeopleOf (text : jsstring) : list jsstring :=
  map formatGreatPersonName (dedup (matchAll greatPersonAt text)).

Definition playerCitiesOf (text : jsstring) : list jsstring :=
  map formatEnumValue (filter (fun c => includes text c) vietnamCities).

Definition cityStatesOf (text : jsstring) : list jsstring :=
  map formatEnumValue
    (filter isCityState
       (map (removeFirst (js "CIVILIZATION_"))
          (dedup (matchAll (tokenAt (js "CIVILIZATION_")) text)))).

Definition analyzeText (text : jsstring) : DecompressedInfo :=
  {| technologies :=
       map (fun t => formatEnumValue (removeFirst (js "TECH_") t))
         (firstn 20 (techsOf text));
     civics :=
       map (fun c => formatEnumValue (removeFirst (js "CIVIC_") c))
         (firstn 20 (civicsOf text));
     wonders := firstn 15 (wonderNamesCleanOf text);
     greatPeople := firstn 15 (greatPeopleOf text);
     cityStates := firstn 12 (cityStatesOf text);
     playerCities := playerCitiesOf text |}.

Definition analyzeDecompressedData (data : list byte) : DecompressedInfo :=
  analyzeText (utf8Decode data).

(** *** Header fields recovered by pattern search *)

Definition quote : jsstring := [34%Z].

(** [/"LOC_MAP_([A-Z_]+)":\[/] *)
Definition mapTypeAt (s : jsstring) : option jsstring :=
  let prefix := quote ++ js "LOC_MAP_" in
  if startsWith s prefix then
    let rest := skipn (length prefix) s in
    let run := takeWhile isUpperUnderscore rest in
    if negb (bool_decide (run = []))
       && startsWith (skipn (length run) rest) (quote ++ js ":[")
    then Some run else None
  else None.

(** [/"LOC_ERA_([A-Z]+)_NAME"/] *)
Definition eraAt (s : jsstring) : option jsstring :=
  let prefix := quote ++ js "LOC_ERA_" in
  if startsWith s prefix then
    let rest := skipn (length prefix) s in
    let run := takeWhile isUpper rest in
    if negb (bool_decide (run = []))
       && startsWith (skipn (length run) rest) (js "_NAME" ++ quote)
    then Some run else None
  else None.

(** [/DIFFICULTY_([A-Z]+)(?![A-Z_])/]: behind the run of capitals there must
    be no underscore (giving capitals back would leave a capital there). *)
Definition difficultyAt (s : jsstring) : option jsstring :=
  let prefix := js "DIFFICULTY_" in
  if startsWith s prefix then
    let rest := skipn (length prefix) s in
    let run := takeWhile isUpper rest in
    if negb (bool_decide (run = []))
       && negb (startsWith (skipn (length run) rest) (js "_"))
    then Some run else None
  else None.

(** [/(\d+\.\d+\.\d+)\s*\((\d+)\)/]: the two captures. *)
Definition versionAt (s : jsstring) : option (jsstring * jsstring) :=
  let d1 := takeWhile isDigit s in
  let s1 := skipn (length d1) s in
  let d2 := takeWhile isDigit (skipn 1 s1) in
  let s2 := skipn (1 + length d2) s1 in
  let d3 := takeWhile isDigit (skipn 1 s2) in
  let s3 := skipn (1 + length d3) s2 in
  let s4 := dropWhile isWhiteSpace s3 in
  let d4 := takeWhile isDigit (skipn 1 s4) in
  let s5 := skipn (1 + length d4) s4 in
  if negb (bool_decide (d1 = [])) && startsWith s1 (js ".")
     && negb (bool_decide (d2 = [])) && startsWith s2 (js ".")
     && negb (bool_decide (d3 = []))
     && startsWith s4 (js "(") && negb (bool_decide (d4 = []))
     && startsWith s5 (js ")")
  then Some (d1 ++ js "." ++ d2 ++ js "." ++ d3, d4)
  else None.

(** [/AutoSave_(\d+)/] *)
Definition autoSaveAt (s : jsstring) : option jsstring :=
  let prefix := js "AutoSave_" in
  if startsWith s prefix then
    match takeWhile isDigit (skipn (length prefix) s) with
    | [] => None
    | ds => Some ds
    end
  else None.

(** Matching under the [i] flag: ASCII letters are compared without case. *)
Definition foldCase (c : Z) : Z := if isLower c then (c - 32)%Z else c.
Definition isHex (c : Z) : bool :=
  isDigit c || (65 <=? foldCase c)%Z && (foldCase c <=? 70)%Z.
Definition isLetterUnderscore (c : Z) : bool :=
  isUpper c || isLower c || (c =? 95)%Z.
Definition startsWithNoCase (s pat : jsstring) : bool :=
  startsWith (map foldCase s) (map foldCase pat).

(** [n] hexadecimal digits at the head of [s]. *)
Definition hexRun (n : nat) (s : jsstring) : bool :=
  (length (firstn n s) =? n) && forallb isHex (firstn n s).

(** [/([0-9A-F]{8}-[0-9A-F]{4}-[0-9A-F]{4}-[0-9A-F]{4}-[0-9A-F]{12})\s*
    \{"LOC_([A-Z_]+)_MOD_TITLE"/gi]: the length of the match and its two
    captures. The quote that closes the match is no letter, so the run of
    letters and underscores must itself end with _MOD_TITLE. *)
Definition modAt (s : jsstring) : option (nat * (jsstring * jsstring)) :=
  let dash i := startsWith (skipn i s) (js "-") in
  if negb (hexRun 8 s) then None
  else if dash 8 && hexRun 4 (skipn 9 s) && dash 13
     && hexRun 4 (skipn 14 s) && dash 18 && hexRun 4 (skipn 19 s) && dash 23
     && hexRun 12 (skipn 24 s)
  then
    let s1 := skipn 36 s in
    let s2 := dropWhile isWhiteSpace s1 in
    let ws := length s1 - length s2 in
    let open := js "{" ++ quote ++ js "LOC_" in
    if startsWithNoCase s2 open then
      let rest := skipn (length open) s2 in
      let run := takeWhile isLetterUnderscore rest in
      let n := length run - 10 in
      if (11 <=? length run)
         && startsWithNoCase (skipn n run) (js "_MOD_TITLE")
         && startsWith (skipn (length run) rest) quote
      then Some (36 + ws + length open + length run + 1, (firstn 36 s, firstn n run))
      else None
    else None
  else None.

(** The matches of [modAt] over the text, in order. *)
Fixpoint modMatches (text : jsstring) (skip : nat) : list (jsstring * jsstring) :=
  match text with
  | [] => []
  | _ :: rest =>
      match skip with
      | S k => modMatches rest k
      | O =>
          match modAt text with
          | Some (S n, caps) => caps :: modMatches rest n
          | _ => modMatches rest 0
          end
      end
  end.

Record ModInfo : Type := mkModInfo {
  id : jsstring;
  title : jsstring;
}.

(** [match[2].replace(/_MOD_TITLE$/, '')] *)
Definition stripModTitle (s : jsstring) : jsstring :=
  if endsWith s (js "_MOD_TITLE") then firstn (length s - 10) s else s.

Definition modStep (mods : list ModInfo) (m : jsstring * jsstring) : list ModInfo :=
  let modId := fst m in
  let modName := formatEnumValue (stripModTitle (snd m)) in
  if existsb (fun x => bool_decide (id x = modId)) mods then mods
  else mods ++ [mkModInfo modId modName].

(** *** [parseSaveFile] *)

Record GameState : Type := mkGameState {
  gs_leader : jsstring;
  gs_civilization : jsstring;
  turn : Z;
  era : jsstring;
  difficulty : jsstring;
  mapType : jsstring;
  mapSize : jsstring;
  gameSpeed : jsstring;
  gameVersion : jsstring;
  otherCivs : list CivInfo;
  gs_cityStates : list jsstring;
  mods : list ModInfo;
  (** the fields spread from [decompressedInfo], when there is one:
      technologies, civics, wonders, greatPeople, playerCities *)
  extended : option DecompressedInfo;
}.

(** The index [matchIndex] of the civ that the decoded city names point
    to, when the lookup in the city table and in the roster both succeed. *)
Definition matchedIndex (allCivs : list CivInfo)
    (decompressedInfo : option DecompressedInfo) : option nat :=
  match decompressedInfo with
  | Some info =>
      match playerCities info with
      | [] => None
      | _ :: _ =>
          (* Find which civ matches the player cities *)
          match identifyCivFromCities (playerCities info) with
          | None => None
          | Some playerCivName =>
              (* Find this civ in our list *)
              findIndex
                (fun c => bool_decide (toUpperCase (civilization c)
                                       = toUpperCase playerCivName))
                allCivs
          end
      end
  | None => None
  end.

(** Lines 417-445: the player civ and the other civs, from the roster and
    the analyzer's result. An element of [allCivs] is one object; the
    assignments to [isHuman] are the [setHuman] below. *)
Definition identifyPlayer (allCivs : list CivInfo)
    (decompressedInfo : option DecompressedInfo)
  : option CivInfo * list CivInfo :=
  let matched : option (CivInfo * list CivInfo) :=
    match matchedIndex allCivs decompressedInfo with
    | Some matchIndex =>
        match allCivs !! matchIndex with
        | Some c =>
            Some (setHuman true c,
                  firstn matchIndex allCivs ++ skipn (S matchIndex) allCivs)
        | None => None
        end
    | None => None
    end in
  let '(playerCiv, otherCivs) :=
    match matched with
    | Some (p, others) => (Some p, others)
    | None =>
        (* Fallback: use first civ as player *)
        match allCivs with
        | c :: rest => (Some c, rest)
        | [] => (None, [])
        end
    end in
  (* Mark all other civs as AI (not human) *)
  (playerCiv, map (setHuman false) otherCivs).

(** The state that [parseSaveFile] returns, together with its local
    [playerCiv] at the return statement. *)
Record SaveParse : Type := mkSaveParse {
  state : GameState;
  playerCiv : option CivInfo;
}.

Definition invalidMagic (magic : jsstring) : exn :=
  Error (js "Invalid Civ6 save file: expected CIV6 magic bytes, got " ++ magic).

(** [buffer.subarray(0, 4).toString('ascii')] *)
Definition magicOf (buffer : list byte) : jsstring :=
  asciiDecode (substring buffer 0 4).

(** [headerSection] *)
Definition headerSectionOf (buffer : list byte) : jsstring :=
  utf8Decode (substring buffer 0 (Nat.min (length buffer) (Z.to_nat 150000))).

(** [allCivs]: the roster of the header, the header's player first. *)
Definition rosterOf (buffer : list byte) : list CivInfo :=
  let header := extractCivsFromHeader (headerSectionOf buffer) in
  match player header with
  | Some headerPlayer => headerPlayer :: aiCivs header
  | None => aiCivs header
  end.

(** [decompressedInfo]: the [try] block around the decompression. *)
Definition decompressedInfoOf (buffer : list byte) : option DecompressedInfo :=
  match decompressGameData buffer with
  | Some decompressed => Some (analyzeDecompressedData decompressed)
  | None => None
  end.

Definition orUnknown (s : option jsstring) : jsstring :=
  match s with
  | Some (c :: r) => c :: r
  | _ => js "Unknown"
  end.

(** [parseSaveFile], on the name of the file ([basename(filePath)]) and
    its content ([readFileSync(filePath)]). *)
Definition parseSave (filename : jsstring) (buffer : list byte) : result SaveParse :=
  (* Verify magic bytes *)
  let magic := magicOf buffer in
  if negb (bool_decide (magic = js "CIV6")) then Throw (invalidMagic magic)
  else
    (* Read header section *)
    let headerSection := headerSectionOf buffer in
    (* Extract turn from binary marker *)
    let! turnData := readMarkerValue buffer GAME_TURN in
    let turn0 :=
      match turnData with
      | Some (MarkerValue _ (DNum n)) => n
      | _ => 0%Z
      end in
    (* Fallback: try filename *)
    let turn1 :=
      if (turn0 =? 0)%Z then
        match matchFirst autoSaveAt filename with
        | Some ds => digitsValue ds
        | None => turn0
        end
      else turn0 in
    (* Extract game speed *)
    let! speedData := readMarkerValue buffer GAME_SPEED in
    let gameSpeed :=
      match speedData with
      | Some (MarkerValue _ (DStr s)) =>
          formatEnumValue (removeFirst (js "GAMESPEED_") s)
      | _ => js "Standard"
      end in
    (* Extract map size *)
    let! sizeData := readMarkerValue buffer MAP_SIZE in
    let mapSize :=
      match sizeData with
      | Some (MarkerValue _ (DStr s)) =>
          formatEnumValue (removeFirst (js "MAPSIZE_") s)
      | _ => js "Unknown"
      end in
    let mapType :=
      match matchFirst mapTypeAt headerSection with
      | Some c => formatEnumValue c
      | None => js "Unknown"
      end in
    let era :=
      match matchFirst eraAt headerSection with
      | Some c => formatEnumValue c
      | None => js "Unknown"
      end in
    let difficulty :=
      match matchFirst difficultyAt headerSection with
      | Some c => formatEnumValue c
      | None => js "Unknown"
      end in
    let gameVersion :=
      match matchFirst versionAt headerSection with
      | Some (v, build) => v ++ js " (" ++ build ++ js ")"
      | None => js "Unknown"
      end in
    (* Extract all civs from header *)
    let headerCityStates := hc_cityStates (extractCivsFromHeader headerSection) in
    let allCivs := rosterOf buffer in
    (* Extract mods *)
    let mods := fold_left modStep (modMatches headerSection 0) [] in
    (* Try to get additional data from decompressed section *)
    let decompressedInfo := decompressedInfoOf buffer in
    (* Identify player civ based on player cities *)
    let players := identifyPlayer allCivs decompressedInfo in
    Ok {| state :=
            {| gs_leader := orUnknown (leader <$> fst players);
               gs_civilization := orUnknown (civilization <$> fst players);
               turn := turn1;
               era := era;
               difficulty := difficulty;
               mapType := mapType;
               mapSize := mapSize;
               gameSpeed := gameSpeed;
               gameVersion := gameVersion;
               otherCivs := snd players;
               (* Prefer header city-states as they're more reliably detected *)
               gs_cityStates :=
                 match headerCityStates with
                 | _ :: _ => headerCityStates
                 | [] =>
                     match decompressedInfo with
                     | Some info => cityStates info
                     | None => []
                     end
                 end;
               mods := mods;
               extended := decompressedInfo |};
          playerCiv := fst players |}.

Definition parseSaveFile (filename : jsstring) (buffer : list byte)
  : result GameState :=
  let! p := parseSave filename buffer in Ok (state p).

End WithRuntime.
End Parser.

(** ** The log parser: [buildPlayerIdMap] and [parseDiplomacy] *)

Module LogParser.

Definition showNum (n : num) : jsstring :=
  match n with
  | NaN => js "NaN"
  | Num z => js (DecimalString.NilZero.string_of_int (Z.to_int z))
  end.

Definition numEq (a b : num) : bool :=
  match a, b with
  | Num x, Num y => (x =? y)%Z
  | _, _ => false (* NaN === anything is false *)
  end.

(** One turn of the loop over the data lines of Player_Stats.csv; the
    state is the [Map] [latestTurn], in insertion order. *)
Definition firstSeenStep (latestTurn : list (jsstring * Z)) (line : jsstring)
  : list (jsstring * Z) :=
  let values := map trim (split 44%Z line) in
  if length values <? 2 then latestTurn
  else
    let civName := removeFirst (js "CIVILIZATION_") (nth 1 values []) in
    if existsb (fun e => bool_decide (fst e = civName)) latestTurn then latestTurn
    else latestTurn ++ [(civName, Z.of_nat (length latestTurn))].

(** [latestTurn] once the loop is over. *)
Definition firstSeen (content : jsstring) : list (jsstring * Z) :=
  fold_left firstSeenStep (skipn 1 (split 10%Z (trim content))) [].

(** [buildPlayerIdMap]; [statsFile] is the content of Player_Stats.csv,
    [None] when the file does not exist. *)
Definition buildPlayerIdMap (statsFile : option jsstring) : gmap Z jsstring :=
  match statsFile with
  | None => ∅
  | Some content =>
      let lines := split 10%Z (trim content) in
      if length lines <? 2 then ∅
      else
        (* Invert: player ID -> civ name *)
        fold_left (fun playerMap e => <[snd e := fst e]> playerMap)
          (firstSeen content) ∅
  end.

(** [playerMap.get(playerId) || `Player ${playerId}`] (the decimal form of
    the number, as JavaScript prints integers below 1e21). *)
Definition getCivName (playerId : num) (playerMap : gmap Z jsstring) : jsstring :=
  match match playerId with
        | Num z => playerMap !! z
        | NaN => None
        end with
  | Some (c :: r) => c :: r
  | _ => js "Player " ++ showNum playerId
  end.

Section WithRuntime.
Context `{Runtime}.

Definition formatCivName (rawName : jsstring) : jsstring :=
  join (js " ")
    (map (fun w => toUpperCase (firstn 1 w) ++ toLowerCase (skipn 1 w))
       (split 95%Z rawName)).

Record DiplomaticRelation : Type := mkRelation {
  fromCiv : jsstring;
  toCiv : jsstring;
  fromPlayerId : num;
  toPlayerId : Z;
  state : jsstring;
  score : num;
  threat : float;
  trust : float;
}.

(** [/(-?\d+):DIPLO_STATE_(\w+)/]: the two captures of the match that
    starts at the head of [s]. *)
Definition relationAt (s : jsstring) : option (jsstring * jsstring) :=
  let '(sign, s1) :=
    match s with
    | 45%Z :: r => ([45%Z], r)
    | _ => ([], s)
    end in
  let ds := takeWhile isDigit s1 in
  let s2 := skipn (length ds) s1 in
  let lit := js ":DIPLO_STATE_" in
  let w := takeWhile isWord (skipn (length lit) s2) in
  if negb (bool_decide (ds = [])) && startsWith s2 lit && negb (bool_decide (w = []))
  then Some (sign ++ ds, w) else None.

(** [/([\d.]+):(\d+):([\d.]+)/]: captures 1 and 3. *)
Definition threatTrustAt (s : jsstring) : option (jsstring * jsstring) :=
  let a := takeWhile isDigitDot s in
  let s1 := skipn (length a) s in
  let b := takeWhile isDigit (skipn 1 s1) in
  let s2 := skipn (1 + length b) s1 in
  let c := takeWhile isDigitDot (skipn 1 s2) in
  if negb (bool_decide (a = [])) && startsWith s1 (js ":")
     && negb (bool_decide (b = [])) && startsWith s2 (js ":")
     && negb (bool_decide (c = []))
  then Some (a, c) else None.

(** The loop [for (let col = 4; col < parts.length; col++)] of the first
    pass, on the cells from column [4 + toPlayerId] on. *)
Fixpoint relationCells (playerMap : gmap Z jsstring) (fromPlayerId : num)
    (toPlayerId : nat) (cells : list jsstring) : list DiplomaticRelation :=
  match cells with
  | [] => []
  | cellValue :: rest =>
      let later := relationCells playerMap fromPlayerId (S toPlayerId) rest in
      match cellValue with
      | [] => later
      | _ :: _ =>
          (* Format: "score:DIPLO_STATE_XXX" *)
          match matchFirst relationAt cellValue with
          | None => later
          | Some (scoreText, state) =>
              (* Skip self-relations *)
              if numEq fromPlayerId (Num (Z.of_nat toPlayerId)) then later
              else
                {| fromCiv := formatCivName (getCivName fromPlayerId playerMap);
                   toCiv := formatCivName
                              (getCivName (Num (Z.of_nat toPlayerId)) playerMap);
                   fromPlayerId := fromPlayerId;
                   toPlayerId := Z.of_nat toPlayerId;
                   state := state;
                   score := parseInt scoreText;
                   threat := float_zero;
                   trust := float_zero |} :: later
          end
      end
  end.

Definition THREAT_AND_TRUST : jsstring := js "Threat and Trust".

(** The relations one line contributes in the first pass. *)
Definition relationsOfLine (playerMap : gmap Z jsstring) (line : jsstring)
  : list DiplomaticRelation :=
  let parts := map trim (split 44%Z line) in
  if length parts <? 4 then []
  else
    let fromPlayerId := parseInt (nth 1 parts []) in
    let action := nth 2 parts [] in
    (* Skip "Threat and Trust" rows - we'll parse those separately *)
    if bool_decide (action = THREAT_AND_TRUST) then []
    else relationCells playerMap fromPlayerId 0 (skipn 4 parts).

(** [const relation = relations.find(r => r.fromPlayerId === fromPlayerId
    && r.toPlayerId === toPlayerId); if (relation) { relation.threat =
    threat; relation.trust = trust; }]: the first relation of the pair is
    updated in place. *)
Fixpoint backfill (fromId : num) (toId : Z) (threat trust : float)
    (relations : list DiplomaticRelation) : list DiplomaticRelation :=
  match relations with
  | [] => []
  | r :: rest =>
      if numEq (fromPlayerId r) fromId && (toPlayerId r =? toId)%Z then
        mkRelation (fromCiv r) (toCiv r) (fromPlayerId r) (toPlayerId r)
                   (state r) (score r) threat trust :: rest
      else r :: backfill fromId toId threat trust rest
  end.

(** The loop over the cells of a "Threat and Trust" line. *)
Fixpoint threatCells (fromPlayerId : num) (toPlayerId : nat)
    (cells : list jsstring) (relations : list DiplomaticRelation)
  : list DiplomaticRelation :=
  match cells with
  | [] => relations
  | cellValue :: rest =>
      let relations' :=
        match cellValue with
        | [] => relations
        | _ :: _ =>
            (* Format: "threat:rank:trust" *)
            match matchFirst threatTrustAt cellValue with
            | None => relations
            | Some (threatText, trustText) =>
                backfill fromPlayerId (Z.of_nat toPlayerId)
                         (parseFloat threatText) (parseFloat trustText) relations
            end
        end in
      threatCells fromPlayerId (S toPlayerId) rest relations'
  end.

(** One line of the second pass. *)
Definition backfillLine (relations : list DiplomaticRelation) (line : jsstring)
  : list DiplomaticRelation :=
  let parts := map trim (split 44%Z line) in
  if (length parts <? 4) || negb (bool_decide (nth 2 parts [] = THREAT_AND_TRUST))
  then relations
  else
    let fromPlayerId := parseInt (nth 1 parts []) in
    threatCells fromPlayerId 0 (skipn 4 parts) relations.

(** [parseDiplomacy]; the arguments are the contents of AI_Diplomacy.csv
    and of Player_Stats.csv, [None] for a file that does not exist. *)
Definition parseDiplomacy (diplomacyFile statsFile : option jsstring)
  : list DiplomaticRelation :=
  match diplomacyFile with
  | None => []
  | Some content =>
      let playerMap := buildPlayerIdMap statsFile in
      let lines := split 10%Z (trim content) in
      if length lines <? 2 then []
      else
        let relations := flat_map (relationsOfLine playerMap) (skipn 1 lines) in
        fold_left backfillLine (skipn 1 lines) relations
  end.

(** *** Display names of enum values and of cities *)

(** The alternatives of [/^(UNIT_|BUILDING_|DISTRICT_|PROJECT_|TECH_|CIVIC_|
    GREAT_PERSON_INDIVIDUAL_|GREAT_PERSON_CLASS_)/], in their order. *)
Definition enumPrefixes : list jsstring :=
  map js
    [ "UNIT_"; "BUILDING_"; "DISTRICT_"; "PROJECT_"; "TECH_"; "CIVIC_";
      "GREAT_PERSON_INDIVIDUAL_"; "GREAT_PERSON_CLASS_" ]%string.

(** [name.replace(/^(p1|p2|...)/, '')]: the first alternative that [name]
    starts with is removed. *)
Fixpoint stripFirstPrefix (prefixes : list jsstring) (name : jsstring) : jsstring :=
  match prefixes with
  | [] => name
  | p :: rest =>
      if startsWith name p then skipn (length p) name
      else stripFirstPrefix rest name
  end.

(** Format enum-style names (UNIT_TANK -> Tank, BUILDING_LIBRARY -> Library). *)
Definition formatEnumName (name : jsstring) : jsstring :=
  join (js " ")
    (map (fun w => toUpperCase (firstn 1 w) ++ toLowerCase (skipn 1 w))
       (split 95%Z (stripFirstPrefix enumPrefixes name))).

(** [s.replace(/^prefix/, '')] *)
Definition stripPrefix (prefix s : jsstring) : jsstring :=
  if startsWith s prefix then skipn (length prefix) s else s.

(** Format city name (LOC_CITY_HA_NOI -> Ha Noi, LOC_CITY_NAME_GEELONG ->
    Geelong). *)
Definition formatCityName (locName : jsstring) : jsstring :=
  join (js " ")
    (map (fun w => toUpperCase (firstn 1 w) ++ toLowerCase (skipn 1 w))
       (split 95%Z
          (stripPrefix (js "NAME_")
             (stripPrefix (js "LOC_CITY_")
                (stripPrefix (js "LOC_CITY_NAME_") locName))))).

(** *** City founding statistics *)

Section Founding.
Context `{!FloatTests}.

Record CityFoundingStats : Type := mkCityFoundingStats {
  cf_turn : num;
  cf_playerId : num;
  city : jsstring;
  cityDisplayName : jsstring;
  foodAdvantage : float;
  productionAdvantage : float;
}.

(** One turn of the loop over the data lines of AI_CityBuild.csv; the
    state is the keys of [seenCities] and the list [stats]. *)
Definition foundingStep (st : list jsstring * list CityFoundingStats)
    (line : jsstring) : list jsstring * list CityFoundingStats :=
  let '(seenCities, stats) := st in
  let values := map trim (split 44%Z line) in
  if length values <? 5 then st
  else
    let turn := parseInt (nth 0 values []) in
    let playerId := parseInt (nth 1 values []) in
    let city := nth 2 values [] in
    let foodAdvantage := parseFloat (nth 3 values []) in
    let productionAdvantage := parseFloat (nth 4 values []) in
    (* Skip entries without food/production data *)
    if isNaN foodAdvantage || isNaN productionAdvantage then st
    else
      (* Only keep the first entry per city per player *)
      let key := showNum playerId ++ js ":" ++ city in
      if bool_decide (key ∈ seenCities) then st
      else
        (seenCities ++ [key],
         stats ++ [ {| cf_turn := turn;
                       cf_playerId := playerId;
                       city := city;
                       cityDisplayName := formatCityName city;
                       foodAdvantage := foodAdvantage;
                       productionAdvantage := productionAdvantage |} ]).

(** [parseCityFoundingStats], on the content of AI_CityBuild.csv, [None]
    when the file does not exist. *)
Definition parseCityFoundingStats (cityBuildFile : option jsstring)
  : list CityFoundingStats :=
  match cityBuildFile with
  | None => []
  | Some content =>
      let lines := split 10%Z (trim content) in
      if length lines <? 2 then []
      else snd (fold_left foundingStep (skipn 1 lines) ([], []))
  end.

End Founding.

End WithRuntime.
End LogParser.

(** ** The history parser *)

Module HistoryParser.

Record RawPlayerStats : Type := mkRawPlayerStats {
  rs_turn : num;
  rs_civilization : jsstring;
  numCities : num;
  population : num;
  techs : num;
  civics : num;
  landUnits : num;
  corps : num;
  armies : num;
  navalUnits : num;
  tilesOwned : num;
  tilesImproved : num;
  goldBalance : num;
  faithBalance : num;
  scienceYield : num;
  cultureYield : num;
  goldYield : num;
  faithYield : num;
  productionYield : num;
  foodYield : num;
}.

Record RawPlayerScore : Type := mkRawPlayerScore {
  sc_turn : num;
  playerId : num;
  sc_score : num;
  sc_civics : num;
  empire : num;
  sc_greatPeople : num;
  religion : num;
  tech : num;
  wonder : num;
}.

(** One data line of Player_Stats.csv. *)
Definition statsOfLine (line : jsstring) : list RawPlayerStats :=
  let values := map trim (split 44%Z line) in
  if length values <? 20 then []
  else [ {| rs_turn := parseInt (nth 0 values []);
            rs_civilization := removeFirst (js "CIVILIZATION_") (nth 1 values []);
              numCities := parseInt (nth 2 values []);
              population := parseInt (nth 3 values []);
              techs := parseInt (nth 4 values []);
              civics := parseInt (nth 5 values []);
              landUnits := parseInt (nth 6 values []);
              corps := parseInt (nth 7 values []);
              armies := parseInt (nth 8 values []);
              navalUnits := parseInt (nth 9 values []);
              tilesOwned := parseInt (nth 10 values []);
              tilesImproved := parseInt (nth 11 values []);
              goldBalance := parseInt (nth 12 values []);
              faithBalance := parseInt (nth 13 values []);
              scienceYield := parseInt (nth 14 values []);
              cultureYield := parseInt (nth 15 values []);
              goldYield := parseInt (nth 16 values []);
              faithYield := parseInt (nth 17 values []);
              productionYield := parseInt (nth 18 values []);
              foodYield := parseInt (nth 19 values [])
         |} ].

(** [parsePlayerStatsCSV]; the argument is the content of Player_Stats.csv,
    [None] when the file does not exist. *)
Definition parsePlayerStatsCSV (statsFile : option jsstring) : list RawPlayerStats :=
  match statsFile with
  | None => []
  | Some content =>
      let lines := split 10%Z (trim content) in
      if length lines <? 2 then []
      else flat_map statsOfLine (skipn 1 lines) (* Skip header line *)
  end.

Definition scoreOfLine (line : jsstring) : list RawPlayerScore :=
  let values := map trim (split 44%Z line) in
  if length values <? 9 then []
  else [ {| sc_turn := parseInt (nth 0 values []);
            playerId := parseInt (nth 1 values []);
            sc_score := parseInt (nth 2 values []);
            sc_civics := parseInt (nth 3 values []);
            empire := parseInt (nth 4 values []);
            sc_greatPeople := parseInt (nth 5 values []);
            religion := parseInt (nth 6 values []);
            tech := parseInt (nth 7 values []);
            wonder := parseInt (nth 8 values []) |} ].

(** [parsePlayerScoresCSV], on the content of Game_PlayerScores.csv. *)
Definition parsePlayerScoresCSV (scoresFile : option jsstring) : list RawPlayerScore :=
  match scoresFile with
  | None => []
  | Some content =>
      let lines := split 10%Z (trim content) in
      if length lines <? 2 then []
      else flat_map scoreOfLine (skipn 1 lines)
  end.

(** Map civilization names to proper display names. The entries are those
    of the source text, code unit by code unit. *)
Definition CIV_DISPLAY_NAMES : list (jsstring * (jsstring * jsstring)) :=
  [
    (js "AMERICA", (js "America", js "Theodore Roosevelt"));
    (js "ARABIA", (js "Arabia", js "Saladin"));
    (js "AUSTRALIA", (js "Australia", js "John Curtin"));
    (js "AZTEC", (js "Aztec", js "Montezuma"));
    (js "BABYLON_STK", (js "Babylon", js "Hammurabi"));
    (js "BRAZIL", (js "Brazil", js "Pedro II"));
    (js "BYZANTIUM", (js "Byzantium", js "Basil II"));
    (js "CANADA", (js "Canada", js "Wilfrid Laurier"));
    (js "CHINA", (js "China", js "Qin Shi Huang"));
    (js "CREE", (js "Cree", js "Poundmaker"));
    (js "EGYPT", (js "Egypt", js "Cleopatra"));
    (js "ENGLAND", (js "England", js "Victoria"));
    (js "ETHIOPIA", (js "Ethiopia", js "Menelik II"));
    (js "FRANCE", (js "France", js "Catherine de Medici"));
    (js "GAUL", (js "Gaul", js "Ambiorix"));
    (js "GEORGIA", (js "Georgia", js "Tamar"));
    (js "GERMANY", (js "Germany", js "Frederick Barbarossa"));
    (js "GRAN_COLOMBIA", (js "Gran Colombia", js "Sim" ++ [8730%Z] ++ [8805%Z] ++ js "n Bol" ++ [8730%Z] ++ [8800%Z] ++ js "var"));
    (js "GREECE", (js "Greece", js "Pericles"));
    (js "HUNGARY", (js "Hungary", js "Matthias Corvinus"));
    (js "INCA", (js "Inca", js "Pachacuti"));
    (js "INDIA", (js "India", js "Gandhi"));
    (js "INDONESIA", (js "Indonesia", js "Gitarja"));
    (js "JAPAN", (js "Japan", js "Hojo Tokimune"));
    (js "KHMER", (js "Khmer", js "Jayavarman VII"));
    (js "KONGO", (js "Kongo", js "Mvemba a Nzinga"));
    (js "KOREA", (js "Korea", js "Seondeok"));
    (js "MACEDON", (js "Macedon", js "Alexander"));
    (js "MALI", (js "Mali", js "Mansa Musa"));
    (js "MAORI", (js "Maori", js "Kupe"));
    (js "MAPUCHE", (js "Mapuche", js "Lautaro"));
    (js "MAYA", (js "Maya", js "Lady Six Sky"));
    (js "MONGOLIA", (js "Mongolia", js "Genghis Khan"));
    (js "NETHERLANDS", (js "Netherlands", js "Wilhelmina"));
    (js "NORWAY", (js "Norway", js "Harald Hardrada"));
    (js "NUBIA", (js "Nubia", js "Amanitore"));
    (js "OTTOMAN", (js "Ottoman Empire", js "Suleiman"));
    (js "PERSIA", (js "Persia", js "Cyrus"));
    (js "PHOENICIA", (js "Phoenicia", js "Dido"));
    (js "POLAND", (js "Poland", js "Jadwiga"));
    (js "PORTUGAL", (js "Portugal", js "Jo" ++ [8730%Z] ++ [163%Z] ++ js "o III"));
    (js "ROME", (js "Rome", js "Trajan"));
    (js "RUSSIA", (js "Russia", js "Peter"));
    (js "SCOTLAND", (js "Scotland", js "Robert the Bruce"));
    (js "SCYTHIA", (js "Scythia", js "Tomyris"));
    (js "SPAIN", (js "Spain", js "Philip II"));
    (js "SUMERIA", (js "Sumeria", js "Gilgamesh"));
    (js "SWEDEN", (js "Sweden", js "Kristina"));
    (js "VIETNAM", (js "Vietnam", js "B" ++ [8730%Z] ++ [8224%Z] ++ js " Tri" ++ [183%Z] ++ [170%Z] ++ [225%Z] ++ js "u"));
    (js "ZULU", (js "Zulu", js "Shaka"));
    (js "FREE_CITIES", (js "Free Cities", js "Free Cities"));
    (js "TARUGA", (js "Taruga", js "Taruga"));
    (js "AKKAD", (js "Akkad", js "Akkad"));
    (js "NGAZARGAMU", (js "Ngazargamu", js "Ngazargamu"));
    (js "BRUSSELS", (js "Brussels", js "Brussels"));
    (js "BABYLON", (js "Babylon", js "Babylon"));
    (js "LA_VENTA", (js "La Venta", js "La Venta"));
    (js "HUNZA", (js "Hunza", js "Hunza"));
    (js "HATTUSA", (js "Hattusa", js "Hattusa"));
    (js "KABUL", (js "Kabul", js "Kabul"));
    (js "SINGAPORE", (js "Singapore", js "Singapore"));
    (js "GRANADA", (js "Granada", js "Granada"));
    (js "CAHOKIA", (js "Cahokia", js "Cahokia"));
    (js "ZANZIBAR", (js "Zanzibar", js "Zanzibar"));
    (js "MITLA", (js "Mitla", js "Mitla"));
    (js "JOHANNESBURG", (js "Johannesburg", js "Johannesburg"));
    (js "MUSCAT", (js "Muscat", js "Muscat"));
    (js "GENEVA", (js "Geneva", js "Geneva"));
    (js "VALLETTA", (js "Valletta", js "Valletta"));
    (js "BUENOS_AIRES", (js "Buenos Aires", js "Buenos Aires"));
    (js "ANTANANARIVO", (js "Antananarivo", js "Antananarivo"));
    (js "KUMASI", (js "Kumasi", js "Kumasi"));
    (js "VILNIUS", (js "Vilnius", js "Vilnius"));
    (js "BOLOGNA", (js "Bologna", js "Bologna"));
    (js "FEZ", (js "Fez", js "Fez"));
    (js "JERUSALEM", (js "Jerusalem", js "Jerusalem"));
    (js "KANDY", (js "Kandy", js "Kandy"));
    (js "YEREVAN", (js "Yerevan", js "Yerevan"));
    (js "VATICAN_CITY", (js "Vatican City", js "Vatican City"));
    (js "AUCKLAND", (js "Auckland", js "Auckland"));
    (js "NAZCA", (js "Nazca", js "Nazca"));
    (js "SAMARKAND", (js "Samarkand", js "Samarkand"));
    (js "ANTIOCH", (js "Antioch", js "Antioch"));
    (js "BANDAR_BRUNEI", (js "Bandar Brunei", js "Bandar Brunei"));
    (js "HONG_KONG", (js "Hong Kong", js "Hong Kong"));
    (js "AMSTERDAM", (js "Amsterdam", js "Amsterdam"));
    (js "STOCKHOLM", (js "Stockholm", js "Stockholm"));
    (js "MOHENJO_DARO", (js "Mohenjo-Daro", js "Mohenjo-Daro"));
    (js "NAN_MADOL", (js "Nan Madol", js "Nan Madol"));
    (js "PRESLAV", (js "Preslav", js "Preslav"));
    (js "RAPA_NUI", (js "Rapa Nui", js "Rapa Nui"));
    (js "TORONTO", (js "Toronto", js "Toronto"));
    (js "ARMAGH", (js "Armagh", js "Armagh"));
    (js "CHINGUETTI", (js "Chinguetti", js "Chinguetti"));
    (js "LAHORE", (js "Lahore", js "Lahore"))
  ].

Definition cityStateList : list jsstring :=
  map js
    [
      "TARUGA"; "AKKAD"; "NGAZARGAMU"; "BRUSSELS"; "BABYLON"; "LA_VENTA"; "HUNZA";
      "HATTUSA"; "KABUL"; "SINGAPORE"; "GRANADA"; "CAHOKIA"; "ZANZIBAR"; "MITLA";
      "JOHANNESBURG"; "MUSCAT"; "GENEVA"; "VALLETTA"; "BUENOS_AIRES";
      "ANTANANARIVO"; "KUMASI"; "VILNIUS"; "BOLOGNA"; "FEZ"; "JERUSALEM"; "KANDY";
      "YEREVAN"; "VATICAN_CITY"; "AUCKLAND"; "NAZCA"; "SAMARKAND"; "ANTIOCH";
      "BANDAR_BRUNEI"
    ]%string.

Definition isCityState (civName : jsstring) : bool :=
  bool_decide (civName ∈ cityStateList) || bool_decide (civName = js "FREE_CITIES").

(** A JavaScript [Map] in insertion order; keys are compared as [Map] does
    (NaN is equal to NaN). *)
Section JsMap.
Context {K V : Type} `{EqDecision K}.

Fixpoint mapGet (k : K) (m : list (K * V)) : option V :=
  match m with
  | [] => None
  | (k', v) :: rest => if bool_decide (k' = k) then Some v else mapGet k rest
  end.

(** [m.set(k, f(m.get(k)))]: a new key goes to the end. *)
Fixpoint mapUpdate (k : K) (f : option V -> V) (m : list (K * V)) : list (K * V) :=
  match m with
  | [] => [(k, f None)]
  | (k', v) :: rest =>
      if bool_decide (k' = k) then (k', f (Some v)) :: rest
      else (k', v) :: mapUpdate k f rest
  end.
End JsMap.

Definition numAdd (a b : num) : num :=
  match a, b with
  | Num x, Num y => Num (x + y)
  | _, _ => NaN
  end.

Definition numSub (a b : num) : num :=
  match a, b with
  | Num x, Num y => Num (x - y)
  | _, _ => NaN
  end.

(** [a >= b], [a <= b], [a > b] on numbers: false when one side is NaN. *)
Definition numGe (a b : num) : bool :=
  match a, b with
  | Num x, Num y => (y <=? x)%Z
  | _, _ => false
  end.
Definition numLe (a b : num) : bool := numGe b a.
Definition numGt (a b : num) : bool :=
  match a, b with
  | Num x, Num y => (y <? x)%Z
  | _, _ => false
  end.

(** [Math.max(1, n)] *)
Definition max1 (n : num) : num :=
  match n with
  | Num x => Num (Z.max 1 x)
  | NaN => NaN
  end.

Section WithRuntime.
Context `{Runtime}.

Record CivStatistics : Type := mkCivStatistics {
  civilization : jsstring;
  leader : jsstring;
  rawCivName : jsstring;
  isCityState_ : bool; (* the field isCityState *)
  turn : num;
  score : num;
  cities : num;
  cs_population : num;
  sciencePerTurn : num;
  culturePerTurn : num;
  goldPerTurn : num;
  faithPerTurn : num;
  cs_landUnits : num;
  cs_navalUnits : num;
  cs_goldBalance : num;
  cs_faithBalance : num;
  techsResearched : num;
  civicsResearched : num;
  cs_tilesOwned : num;
  cs_tilesImproved : num;
}.

Record TurnData : Type := mkTurnData {
  td_turn : num;
  civStats : list CivStatistics;
}.

Record GameHistory : Type := mkGameHistory {
  turns : list TurnData;
  civilizations : list jsstring;
}.

(** [getCivDisplayInfo]. A raw name is looked up among the entries of the
    table itself: for a raw name that is the name of a member inherited
    from [Object.prototype] the object of the source answers with that
    member, whose [civ] and [leader] are undefined; such names are not
    covered here. *)
Definition getCivDisplayInfo (rawName : jsstring) : jsstring * jsstring :=
  match mapGet rawName CIV_DISPLAY_NAMES with
  | Some info => info
  | None =>
      (* Format unknown names *)
      let formatted :=
        join (js " ")
          (map (fun w => toUpperCase (firstn 1 w) ++ toLowerCase (skipn 1 w))
             (split 95%Z rawName)) in
      (formatted, formatted)
  end.

(** [scoresByTurn], a [Map] of [Map]s. *)
Definition scoreStep (scoresByTurn : list (num * list (num * num)))
    (s : RawPlayerScore) : list (num * list (num * num)) :=
  mapUpdate (sc_turn s)
    (fun old =>
       mapUpdate (playerId s) (fun _ => sc_score s)
         match old with
         | Some m => m
         | None => []
         end)
    scoresByTurn.

(** [turnMap]: the rows of each turn, turns in first-seen order. *)
Definition turnStep (turnMap : list (num * list RawPlayerStats))
    (stat : RawPlayerStats) : list (num * list RawPlayerStats) :=
  mapUpdate (rs_turn stat)
    (fun old =>
       match old with
       | Some rows => rows ++ [stat]
       | None => [stat]
       end)
    turnMap.

(** [civSet]: the raw names in first-seen order. *)
Definition civSetOf (rawStats : list RawPlayerStats) : list jsstring :=
  dedup (map rs_civilization rawStats).

Definition toCivStatistics (turnScores : option (list (num * num)))
    (index : nat) (s : RawPlayerStats) : CivStatistics :=
  let displayInfo := getCivDisplayInfo (rs_civilization s) in
  (* Match scores by index - civs appear in same order in both files *)
  let score :=
    match turnScores with
    | Some m =>
        match mapGet (Num (Z.of_nat index)) m with
        | Some sc => sc
        | None => Num 0
        end
    | None => Num 0
    end in
  {| civilization := fst displayInfo;
     leader := snd displayInfo;
     rawCivName := rs_civilization s;
     isCityState_ := isCityState (rs_civilization s);
     turn := rs_turn s;
     score := score;
     cities := numCities s;
     cs_population := population s;
     sciencePerTurn := scienceYield s;
     culturePerTurn := cultureYield s;
     goldPerTurn := goldYield s;
     faithPerTurn := faithYield s;
     cs_landUnits := numAdd (numAdd (landUnits s) (corps s)) (armies s);
     cs_navalUnits := navalUnits s;
     cs_goldBalance := goldBalance s;
     cs_faithBalance := faithBalance s;
     techsResearched := techs s;
     civicsResearched := civics s;
     cs_tilesOwned := tilesOwned s;
     cs_tilesImproved := tilesImproved s |}.

(** [stats.map((s, index) => ...)] *)
Fixpoint mapIndexed {A B} (f : nat -> A -> B) (i : nat) (l : list A) : list B :=
  match l with
  | [] => []
  | x :: xs => f i x :: mapIndexed f (S i) xs
  end.

Definition toTurnData (scoresByTurn : list (num * list (num * num)))
    (entry : num * list RawPlayerStats) : TurnData :=
  let '(turn, stats) := entry in
  let turnScores := mapGet turn scoresByTurn in
  {| td_turn := turn;
     civStats := mapIndexed (toCivStatistics turnScores) 0 stats |}.

(** [history.turns.sort((a, b) => a.turn - b.turn)]. The sort of
    JavaScript is stable; the model is the stable insertion sort for the
    comparator, [a] going behind [b] when [a.turn - b.turn > 0]. On turns
    that are numbers every stable sort gives this order. With a NaN turn
    the comparator is inconsistent, ECMAScript leaves the order to the
    implementation, and the order of V8 can differ from the one given
    here. *)
Fixpoint insertTurn (x : TurnData) (sorted : list TurnData) : list TurnData :=
  match sorted with
  | [] => [x]
  | y :: ys =>
      if numGt (td_turn y) (td_turn x) then x :: y :: ys
      else y :: insertTurn x ys
  end.

Definition sortTurns (l : list TurnData) : list TurnData :=
  fold_left (fun sorted x => insertTurn x sorted) l [].

Definition parseGameHistory (statsFile scoresFile : option jsstring)
  : option GameHistory :=
  let rawStats := parsePlayerStatsCSV statsFile in
  match rawStats with
  | [] => None
  | _ :: _ =>
      (* Parse scores and group by turn *)
      let rawScores := parsePlayerScoresCSV scoresFile in
      let scoresByTurn := fold_left scoreStep rawScores [] in
      (* Group stats by turn *)
      let turnMap := fold_left turnStep rawStats [] in
      (* Convert to TurnData; sort turns *)
      Some {| turns := sortTurns (map (toTurnData scoresByTurn) turnMap);
              civilizations :=
                map (fun c => fst (getCivDisplayInfo c)) (civSetOf rawStats) |}
  end.

Definition majorCivsOf (stats : list CivStatistics) : list CivStatistics :=
  filter (fun s => negb (isCityState_ s)) stats.

(** The loop [for (let i = history.turns.length - 1; i >= 0; i--)], on the
    turns from the latest back. *)
Fixpoint lastCompleteTurn (turnsBackward : list TurnData)
  : option (list CivStatistics) :=
  match turnsBackward with
  | [] => None
  | t :: earlier =>
      match civStats t with
      | [] => lastCompleteTurn earlier
      | _ :: _ =>
          (* Filter to major civs only *)
          let majorCivs := majorCivsOf (civStats t) in
          (* If we have multiple major civs, this is a complete turn *)
          if 1 <? length majorCivs then Some majorCivs
          else lastCompleteTurn earlier
      end
  end.

Definition getLatestTurnStatsFullCivsOnly (statsFile scoresFile : option jsstring)
  : option (list CivStatistics) :=
  (* Early exit if log file doesn't exist *)
  match statsFile with
  | None => None
  | Some _ =>
      match parseGameHistory statsFile scoresFile with
      | None => None
      | Some history =>
          match turns history with
          | [] => None
          | _ :: _ =>
              (* Find the most recent COMPLETE turn *)
              match lastCompleteTurn (rev (turns history)) with
              | Some majorCivs => Some majorCivs
              | None =>
                  (* Fallback to latest turn if no complete turns found *)
                  match last (turns history) with
                  | Some latest => Some (majorCivsOf (civStats latest))
                  | None => None
                  end
              end
          end
      end
  end.

(** *** Trend analysis *)

Record Change : Type := mkChange {
  c_start : num;
  c_end : num;
  change : num;
  percentChange : num;
}.

Record Delta : Type := mkDelta {
  d_start : num;
  d_end : num;
  d_change : num;
}.

Record CivTrend : Type := mkCivTrend {
  t_civilization : jsstring;
  t_leader : jsstring;
  turnsAnalyzed : num;
  startTurn : num;
  endTurn : num;
  t_score : Change;
  science : Change;
  culture : Change;
  gold : Change;
  military : Change;
  t_cities : Delta;
  territory : Change;
  t_techs : Delta;
}.

Definition calcChange (start end_ : num) : Change :=
  {| c_start := start;
     c_end := end_;
     change := numSub end_ start;
     percentChange :=
       if numGt start (Num 0) then
         match start, end_ with
         | Num s, Num e => Num (roundPercent s e)
         | _, _ => NaN
         end
       else Num 0 |}.

Definition delta (start end_ : num) : Delta :=
  {| d_start := start; d_end := end_; d_change := numSub end_ start |}.

Definition findStats (civ : CivStatistics) (stats : list CivStatistics)
  : option CivStatistics :=
  find (fun s => bool_decide (civilization s = civilization civ)
                 && negb (isCityState_ s)) stats.

(** The body of [for (const civ of majorCivs)]. *)
Definition trendOf (actualStartTurn actualEndTurn : TurnData) (civ : CivStatistics)
  : list CivTrend :=
  match findStats civ (civStats actualStartTurn),
        findStats civ (civStats actualEndTurn) with
  | Some startStats, Some endStats =>
      let startMilitary := numAdd (cs_landUnits startStats) (cs_navalUnits startStats) in
      let endMilitary := numAdd (cs_landUnits endStats) (cs_navalUnits endStats) in
      [ {| t_civilization := civilization civ;
           t_leader := leader civ;
           turnsAnalyzed := numSub (td_turn actualEndTurn) (td_turn actualStartTurn);
           startTurn := td_turn actualStartTurn;
           endTurn := td_turn actualEndTurn;
           t_score := calcChange (score startStats) (score endStats);
           science := calcChange (sciencePerTurn startStats) (sciencePerTurn endStats);
           culture := calcChange (culturePerTurn startStats) (culturePerTurn endStats);
           gold := calcChange (goldPerTurn startStats) (goldPerTurn endStats);
           military := calcChange startMilitary endMilitary;
           t_cities := delta (cities startStats) (cities endStats);
           territory := calcChange (cs_tilesOwned startStats) (cs_tilesOwned endStats);
           t_techs := delta (techsResearched startStats) (techsResearched endStats) |} ]
  | _, _ => []
  end.

(** The turns of the history within the window, and its two endpoints. *)
Definition relevantTurnsOf (history : GameHistory) (turnsBack : Z) : list TurnData :=
  match last (turns history) with
  | None => []
  | Some latestTurn =>
      let endTurnNum := td_turn latestTurn in
      let startTurnNum := max1 (numSub endTurnNum (Num turnsBack)) in
      filter (fun t => numGe (td_turn t) startTurnNum && numLe (td_turn t) endTurnNum)
        (turns history)
  end.

Definition trendsOfHistory (history : GameHistory) (turnsBack : Z)
  : option (list CivTrend) :=
  if length (turns history) <? 2 then None
  else
    match last (turns history) with
    | None => None
    | Some latestTurn =>
        (* Get unique civilizations from the latest turn (major civs only) *)
        let majorCivs := majorCivsOf (civStats latestTurn) in
        match majorCivs with
        | [] => None
        | _ :: _ =>
            (* Find actual turns in the data within range *)
            let relevantTurns := relevantTurnsOf history turnsBack in
            if length relevantTurns <? 2 then None
            else
              match head relevantTurns, last relevantTurns with
              | Some actualStartTurn, Some actualEndTurn =>
                  Some (flat_map (trendOf actualStartTurn actualEndTurn) majorCivs)
              | _, _ => None
              end
        end
    end.

Definition analyzeTrends (statsFile scoresFile : option jsstring) (turnsBack : Z)
  : option (list CivTrend) :=
  match parseGameHistory statsFile scoresFile with
  | None => None
  | Some history => trendsOfHistory history turnsBack
  end.

(** *** Single turns and victory progress *)

Definition getLatestTurnStats (statsFile scoresFile : option jsstring)
  : option (list CivStatistics) :=
  match parseGameHistory statsFile scoresFile with
  | None => None
  | Some history =>
      match last (turns history) with
      | None => None
      | Some latestTurn => Some (civStats latestTurn)
      end
  end.


Record ScienceProgress : Type := mkScienceProgress {
  sci_position : Z;
  sci_techsResearched : num;
  sci_sciencePerTurn : num;
}.

Record CultureProgress : Type := mkCultureProgress {
  cul_position : Z;
  domesticTourists : num;
  visitingTourists : num;
  cul_culturePerTurn : num;
}.

Record DominationProgress : Type := mkDominationProgress {
  dom_position : Z;
  militaryStrength : num;
  capitalsControlled : num;
}.

Record DiplomaticProgress : Type := mkDiplomaticProgress {
  dip_position : Z;
  diplomaticVictoryPoints : num;
}.

Record ReligionProgress : Type := mkReligionProgress {
  rel_position : Z;
  citiesFollowingReligion : num;
}.

Record ScoreProgress : Type := mkScoreProgress {
  sco_position : Z;
  totalScore : num;
}.

Record VictoryProgress : Type := mkVictoryProgress {
  vp_civilization : jsstring;
  vp_leader : jsstring;
  vp_science : ScienceProgress;
  vp_culture : CultureProgress;
  vp_domination : DominationProgress;
  vp_diplomatic : DiplomaticProgress;
  vp_religion : ReligionProgress;
  vp_score : ScoreProgress;
}.

(** [[...l].sort((a, b) => key(b) - key(a))]: the stable insertion sort for
    the comparator, [b] going behind [a] when [key(a) - key(b) > 0]. On keys
    that are numbers every stable sort gives this order. With a NaN key
    the comparator is inconsistent, ECMAScript leaves the order to the
    implementation, and the order of V8 can differ from the one given
    here. *)
Fixpoint insertDesc (key : CivStatistics -> num) (x : CivStatistics)
    (sorted : list CivStatistics) : list CivStatistics :=
  match sorted with
  | [] => [x]
  | y :: ys =>
      if numGt (key x) (key y) then x :: y :: ys
      else y :: insertDesc key x ys
  end.

Definition sortDesc (key : CivStatistics -> num) (l : list CivStatistics)
  : list CivStatistics :=
  fold_left (fun sorted x => insertDesc key x sorted) l [].

(** [sorted.findIndex(s => s.civilization === stat.civilization) + 1] *)
Definition positionOf (stat : CivStatistics) (sorted : list CivStatistics) : Z :=
  match findIndex (fun s => bool_decide (civilization s = civilization stat)) sorted with
  | Some i => (Z.of_nat i + 1)%Z
  | None => 0%Z (* -1 + 1 *)
  end.

Definition militaryOf (s : CivStatistics) : num :=
  numAdd (cs_landUnits s) (cs_navalUnits s).

Definition calculateVictoryProgress (stats : list CivStatistics)
  : list VictoryProgress :=
  match stats with
  | [] => []
  | _ :: _ =>
      (* Filter to just major civs (not city-states) *)
      let majorCivs := majorCivsOf stats in
      (* Sort by various metrics to determine positions *)
      let byScience := sortDesc techsResearched majorCivs in
      let byCulture := sortDesc culturePerTurn majorCivs in
      let byMilitary := sortDesc militaryOf majorCivs in
      let byScore := sortDesc score majorCivs in
      map (fun stat =>
             {| vp_civilization := civilization stat;
                vp_leader := leader stat;
                vp_science :=
                  {| sci_position := positionOf stat byScience;
                     sci_techsResearched := techsResearched stat;
                     sci_sciencePerTurn := sciencePerTurn stat |};
                vp_culture :=
                  {| cul_position := positionOf stat byCulture;
                     domesticTourists := Num 0; (* Not available from CSV *)
                     visitingTourists := Num 0;
                     cul_culturePerTurn := culturePerTurn stat |};
                vp_domination :=
                  {| dom_position := positionOf stat byMilitary;
                     militaryStrength := militaryOf stat;
                     capitalsControlled := Num 0 |};
                vp_diplomatic :=
                  {| dip_position := 0%Z;
                     diplomaticVictoryPoints := Num 0 |};
                vp_religion :=
                  {| rel_position := 0%Z;
                     citiesFollowingReligion := Num 0 |};
                vp_score :=
                  {| sco_position := positionOf stat byScore;
                     totalScore := score stat |} |})
        majorCivs
  end.

End WithRuntime.
End HistoryParser.

(** ** A reference runtime

    An executable instance of [Runtime], used to evaluate the program on
    concrete inputs. It agrees with Node on the inputs it is used on:
    7-bit text, streams of non-final stored deflate blocks, decimal
    numerals. *)

Module Reference.

(** 7-bit bytes decode to themselves; a byte above 127 is replaced by
    U+FFFD. *)
Definition utf8Ascii (buf : list byte) : jsstring :=
  map (fun b => if (Parser.byteVal b <? 128)%Z then Parser.byteVal b else 65533%Z) buf.

(** The stored blocks of a deflate stream (RFC 1951, 3.2.4): a header byte
    with BTYPE = 00, LEN and its complement NLEN, then LEN literal bytes.
    When the input ends early, inflation under Z_SYNC_FLUSH returns what it
    has produced. Final blocks and compressed blocks are rejected. *)
Fixpoint inflateBlocks (fuel : nat) (data : list byte) : option (list byte) :=
  match fuel with
  | O => Some []
  | S fuel' =>
      match data with
      | hdr :: l0 :: l1 :: n0 :: n1 :: rest =>
          let len := (Parser.byteVal l0 + 256 * Parser.byteVal l1)%Z in
          let nlen := (Parser.byteVal n0 + 256 * Parser.byteVal n1)%Z in
          if (Z.land (Parser.byteVal hdr) 7 =? 0)%Z && (len + nlen =? 65535)%Z then
            match inflateBlocks fuel' (skipn (Z.to_nat len) rest) with
            | Some more => Some (firstn (Z.to_nat len) rest ++ more)
            | None => None
            end
          else None
      | _ => Some []
      end
  end.

(** A zlib stream (RFC 1950) with the header 78 9C. *)
Definition inflateStored (data : list byte) : option (list byte) :=
  match data with
  | x78 :: x9c :: blocks => inflateBlocks (length blocks) blocks
  | _ => None
  end.

Definition upperAscii (s : jsstring) : jsstring :=
  map (fun c => if isLower c then (c - 32)%Z else c) s.
Definition lowerAscii (s : jsstring) : jsstring :=
  map (fun c => if isUpper c then (c + 32)%Z else c) s.

(** A decimal numeral, digits with an optional fraction, as the pair of
    its digits read as an integer and the number of fraction digits; [None]
    for NaN. *)
Definition parseDecimal (s : jsstring) : option (Z * nat) :=
  let ip := takeWhile isDigit s in
  let s1 := skipn (length ip) s in
  let fp :=
    match s1 with
    | 46%Z :: r => takeWhile isDigit r
    | _ => []
    end in
  match ip ++ fp with
  | [] => None
  | ds => Some (digitsValue ds, length fp)
  end.

(** [Math.round(((e - s) / s) * 100)] computed exactly, for [s > 0]. *)
Definition roundPercentExact (s e : Z) : Z :=
  ((200 * (e - s) + s) / (2 * s))%Z.

Definition runtime : Runtime :=
  {| utf8Decode := utf8Ascii;
     unzipSync := inflateStored;
     toUpperCase := upperAscii;
     toLowerCase := lowerAscii;
     float := option (Z * nat);
     float_zero := Some (0%Z, 0);
     parseFloat := parseDecimal;
     roundPercent := roundPercentExact |}.

Definition floatTests : @FloatTests runtime :=
  {| isNaN := fun x : @float runtime => bool_decide (x = None) |}.

(** The bytes of a 7-bit text. *)
Definition bytesOf (s : string) : list byte :=
  map byte_of_ascii (list_ascii_of_string s).

End Reference.

(** ** Predicates of the specification and concrete inputs *)

Module Spec.

(** Every reader that [readMarkerValue] may call at the first occurrence of
    [marker] stays inside the buffer: the last one reads four bytes at
    [pos + 16]. *)
Definition markerInRange (buffer marker : list byte) : Prop :=
  forall pos, indexOf buffer marker 0 = Some pos -> pos + 20 <= length buffer.

(** The bytes [bs] stand in the buffer at offset [off]. *)
Definition bytesAt (buffer : list byte) (off : nat) (bs : list byte) : Prop :=
  exists rest, skipn off buffer = bs ++ rest.

(** Little-endian values. *)
Definition le16 (b0 b1 : byte) : Z :=
  (Parser.byteVal b0 + 256 * Parser.byteVal b1)%Z.
Definition le32 (b0 b1 b2 b3 : byte) : Z :=
  (Parser.byteVal b0 + 256 * Parser.byteVal b1 + 65536 * Parser.byteVal b2
   + 16777216 * Parser.byteVal b3)%Z.

(** The number of records marked human among the player civ and the other
    civs. *)
Definition humans (playerCiv : option Parser.CivInfo) (others : list Parser.CivInfo)
  : nat :=
  length (filter (fun c => Parser.isHuman c)
            (match playerCiv with
             | Some c => c :: others
             | None => others
             end)).

(** The civilization name that a data line of Player_Stats.csv carries, as
    the code reads it: the second cell, trimmed, without CIVILIZATION_;
    lines with fewer than two cells carry none. *)
Definition nameOfLine (line : jsstring) : list jsstring :=
  let values := map trim (split 44%Z line) in
  if length values <? 2 then []
  else [removeFirst (js "CIVILIZATION_") (nth 1 values [])].

(** The civilizations the data rows of the file list, in file order. *)
Definition civColumn (content : jsstring) : list jsstring :=
  flat_map nameOfLine (skipn 1 (split 10%Z (trim content))).

(** Names paired with the indices [i], [i + 1], ... *)
Fixpoint enumerateFrom (i : nat) (names : list jsstring) : list (jsstring * Z) :=
  match names with
  | [] => []
  | n :: rest => (n, Z.of_nat i) :: enumerateFrom (S i) rest
  end.

(** The synthetic segment of the round-trip property: the stream cut into
    chunks of [chunkSize] bytes, a framing gap behind every chunk but the
    last. *)
Fixpoint frame (gaps : list (list byte)) (stream : list byte) : list byte :=
  match gaps with
  | [] => stream
  | g :: gs =>
      firstn Parser.chunkSize stream ++ g ++ frame gs (skipn Parser.chunkSize stream)
  end.

(** The inversion loop of [buildPlayerIdMap]. *)
Definition insertAll (pairs : list (jsstring * Z)) (m : gmap Z jsstring)
  : gmap Z jsstring :=
  fold_left (fun playerMap e => <[snd e := fst e]> playerMap) pairs m.

Section Diplomacy.
Context `{Runtime}.

(** What the first pass fixes of a relation. *)
Definition edgeOf (r : LogParser.DiplomaticRelation)
  : jsstring * jsstring * num * Z * jsstring * num :=
  (LogParser.fromCiv r, LogParser.toCiv r, LogParser.fromPlayerId r,
   LogParser.toPlayerId r, LogParser.state r, LogParser.score r).

(** The test of [relations.find] in the second pass. *)
Definition samePair (r : LogParser.DiplomaticRelation) (fromId : num) (toId : Z)
  : bool :=
  LogParser.numEq (LogParser.fromPlayerId r) fromId
  && (LogParser.toPlayerId r =? toId)%Z.

(** No relation before position [i] has the pair of [r]. *)
Definition firstOfPair (relations : list LogParser.DiplomaticRelation) (i : nat)
    (r : LogParser.DiplomaticRelation) : Prop :=
  forall j rj, j < i -> relations !! j = Some rj ->
    samePair rj (LogParser.fromPlayerId r) (LogParser.toPlayerId r) = false.


(** The summary of a relation: pair, score, threat and trust. *)
Definition summary (r : LogParser.DiplomaticRelation) : num * Z * num * float * float :=
  (LogParser.fromPlayerId r, LogParser.toPlayerId r, LogParser.score r,
   LogParser.threat r, LogParser.trust r).


End Diplomacy.


(** [a < b] on turn numbers. *)
Definition turnLt (a b : num) : Prop :=
  match a, b with
  | Num x, Num y => (x < y)%Z
  | _, _ => False
  end.

Definition isNum (n : num) : Prop :=
  match n with
  | Num _ => True
  | NaN => False
  end.

(** Turns in strictly ascending order. *)
Definition ascending (l : list HistoryParser.TurnData) : Prop :=
  StronglySorted
    (fun a b => turnLt (HistoryParser.td_turn a) (HistoryParser.td_turn b)) l.

(** A civ without its human flag. *)
Definition civOf (c : Parser.CivInfo) : jsstring * jsstring * Parser.civType :=
  (Parser.leader c, Parser.civilization c, Parser.type c).

(** The civs of a parse: the player civ, when there is one, and the other
    civs behind it. *)
Definition civsOf (p : Parser.SaveParse) : list Parser.CivInfo :=
  match Parser.playerCiv p with
  | Some c => c :: Parser.otherCivs (Parser.state p)
  | None => Parser.otherCivs (Parser.state p)
  end.

Section Roster.
Context `{Runtime}.

(** The roster entry that the header scan makes of a raw civilization
    name and of the flag found behind its marker. *)
Definition rosterEntry (e : jsstring * bool) : Parser.CivInfo :=
  Parser.mkCivInfo (Parser.getLeaderForCiv (fst e)) (Parser.formatEnumValue (fst e))
    Parser.full_civ (snd e).

End Roster.

(** The display names of the ten cities of the allow-list of the analyzer. *)
Definition vietnamCityNames : list jsstring :=
  map js [ "Thang Long"; "Hue"; "Hanoi"; "Saigon"; "Da Nang"; "Hai Phong";
           "Nha Trang"; "Can Tho"; "Bien Hoa"; "Vinh" ]%string.

(** The fields of an edge that the first pass fixes are well formed: the
    score is a number, the state is not empty, the to-player index is not
    negative. *)
Definition wellFormedEdge
    (e : jsstring * jsstring * num * Z * jsstring * num) : Prop :=
  let '(_, _, _, toId, state, score) := e in
  isNum score /\ state <> [] /\ (0 <= toId)%Z.

Section Founding.
Context `{R : Runtime} `{!FloatTests}.

(** The key under which [seenCities] holds an entry. *)
Definition foundingKey (s : LogParser.CityFoundingStats) : jsstring :=
  LogParser.showNum (LogParser.cf_playerId s) ++ js ":" ++ LogParser.city s.

(** An entry with data: neither advantage is NaN. *)
Definition foundingOk (s : LogParser.CityFoundingStats) : Prop :=
  isNaN (LogParser.foodAdvantage s) = false
  /\ isNaN (LogParser.productionAdvantage s) = false.

End Founding.

(** A row as the statistics file has it and as a turn holds it: its turn
    number and its raw civilization name. *)
Definition rawRow (r : HistoryParser.RawPlayerStats) : num * jsstring :=
  (HistoryParser.rs_turn r, HistoryParser.rs_civilization r).
Definition filedRow (s : HistoryParser.CivStatistics) : num * jsstring :=
  (HistoryParser.turn s, HistoryParser.rawCivName s).

(** A turn is well filed: it has a row, and its rows carry its number. *)
Definition wellFiled (t : HistoryParser.TurnData) : Prop :=
  HistoryParser.civStats t <> []
  /\ Forall (fun s => HistoryParser.turn s = HistoryParser.td_turn t)
       (HistoryParser.civStats t).

(** An entry of [turnMap]: rows, at least one, of the turn of its key. *)
Definition groupOk (e : num * list HistoryParser.RawPlayerStats) : Prop :=
  snd e <> [] /\ Forall (fun r => HistoryParser.rs_turn r = fst e) (snd e).

(** [key x >= key y], both numbers. *)
Definition keyGe (key : HistoryParser.CivStatistics -> num)
    (x y : HistoryParser.CivStatistics) : Prop :=
  match key x, key y with
  | Num a, Num b => (b <= a)%Z
  | _, _ => False
  end.


Section Backfill.
Context `{Runtime}.

(** The captures 1 and 3 of the cell with which [line] addresses the pair
    of [r]: [line] is a "Threat and Trust" row of the from-player of [r],
    and its cell in the column of the to-player of [r] reads
    threat:rank:trust. The turn of the row plays no part. *)
Definition threatCaps (line : jsstring) (r : LogParser.DiplomaticRelation)
  : option (jsstring * jsstring) :=
  let parts := map trim (split 44%Z line) in
  if (4 <=? length parts)
     && bool_decide (nth 2 parts [] = LogParser.THREAT_AND_TRUST)
     && LogParser.numEq (LogParser.fromPlayerId r) (parseInt (nth 1 parts []))
     && (0 <=? LogParser.toPlayerId r)%Z
  then
    match skipn 4 parts !! Z.to_nat (LogParser.toPlayerId r) with
    | Some cell => matchFirst LogParser.threatTrustAt cell
    | None => None
    end
  else None.

(** The captures of the last row of [lines] that addresses the pair of
    [r]. *)
Definition lastCaps (lines : list jsstring) (r : LogParser.DiplomaticRelation)
  : option (jsstring * jsstring) :=
  last (omap (fun line => threatCaps line r) lines).

(** No relation before position [i] has the pair of [r], as a test. *)
Definition firstOfPairb (relations : list LogParser.DiplomaticRelation) (i : nat)
    (r : LogParser.DiplomaticRelation) : bool :=
  forallb (fun rj => negb (samePair rj (LogParser.fromPlayerId r) (LogParser.toPlayerId r)))
    (firstn i relations).

(** The threat and trust of [r] once the captures [caps] are written onto
    it, if it is the first relation of its pair. *)
Definition valuesAfter (first : bool) (caps : option (jsstring * jsstring))
    (r : LogParser.DiplomaticRelation) : float * float :=
  match first, caps with
  | true, Some (threatText, trustText) => (parseFloat threatText, parseFloat trustText)
  | _, _ => (LogParser.threat r, LogParser.trust r)
  end.

(** [rels] is [base] with the captures that [caps] gives written onto the
    first relation of each pair, and nothing else changed. *)
Definition filledFrom
    (caps : LogParser.DiplomaticRelation -> option (jsstring * jsstring))
    (base rels : list LogParser.DiplomaticRelation) : Prop :=
  length rels = length base
  /\ forall i r', rels !! i = Some r' ->
       exists r, base !! i = Some r /\ edgeOf r' = edgeOf r
         /\ (LogParser.threat r', LogParser.trust r')
            = valuesAfter (firstOfPairb base i r) (caps r) r.

(** The captures that the cells before column [k] of a "Threat and Trust"
    row of the player [fromId] hold for the pair of [r]. *)
Definition cellCaps (fromId : num) (cells : list jsstring) (k : nat)
    (r : LogParser.DiplomaticRelation) : option (jsstring * jsstring) :=
  if LogParser.numEq (LogParser.fromPlayerId r) fromId
     && (0 <=? LogParser.toPlayerId r)%Z
     && (LogParser.toPlayerId r <? Z.of_nat k)%Z
  then
    match cells !! Z.to_nat (LogParser.toPlayerId r) with
    | Some cell => matchFirst LogParser.threatTrustAt cell
    | None => None
    end
  else None.

End Backfill.

Section Player.
Context `{Runtime}.

(** The decoded city names lead to the civ at index [i] of the roster:
    there are player cities, the city table names a civilization for them,
    and [i] is the first civ of the roster with that name, compared in
    upper case. *)
Definition cityMatch (roster : list Parser.CivInfo)
    (info : option Parser.DecompressedInfo) (i : nat) : Prop :=
  exists d name c,
    info = Some d /\ Parser.playerCities d <> []
    /\ Parser.identifyCivFromCities (Parser.playerCities d) = Some name
    /\ roster !! i = Some c
    /\ toUpperCase (Parser.civilization c) = toUpperCase name
    /\ forall j cj, j < i -> roster !! j = Some cj ->
         toUpperCase (Parser.civilization cj) <> toUpperCase name.

End Player.

Section FirstMatches.
Context {A : Type}.

(** In the list of matches, [x] is matched before [y] is: [x] stands at a
    position up to which [y] does not occur. *)
Definition matchedBefore (matches : list A) (x y : A) : Prop :=
  exists m, matches !! m = Some x /\ y ∉ firstn (S m) matches.

(** [distinct] is the list of the distinct matches in order of first
    match: every match once, a value ahead of another when it is matched
    before it. *)
Definition firstMatchOrder (matches distinct : list A) : Prop :=
  NoDup distinct
  /\ (forall x, x ∈ distinct <-> x ∈ matches)
  /\ StronglySorted (matchedBefore matches) distinct.

End FirstMatches.


Section Trends.
Context `{Runtime}.

(** [c] records the change from [x] to [y]: the two values, their
    difference, and the difference as a rounded percentage of [x], which
    is 0 when [x] is not above 0. *)
Definition changeFrom (x y : num) (c : HistoryParser.Change) : Prop :=
  HistoryParser.c_start c = x /\ HistoryParser.c_end c = y
  /\ HistoryParser.change c = HistoryParser.numSub y x
  /\ HistoryParser.percentChange c
     = match x, y with
       | Num s, Num e => if (0 <? s)%Z then Num (roundPercent s e) else Num 0
       | Num s, NaN => if (0 <? s)%Z then NaN else Num 0
       | NaN, _ => Num 0
       end.

Definition deltaFrom (x y : num) (d : HistoryParser.Delta) : Prop :=
  HistoryParser.d_start d = x /\ HistoryParser.d_end d = y
  /\ HistoryParser.d_change d = HistoryParser.numSub y x.

(** [s] is the row of the civilization [name] among [rows]: the first row
    with that name that is no row of a city-state. *)
Definition rowOf (name : jsstring) (rows : list HistoryParser.CivStatistics)
    (s : HistoryParser.CivStatistics) : Prop :=
  exists before after,
    rows = before ++ s :: after
    /\ HistoryParser.civilization s = name /\ HistoryParser.isCityState_ s = false
    /\ Forall (fun s' => HistoryParser.civilization s' <> name
                         \/ HistoryParser.isCityState_ s' = true) before.

(** [rows] has a row of the civilization [name] that is no row of a
    city-state. *)
Definition hasRow (rows : list HistoryParser.CivStatistics) (name : jsstring) : bool :=
  existsb (fun s => bool_decide (HistoryParser.civilization s = name)
                    && negb (HistoryParser.isCityState_ s)) rows.

(** The civs that get a trend between the turns [start] and [end_]: the
    rows of [end_] that are no rows of a city-state and whose
    civilization has a row in [start], in the order of [end_]. *)
Definition trendCivs (start end_ : HistoryParser.TurnData)
  : list HistoryParser.CivStatistics :=
  filter (fun c => negb (HistoryParser.isCityState_ c)
                   && hasRow (HistoryParser.civStats start) (HistoryParser.civilization c))
    (HistoryParser.civStats end_).

(** [tr] is the trend of the civ [civ] between the turns [start] and
    [end_]: every figure goes from the row of the civilization in [start]
    to its row in [end_]. *)
Definition trendFor (start end_ : HistoryParser.TurnData)
    (civ : HistoryParser.CivStatistics) (tr : HistoryParser.CivTrend) : Prop :=
  HistoryParser.t_civilization tr = HistoryParser.civilization civ
  /\ HistoryParser.t_leader tr = HistoryParser.leader civ
  /\ HistoryParser.startTurn tr = HistoryParser.td_turn start
  /\ HistoryParser.endTurn tr = HistoryParser.td_turn end_
  /\ HistoryParser.turnsAnalyzed tr
     = HistoryParser.numSub (HistoryParser.td_turn end_) (HistoryParser.td_turn start)
  /\ exists a b,
       rowOf (HistoryParser.civilization civ) (HistoryParser.civStats start) a
       /\ rowOf (HistoryParser.civilization civ) (HistoryParser.civStats end_) b
       /\ changeFrom (HistoryParser.score a) (HistoryParser.score b)
            (HistoryParser.t_score tr)
       /\ changeFrom (HistoryParser.sciencePerTurn a) (HistoryParser.sciencePerTurn b)
            (HistoryParser.science tr)
       /\ changeFrom (HistoryParser.culturePerTurn a) (HistoryParser.culturePerTurn b)
            (HistoryParser.culture tr)
       /\ changeFrom (HistoryParser.goldPerTurn a) (HistoryParser.goldPerTurn b)
            (HistoryParser.gold tr)
       /\ changeFrom
            (HistoryParser.numAdd (HistoryParser.cs_landUnits a)
               (HistoryParser.cs_navalUnits a))
            (HistoryParser.numAdd (HistoryParser.cs_landUnits b)
               (HistoryParser.cs_navalUnits b))
            (HistoryParser.military tr)
       /\ deltaFrom (HistoryParser.cities a) (HistoryParser.cities b)
            (HistoryParser.t_cities tr)
       /\ changeFrom (HistoryParser.cs_tilesOwned a) (HistoryParser.cs_tilesOwned b)
            (HistoryParser.territory tr)
       /\ deltaFrom (HistoryParser.techsResearched a) (HistoryParser.techsResearched b)
            (HistoryParser.t_techs tr).

End Trends.

(** The score that the rows of the scores file give the player index [i]
    at the turn [turn]: the score cell of the last row with that turn and
    that index, and 0 when no row has them. *)
Definition scoreAt (rows : list HistoryParser.RawPlayerScore) (turn : num) (i : nat)
  : num :=
  match last (filter (fun row => HistoryParser.sc_turn row = turn
                                 /\ HistoryParser.playerId row = Num (Z.of_nat i)) rows) with
  | Some row => HistoryParser.sc_score row
  | None => Num 0
  end.

(** The names of the members that every object inherits from
    [Object.prototype]: reading one of them from an object literal used as
    a table gives the inherited member, not [undefined]. *)
Definition inheritedNames : list jsstring :=
  map js
    [ "constructor"; "__defineGetter__"; "__defineSetter__"; "hasOwnProperty";
      "__lookupGetter__"; "__lookupSetter__"; "isPrototypeOf";
      "propertyIsEnumerable"; "toString"; "valueOf"; "__proto__";
      "toLocaleString" ]%string.

(** [city] is a key that the city table does not know: no entry of the
    table and no inherited member has this name. *)
Definition unknownCity (city : jsstring) : Prop :=
  Parser.lookupTable Parser.cityToCiv city = None /\ city ∉ inheritedNames.

End Spec.

Module Examples.
Import Reference.

Definition saveName : jsstring := js "AutoSave_0042.Civ6Save".

(** A save that ends right behind the game-turn marker. *)
Definition truncatedSave : list byte := bytesOf "CIV6" ++ Parser.GAME_TURN.

(** Four bytes that are not "CIV6" but decode to it. *)
Definition highBitMagic : list byte := [xc3; x49; x56; x36].

(** A save with the turn marker, type tag 2 and the turn 77. *)
Definition turnSave : list byte :=
  bytesOf "CIV6" ++ Parser.GAME_TURN
  ++ [x02; x00; x00; x00] ++ [x00; x00; x00; x00; x00; x00; x00; x00]
  ++ [x4d; x00; x00; x00].

(** A buffer with the speed marker at offset 3, type tag 5, declared
    length 5 and the text "FAST" followed by its null byte. *)
Definition speedBuffer : list byte :=
  [x01; x02; x03] ++ Parser.GAME_SPEED
  ++ [x05; x00; x00; x00] ++ [x05; x00; x00; x00; x00; x00; x00; x00]
  ++ bytesOf "FAST" ++ [x00; x2a].

(** A statistics file whose data rows list Rome, Egypt, Rome, Kabul,
    Egypt. *)
Definition statsABACB : jsstring :=
  js "Game Turn, Player, Num Cities
1, CIVILIZATION_ROME, 1
1, CIVILIZATION_EGYPT, 1
2, CIVILIZATION_ROME, 2
2, CIVILIZATION_KABUL, 1
2, CIVILIZATION_EGYPT, 1
".

Definition notASave : list byte := bytesOf "PK34 this is a zip archive".

(** 200000 bytes of header area. *)
Definition headerPad : list byte := repeat x00 Parser.headerArea.

(** A plaintext of 65535 bytes and a zlib stream for it: the header, one
    stored block with the plaintext, and the empty stored block of a sync
    flush, which ends with 00 00 FF FF. The stream has 65547 bytes. *)
Definition plaintext : list byte := repeat x41 (Z.to_nat 65535).
Definition storedStream : list byte :=
  [x78; x9c] ++ [x00; xff; xff; x00; x00] ++ plaintext
  ++ [x00; x00; x00; xff; xff].

(** The stream framed with one gap, in a buffer behind the header area. *)
Definition framedSave (gap : list byte) : list byte :=
  headerPad ++ Spec.frame [gap] storedStream ++ [].

(** A diplomacy log: player 0 about players 1 and 2 at turn 10, about
    player 1 at turn 20, and the threat-and-trust row of player 0 at turn
    20. There is no threat-and-trust row of turn 10. *)
Definition diplomacyLog : jsstring :=
  js "Game Turn, Player, Action, Initial, 0, 1, 2
10, 0, Friendship, , , -3:DIPLO_STATE_UNFRIENDLY, 7:DIPLO_STATE_ALLIED
20, 0, Friendship, , 5:DIPLO_STATE_FRIENDLY, -9:DIPLO_STATE_WAR,
20, 0, Threat and Trust, , 1.0:1:2.0, 60.16:1:32.00,
".

(** A save with the magic bytes and no civilization in its header. *)
Definition rosterlessSave : list byte := bytesOf "CIV6 header without a roster".

(** A save whose header lists Rome and Egypt, has the word Player nowhere,
    and has no compressed segment. *)
Definition fallbackSave : list byte :=
  bytesOf "CIV6..CIVILIZATION_ROME..CIVILIZATION_LEVEL_FULL_CIV..CIVILIZATION_EGYPT..CIVILIZATION_LEVEL_FULL_CIV..".

(** A decompressed text that names thirteen city-states. *)
Definition thirteenCityStates : jsstring :=
  js "CIVILIZATION_HATTUSA CIVILIZATION_KABUL CIVILIZATION_SINGAPORE CIVILIZATION_NGAZARGAMU CIVILIZATION_HUNZA CIVILIZATION_LA_VENTA CIVILIZATION_AKKAD CIVILIZATION_TARUGA CIVILIZATION_BRUSSELS CIVILIZATION_GENEVA CIVILIZATION_BABYLON CIVILIZATION_MUSCAT CIVILIZATION_VALLETTA".

(** A save whose header lists Rome and Vietnam and whose compressed
    segment, one stored block behind the header area, names Hanoi. *)
Definition vietnamHeaderBytes : list byte :=
  bytesOf "CIV6..CIVILIZATION_ROME..CIVILIZATION_LEVEL_FULL_CIV..CIVILIZATION_VIETNAM..CIVILIZATION_LEVEL_FULL_CIV..".
Definition hanoiStream : list byte :=
  [x78; x9c] ++ [x00; x13; x00; xec; xff] ++ bytesOf "LOC_CITY_NAME_HANOI"
  ++ [x00; x00; x00; xff; xff].
Definition vietnamSave : list byte :=
  vietnamHeaderBytes
  ++ repeat x00 (Parser.headerArea - length vietnamHeaderBytes)
  ++ hanoiStream.

(** Statistics of the turns 1, 5, 9 and 15 for Rome. *)
Definition sparseStats : jsstring :=
  js "Game Turn, Player, Num Cities, Population, Techs, Civics, Land Units, corps, Armies, Naval Units, TILES: Owned, Improved, BALANCE: Gold, Faith, YIELDS: Science, Culture, Gold, Faith, Production, Food
1, CIVILIZATION_ROME, 1, 1, 0, 0, 1, 0, 0, 0, 7, 0, 10, 0, 2, 1, 5, 0, 3, 2
5, CIVILIZATION_ROME, 1, 2, 1, 0, 2, 0, 0, 0, 8, 1, 15, 0, 4, 1, 5, 0, 3, 2
9, CIVILIZATION_ROME, 2, 4, 3, 1, 3, 0, 0, 0, 12, 2, 25, 0, 6, 2, 6, 0, 5, 4
15, CIVILIZATION_ROME, 3, 7, 5, 2, 4, 0, 0, 1, 20, 4, 40, 0, 9, 3, 8, 0, 7, 6
".

(** A buffer with the map-file marker at offset 2, the type tag 1 and the
    value bytes 00 00 01 00. *)
Definition flagBuffer : list byte :=
  [x0a; x0b] ++ Parser.MAP_FILE
  ++ [x01; x00; x00; x00] ++ [x00; x00; x00; x00; x00; x00; x00; x00]
  ++ [x00; x00; x01; x00].

(** A buffer that ends behind the type tag 7. *)
Definition unknownTagBuffer : list byte :=
  Parser.MAP_FILE ++ [x07; x00; x00; x00].

(** A buffer that ends behind the marker and two more bytes. *)
Definition cutTagBuffer : list byte := Parser.MAP_FILE ++ [x02; x00].

(** A string of declared length 9 of which four bytes are there. *)
Definition cutString : list byte :=
  Parser.GAME_SPEED
  ++ [x05; x00; x00; x00] ++ [x09; x00; x00; x00; x00; x00; x00; x00]
  ++ bytesOf "FAST".

(** The compressed segment of [vietnamSave] behind a header area that is
    zero but for its first four bytes. *)
Definition segmentBehind (magic : list byte) : list byte :=
  magic ++ repeat x00 (Parser.headerArea - 4) ++ hanoiStream.

(** The text of the compressed segment of [vietnamSave]. *)
Definition hanoiData : list byte := bytesOf "LOC_CITY_NAME_HANOI".

(** A save whose header lists one mod twice and another mod once. *)
Definition moddedSave : list byte :=
  bytesOf "CIV6.." 
  ++ bytesOf "1B28771A-C749-434B-9053-D1380C553DE9 {" ++ [x22]
  ++ bytesOf "LOC_GATHERING_STORM_MOD_TITLE" ++ [x22] ++ bytesOf ":[..]}.."
  ++ bytesOf "4873eb62-8ccc-4574-b784-dda455e74e68{" ++ [x22]
  ++ bytesOf "LOC_EXPANSION_MOD_TITLE" ++ [x22] ++ bytesOf ":[..]}.."
  ++ bytesOf "1B28771A-C749-434B-9053-D1380C553DE9 {" ++ [x22]
  ++ bytesOf "LOC_GATHERING_STORM_MOD_TITLE" ++ [x22] ++ bytesOf ":[..]}..".

(** Statistics whose rows stand out of order: the turns 3, 1 and 2. *)
Definition unorderedStats : jsstring :=
  js "Game Turn, Player, Num Cities, Population, Techs, Civics, Land Units, corps, Armies, Naval Units, TILES: Owned, Improved, BALANCE: Gold, Faith, YIELDS: Science, Culture, Gold, Faith, Production, Food
3, CIVILIZATION_ROME, 2, 4, 3, 1, 3, 0, 0, 0, 12, 2, 25, 0, 6, 2, 6, 0, 5, 4
1, CIVILIZATION_ROME, 1, 1, 0, 0, 1, 0, 0, 0, 7, 0, 10, 0, 2, 1, 5, 0, 3, 2
3, CIVILIZATION_EGYPT, 1, 3, 2, 1, 2, 0, 0, 0, 9, 1, 20, 0, 5, 2, 6, 0, 4, 3
2, CIVILIZATION_ROME, 1, 2, 1, 0, 2, 0, 0, 0, 8, 1, 15, 0, 3, 1, 5, 0, 3, 2
".

(** Statistics of one turn: Rome with 5 techs, Egypt with 8, and the
    city-state Kabul. *)
Definition oneTurnStats : jsstring :=
  js "Game Turn, Player, Num Cities, Population, Techs, Civics, Land Units, corps, Armies, Naval Units, TILES: Owned, Improved, BALANCE: Gold, Faith, YIELDS: Science, Culture, Gold, Faith, Production, Food
7, CIVILIZATION_ROME, 2, 4, 5, 1, 3, 0, 0, 0, 12, 2, 25, 0, 6, 2, 6, 0, 5, 4
7, CIVILIZATION_EGYPT, 1, 3, 8, 1, 2, 0, 0, 1, 9, 1, 20, 0, 5, 4, 6, 0, 4, 3
7, CIVILIZATION_KABUL, 1, 2, 1, 0, 1, 0, 0, 0, 6, 0, 5, 0, 1, 1, 2, 0, 2, 2
".

(** A city-build log: two rows for the city of Hanoi of player 0, a build
    decision without data, and a row for player 1. *)
Definition cityBuildLog : jsstring :=
  js "Game Turn, Player, City, Food Adv., Prod. Adv., Construct
1, 0, LOC_CITY_NAME_HANOI, 1.5, 2.0, UNIT_WARRIOR
2, 0, LOC_CITY_NAME_HANOI, 3.5, 4.0, UNIT_SETTLER
2, 0, LOC_CITY_NAME_HUE, , , BUILDING_MONUMENT
3, 1, LOC_CITY_ROME, 0.5, 1.0, UNIT_SCOUT
".


(** A decompressed text with a technology named twice, a boost, a civic,
    a wonder under two of its localisation keys, and a city-state. *)
Definition smallGameText : jsstring :=
  js "TECH_POTTERY TECH_MINING TECH_POTTERY TECH_BOOST_MINING CIVIC_CODE_OF_LAWS BUILDING_PETRA_NAME BUILDING_PETRA_QUOTE BUILDING_LIBRARY CIVILIZATION_KABUL CIVILIZATION_ROME LOC_CITY_NAME_HUE".

(** Statistics of the turns 1, 5, 9 and 15: Rome in all of them, Egypt in
    the turns 1, 5 and 15, the city-state Kabul in the turns 5 and 15, and
    Greece in turn 15 alone. *)
Definition trendStats : jsstring :=
  js "Game Turn, Player, Num Cities, Population, Techs, Civics, Land Units, corps, Armies, Naval Units, TILES: Owned, Improved, BALANCE: Gold, Faith, YIELDS: Science, Culture, Gold, Faith, Production, Food
1, CIVILIZATION_ROME, 1, 1, 0, 0, 1, 0, 0, 0, 7, 0, 10, 0, 2, 1, 5, 0, 3, 2
1, CIVILIZATION_EGYPT, 1, 1, 0, 0, 1, 0, 0, 0, 6, 0, 10, 0, 1, 1, 4, 0, 3, 2
5, CIVILIZATION_ROME, 1, 2, 1, 0, 2, 0, 0, 0, 8, 1, 15, 0, 4, 1, 5, 0, 3, 2
5, CIVILIZATION_KABUL, 1, 1, 0, 0, 1, 0, 0, 0, 6, 0, 5, 0, 1, 1, 2, 0, 2, 2
5, CIVILIZATION_EGYPT, 1, 2, 1, 0, 1, 0, 0, 1, 7, 1, 12, 0, 3, 2, 4, 0, 3, 2
9, CIVILIZATION_ROME, 2, 4, 3, 1, 3, 0, 0, 0, 12, 2, 25, 0, 6, 2, 6, 0, 5, 4
15, CIVILIZATION_ROME, 3, 7, 5, 2, 4, 0, 0, 1, 20, 4, 40, 0, 9, 3, 8, 0, 7, 6
15, CIVILIZATION_KABUL, 1, 2, 1, 0, 1, 0, 0, 0, 6, 0, 5, 0, 1, 1, 2, 0, 2, 2
15, CIVILIZATION_EGYPT, 2, 5, 4, 1, 3, 0, 0, 1, 14, 2, 30, 0, 6, 4, 7, 0, 5, 4
15, CIVILIZATION_GREECE, 1, 1, 0, 0, 1, 0, 0, 0, 7, 0, 10, 0, 2, 1, 5, 0, 3, 2
".

(** Statistics of two turns with Rome and Egypt in both. *)
Definition twoByTwoStats : jsstring :=
  js "Game Turn, Player, Num Cities, Population, Techs, Civics, Land Units, corps, Armies, Naval Units, TILES: Owned, Improved, BALANCE: Gold, Faith, YIELDS: Science, Culture, Gold, Faith, Production, Food
1, CIVILIZATION_ROME, 1, 1, 0, 0, 1, 0, 0, 0, 7, 0, 10, 0, 2, 1, 5, 0, 3, 2
1, CIVILIZATION_EGYPT, 1, 1, 0, 0, 1, 0, 0, 0, 7, 0, 10, 0, 2, 1, 5, 0, 3, 2
2, CIVILIZATION_ROME, 1, 2, 1, 0, 2, 0, 0, 0, 8, 1, 15, 0, 3, 1, 5, 0, 3, 2
2, CIVILIZATION_EGYPT, 1, 2, 1, 0, 2, 0, 0, 0, 8, 1, 15, 0, 3, 1, 5, 0, 3, 2
".

(** Scores for [twoByTwoStats]: at turn 1 the player 0 once and the player
    1 twice, at turn 2 the player 0 alone. *)
Definition rescoredLog : jsstring :=
  js "Game Turn, Player, Score, CATEGORY_CIVICS, CATEGORY_EMPIRE, CATEGORY_GREAT_PEOPLE, CATEGORY_RELIGION, CATEGORY_TECH, CATEGORY_WONDER
1, 0, 30, 2, 20, 0, 0, 8, 0
1, 1, 25, 1, 18, 0, 0, 6, 0
1, 1, 28, 1, 21, 0, 0, 6, 0
2, 0, 41, 3, 26, 0, 0, 12, 0
".

End Examples.

(** * Properties *)

(** Closed decidable goals are settled by evaluation. *)
Ltac by_evaluation :=
  lazymatch goal with
  | |- ~ ?P => apply (bool_decide_eq_false_1 P); vm_compute; reflexivity
  | |- ?x <> ?y => apply (bool_decide_eq_false_1 (x = y)); vm_compute; reflexivity
  | |- ?P => apply (bool_decide_eq_true_1 P); vm_compute; reflexivity
  end.

(** ** Buffers and sequences *)

Section SeqFacts.
Context {A : Type} `{EqDecision A}.

Lemma startsWith_app (s pat : list A) :
  startsWith s pat = true <-> exists rest, s = pat ++ rest.
Proof.
  revert s. induction pat as [|p ps IH]; intros s; simpl.
  - split; [intros _; exists s; reflexivity | reflexivity].
  - destruct s as [|c cs].
    + split; [discriminate | intros [rest Hr]; discriminate].
    + rewrite andb_true_iff, bool_decide_eq_true, IH. split.
      * intros [-> [rest ->]]. exists rest. reflexivity.
      * intros [rest Hr]. injection Hr as -> ->. split; [reflexivity | eauto].
Qed.

Lemma indexOf_aux_Some (pat s : list A) (i j : nat) :
  indexOf_aux pat s i = Some j ->
  i <= j /\ startsWith (skipn (j - i) s) pat = true /\ j - i < length s
  /\ forall k, k < j - i -> startsWith (skipn k s) pat = false.
Proof.
  revert i. induction s as [|c cs IH]; intros i; simpl; [discriminate|].
  destruct (startsWith (c :: cs) pat) eqn:E.
  - intros [= <-]. replace (i - i) with 0 by lia. simpl.
    repeat split; [lia | exact E | lia | intros k Hk; lia].
  - intros Hj. destruct (IH _ Hj) as (Hle & Hsw & Hlt & Hmin).
    replace (j - i) with (S (j - S i)) by lia. simpl.
    repeat split; [lia | exact Hsw | lia |].
    intros [|k] Hk; simpl; [exact E | apply Hmin; lia].
Qed.

Lemma indexOf_Some (s pat : list A) (start j : nat) :
  indexOf s pat start = Some j ->
  start <= j /\ startsWith (skipn j s) pat = true /\ j < length s
  /\ forall k, start <= k < j -> startsWith (skipn k s) pat = false.
Proof.
  unfold indexOf. intros Hj.
  destruct (indexOf_aux_Some _ _ _ _ Hj) as (Hle & Hsw & Hlt & Hmin).
  rewrite length_skipn in Hlt.
  rewrite skipn_skipn in Hsw. replace (j - start + start) with j in Hsw by lia.
  repeat split; [lia | exact Hsw | lia |].
  intros k Hk. specialize (Hmin (k - start) ltac:(lia)).
  rewrite skipn_skipn in Hmin. replace (k - start + start) with k in Hmin by lia.
  exact Hmin.
Qed.

End SeqFacts.

(** ** The tag-value scanner and the magic bytes *)

Section ParserFacts.
Context `{R : Runtime}.

Lemma readUInt32LE_in_range (buf : list byte) (off : nat) :
  off + 4 <= length buf -> returns (Parser.readUInt32LE buf off).
Proof.
  intros Hlen. unfold Parser.readUInt32LE.
  pose proof (length_skipn off buf) as Hs.
  destruct (skipn off buf) as [|b0 [|b1 [|b2 [|b3 rest]]]]; simpl in Hs; try lia.
  eexists; reflexivity.
Qed.

Lemma readUInt16LE_in_range (buf : list byte) (off : nat) :
  off + 2 <= length buf -> returns (Parser.readUInt16LE buf off).
Proof.
  intros Hlen. unfold Parser.readUInt16LE.
  pose proof (length_skipn off buf) as Hs.
  destruct (skipn off buf) as [|b0 [|b1 rest]]; simpl in Hs; try lia.
  eexists; reflexivity.
Qed.

Lemma readMarkerValue_in_range (buffer marker : list byte) :
  Spec.markerInRange buffer marker ->
  returns (Parser.readMarkerValue buffer marker).
Proof.
  intros Hin. unfold Parser.readMarkerValue.
  destruct (indexOf buffer marker 0) as [pos|] eqn:Hpos; [|eexists; reflexivity].
  specialize (Hin pos Hpos).
  destruct (readUInt32LE_in_range buffer (pos + 4)) as [ty Hty]; [lia|].
  destruct (readUInt32LE_in_range buffer (pos + 16)) as [v Hv]; [lia|].
  destruct (readUInt16LE_in_range buffer (pos + 8)) as [n Hn]; [lia|].
  rewrite Hty. simpl.
  destruct ty as [|[p|p|]|]; try (eexists; reflexivity).
  - destruct p as [p|[p|p|]|]; try (eexists; reflexivity).
    rewrite Hn. eexists; reflexivity.
  - destruct p as [p|p|]; try (eexists; reflexivity).
    rewrite Hv. eexists; reflexivity.
  - rewrite Hv. eexists; reflexivity.
Qed.

(** C1, first half as the code has it: with the magic "CIV6" the parse
    returns whenever the three markers it decodes are in range. Second
    half: without it the parse throws the error that quotes the decoded
    magic. The magic is compared after 7-bit ASCII decoding. *)
Theorem C1_magic_decides (filename : jsstring) (buffer : list byte) :
  (Parser.magicOf buffer = js "CIV6" ->
   Spec.markerInRange buffer Parser.GAME_TURN ->
   Spec.markerInRange buffer Parser.GAME_SPEED ->
   Spec.markerInRange buffer Parser.MAP_SIZE ->
   returns (Parser.parseSaveFile filename buffer))
  /\ (Parser.magicOf buffer <> js "CIV6" ->
      Parser.parseSaveFile filename buffer
      = Throw (Parser.invalidMagic (Parser.magicOf buffer))).
Proof.
  unfold Parser.parseSaveFile, Parser.parseSave. split.
  - intros Hmagic Hturn Hspeed Hsize.
    rewrite Hmagic, bool_decide_eq_true_2 by reflexivity. cbn [negb].
    destruct (readMarkerValue_in_range _ _ Hturn) as [t ->].
    destruct (readMarkerValue_in_range _ _ Hspeed) as [s ->].
    destruct (readMarkerValue_in_range _ _ Hsize) as [m ->].
    cbn [bind]. eexists; reflexivity.
  - intros Hmagic. rewrite bool_decide_eq_false_2 by exact Hmagic. reflexivity.
Qed.

(** C3. With the first occurrence of the marker at offset [p]: a type tag
    2 at [p + 4] makes the value the little-endian integer of the four
    bytes at [p + 16]; a type tag 5 with the declared length [L] at [p + 8]
    makes it the decoding of the [L - 1] bytes at [p + 16], whatever
    follows them (the null byte is not part of it). *)
Theorem C3_offset_exact (buffer marker : list byte) (p : nat) :
  indexOf buffer marker 0 = Some p ->
  (forall b0 b1 b2 b3,
      Spec.bytesAt buffer (p + 4) [x02; x00; x00; x00] ->
      Spec.bytesAt buffer (p + 16) [b0; b1; b2; b3] ->
      Parser.readMarkerValue buffer marker
      = Ok (Some (Parser.MarkerValue 2 (Parser.DNum (Spec.le32 b0 b1 b2 b3)))))
  /\ (forall l0 l1 payload,
         Spec.bytesAt buffer (p + 4) [x05; x00; x00; x00] ->
         Spec.bytesAt buffer (p + 8) [l0; l1] ->
         Spec.bytesAt buffer (p + 16) payload ->
         Z.of_nat (length payload) = (Spec.le16 l0 l1 - 1)%Z ->
         Parser.readMarkerValue buffer marker
         = Ok (Some (Parser.MarkerValue 5 (Parser.DStr (utf8Decode payload))))).
Proof.
  intros Hp. unfold Parser.readMarkerValue. rewrite Hp. split.
  - intros b0 b1 b2 b3 [r1 Htag] [r2 Hval].
    unfold Parser.readUInt32LE. rewrite Htag. cbn. rewrite Hval. reflexivity.
  - intros l0 l1 payload [r1 Htag] [r2 Hlen] [r3 Hpay] HL.
    unfold Parser.readUInt32LE, Parser.readUInt16LE. rewrite Htag. cbn.
    rewrite Hlen. cbn. unfold substring. rewrite Hpay.
    fold (Spec.le16 l0 l1).
    replace (p + 16 + Z.to_nat (Spec.le16 l0 l1) - 1 - (p + 16))
      with (length payload) by lia.
    rewrite firstn_app, Nat.sub_diag, firstn_all. cbn. rewrite app_nil_r.
    reflexivity.
Qed.

End ParserFacts.

Section ParserExamples.

Lemma C1_witness :
  returns (@Parser.parseSaveFile Reference.runtime Examples.saveName Examples.turnSave)
  /\ @Parser.parseSaveFile Reference.runtime Examples.saveName Examples.notASave
     = Throw (Parser.invalidMagic (Parser.magicOf Examples.notASave)).
Proof.
  split.
  - apply (proj1 (@C1_magic_decides Reference.runtime Examples.saveName
                    Examples.turnSave)).
    + reflexivity.
    + intros pos Hpos. vm_compute in Hpos. injection Hpos as <-. vm_compute. lia.
    + intros pos Hpos. vm_compute in Hpos. discriminate Hpos.
    + intros pos Hpos. vm_compute in Hpos. discriminate Hpos.
  - apply (proj2 (@C1_magic_decides Reference.runtime Examples.saveName
                    Examples.notASave)).
    vm_compute. discriminate.
Defined.

Lemma C1_counterexample :
  (startsWith Examples.truncatedSave (Reference.bytesOf "CIV6") = true
   /\ @Parser.parseSaveFile Reference.runtime Examples.saveName Examples.truncatedSave
      = Throw RangeError)
  /\ (startsWith Examples.highBitMagic (Reference.bytesOf "CIV6") = false
      /\ returns (@Parser.parseSaveFile Reference.runtime Examples.saveName
                    Examples.highBitMagic)).
Proof.
  repeat split; try (vm_compute; reflexivity).
  eexists. vm_compute. reflexivity.
Qed.

Lemma C3_witness :
  @Parser.readMarkerValue Reference.runtime Examples.turnSave Parser.GAME_TURN
  = Ok (Some (Parser.MarkerValue 2 (Parser.DNum 77)))
  /\ @Parser.readMarkerValue Reference.runtime Examples.speedBuffer Parser.GAME_SPEED
     = Ok (Some (Parser.MarkerValue 5 (Parser.DStr (js "FAST")))).
Proof.
  split.
  - apply (proj1 (@C3_offset_exact Reference.runtime Examples.turnSave
                    Parser.GAME_TURN 4 eq_refl) x4d x00 x00 x00).
    + exists ([x00; x00; x00; x00; x00; x00; x00; x00] ++ [x4d; x00; x00; x00]).
      reflexivity.
    + exists []. reflexivity.
  - apply (proj2 (@C3_offset_exact Reference.runtime Examples.speedBuffer
                    Parser.GAME_SPEED 3 eq_refl) x05 x00 (Reference.bytesOf "FAST")).
    + exists ([x05; x00; x00; x00; x00; x00; x00; x00]
              ++ Reference.bytesOf "FAST" ++ [x00; x2a]).
      reflexivity.
    + exists ([x00; x00; x00; x00; x00; x00]
              ++ Reference.bytesOf "FAST" ++ [x00; x2a]).
      reflexivity.
    + exists [x00; x2a]. reflexivity.
    + reflexivity.
Defined.

End ParserExamples.

(** ** The compressed segment *)

Section SegmentFacts.
Context `{R : Runtime}.

Lemma chunkSize_pos : 0 < Parser.chunkSize.
Proof. unfold Parser.chunkSize. lia. Qed.

#[local] Opaque Parser.chunkSize Parser.headerArea.

Lemma rechunk_loop_nil (fuel : nat) : Parser.rechunk_loop fuel [] = [].
Proof. destruct fuel; reflexivity. Qed.

(** Re-chunking undoes the framing: the four bytes behind every full chunk
    are dropped, a shorter last chunk is kept whole. *)
Lemma rechunk_frame (gaps : list (list byte)) :
  forall (stream : list byte) (fuel : nat),
    Forall (fun g => length g = 4) gaps ->
    length gaps * Parser.chunkSize <= length stream ->
    length stream <= (length gaps + 1) * Parser.chunkSize ->
    length (Spec.frame gaps stream) <= fuel ->
    concat (Parser.rechunk_loop fuel (Spec.frame gaps stream)) = stream.
Proof.
  pose proof chunkSize_pos as Hpos.
  induction gaps as [|g gs IH]; intros stream fuel Hg Hlo Hhi Hfuel.
  - cbn [Spec.frame] in *. cbn [length] in Hhi.
    destruct stream as [|b rest]; [rewrite rechunk_loop_nil; reflexivity|].
    destruct fuel as [|fuel]; [cbn in Hfuel; lia|].
    cbn [Parser.rechunk_loop].
    rewrite firstn_all2 by lia. rewrite skipn_all2 by lia.
    rewrite rechunk_loop_nil. cbn [concat]. apply app_nil_r.
  - inversion Hg as [|g' gs' Hlen Hgs]; subst.
    cbn [Spec.frame length] in *.
    assert (Hc : length (firstn Parser.chunkSize stream) = Parser.chunkSize)
      by (rewrite length_firstn; lia).
    destruct (firstn Parser.chunkSize stream ++ g
              ++ Spec.frame gs (skipn Parser.chunkSize stream)) as [|b rest] eqn:E.
    { apply (f_equal (@length byte)) in E. rewrite !length_app in E. cbn in E. lia. }
    destruct fuel as [|fuel]; [cbn in Hfuel; lia|].
    cbn [Parser.rechunk_loop]. rewrite <- E.
    rewrite firstn_app, Hc, Nat.sub_diag, firstn_all2 by lia.
    cbn [firstn]. rewrite app_nil_r.
    rewrite app_assoc, skipn_app.
    rewrite skipn_all2 by (rewrite length_app; lia).
    rewrite length_app, Hc, Hlen, Nat.sub_diag, skipn_O. cbn [app concat].
    rewrite IH.
    + apply firstn_skipn.
    + exact Hgs.
    + rewrite length_skipn. lia.
    + rewrite length_skipn. lia.
    + rewrite <- E in Hfuel.
      rewrite !length_app in Hfuel. cbn [length] in Hfuel. lia.
Qed.

(** C2 as the code has it. The plaintext comes back when the first 78 9C
    at or after offset 200000 is the header of the stream and the first
    00 00 FF FF from there on is the end of the framed stream (no framing
    gap and no earlier part of the stream shows one). *)
Theorem C2_roundtrip (prefix stream suffix : list byte) (gaps : list (list byte))
    (P : list byte) (endPos : nat) :
  unzipSync stream = Some P ->
  Forall (fun g => length g = 4) gaps ->
  length gaps * Parser.chunkSize <= length stream ->
  length stream <= (length gaps + 1) * Parser.chunkSize ->
  indexOf (prefix ++ Spec.frame gaps stream ++ suffix) Parser.ZLIB_HEADER
          Parser.headerArea = Some (length prefix) ->
  indexOf (prefix ++ Spec.frame gaps stream ++ suffix) Parser.COMPRESSED_DATA_END
          (length prefix) = Some endPos ->
  endPos + 4 = length prefix + length (Spec.frame gaps stream) ->
  Parser.decompressGameData (prefix ++ Spec.frame gaps stream ++ suffix) = Some P.
Proof.
  intros Hz Hg Hlo Hhi Hstart Hend Hlast.
  unfold Parser.decompressGameData, Parser.assembleCompressed.
  rewrite Hstart, Hend.
  destruct (indexOf_Some _ _ _ _ Hstart) as (_ & Hs1 & _ & _).
  destruct (indexOf_Some _ _ _ _ Hend) as (Hle & Hs2 & _ & _).
  assert (Hne : endPos <> length prefix).
  { intros ->. apply startsWith_app in Hs1 as [r1 Hr1].
    apply startsWith_app in Hs2 as [r2 Hr2]. rewrite Hr1 in Hr2. discriminate Hr2. }
  destruct (Nat.leb_spec endPos (length prefix)) as [Hbad|_]; [lia|].
  unfold substring. rewrite skipn_app, Nat.sub_diag, skipn_all. cbn [app skipn].
  replace (endPos + length Parser.COMPRESSED_DATA_END - length prefix)
    with (length (Spec.frame gaps stream)) by (cbn [Parser.COMPRESSED_DATA_END length]; lia).
  rewrite skipn_O, firstn_app, Nat.sub_diag, firstn_all. cbn [firstn].
  rewrite app_nil_r. unfold Parser.rechunk. rewrite rechunk_frame by (assumption || lia).
  exact Hz.
Qed.

End SegmentFacts.

Section SegmentExamples.

Lemma C2_witness :
  @Parser.decompressGameData Reference.runtime
    (Examples.headerPad
     ++ Spec.frame [[x01; x02; x03; x04]] Examples.storedStream ++ [])
  = Some Examples.plaintext.
Proof.
  apply (@C2_roundtrip Reference.runtime Examples.headerPad Examples.storedStream
           [] [[x01; x02; x03; x04]] Examples.plaintext (Z.to_nat 265547)).
  - by_evaluation.
  - repeat constructor.
  - apply Nat.leb_le. vm_compute. reflexivity.
  - apply Nat.leb_le. vm_compute. reflexivity.
  - by_evaluation.
  - by_evaluation.
  - apply Nat.eqb_eq. vm_compute. reflexivity.
Defined.

(** The recipe of the property with the framing gap 00 00 FF FF: the
    stream inflates to the plaintext, it starts with the zlib header at
    offset 200000, the last four bytes of the buffer are the
    sentinel; the result is
    not the plaintext. *)
Lemma C2_counterexample :
  Reference.inflateStored Examples.storedStream = Some Examples.plaintext
  /\ length Examples.headerPad = Parser.headerArea
  /\ startsWith Examples.storedStream Parser.ZLIB_HEADER = true
  /\ skipn (length (Examples.framedSave Parser.COMPRESSED_DATA_END) - 4)
       (Examples.framedSave Parser.COMPRESSED_DATA_END)
     = Parser.COMPRESSED_DATA_END
  /\ @Parser.decompressGameData Reference.runtime
       (Examples.framedSave Parser.COMPRESSED_DATA_END)
     <> Some Examples.plaintext.
Proof.
  split; [by_evaluation|].
  split; [exact (repeat_length x00 Parser.headerArea)|].
  split; [vm_compute; reflexivity|].
  split; [by_evaluation|].
  by_evaluation.
Qed.

(** Whatever the inflater, with that gap it is handed the first chunk of
    the stream only. *)
Lemma sentinel_gap_cuts_the_stream :
  Parser.assembleCompressed (Examples.framedSave Parser.COMPRESSED_DATA_END)
  = Some (firstn Parser.chunkSize Examples.storedStream).
Proof. by_evaluation. Qed.

End SegmentExamples.

(** ** The player-index resolver *)

Section DedupFacts.
Context {A : Type} `{EqDecision A}.

Lemma dedup_aux_ext (seen1 seen2 l : list A) :
  (forall x, x ∈ seen1 <-> x ∈ seen2) -> dedup_aux seen1 l = dedup_aux seen2 l.
Proof.
  revert seen1 seen2. induction l as [|x xs IH]; intros seen1 seen2 Heq; simpl.
  - reflexivity.
  - rewrite (bool_decide_ext _ _ (Heq x)).
    destruct (bool_decide (x ∈ seen2)); [apply IH, Heq|].
    f_equal. apply IH. intros y. rewrite !elem_of_cons, Heq. reflexivity.
Qed.

Lemma dedup_aux_app (seen l1 l2 : list A) :
  dedup_aux seen (l1 ++ l2)
  = dedup_aux seen l1 ++ dedup_aux (l1 ++ seen) l2.
Proof.
  revert seen. induction l1 as [|x xs IH]; intros seen; simpl.
  - reflexivity.
  - destruct (bool_decide (x ∈ seen)) eqn:E.
    + rewrite IH. f_equal. apply dedup_aux_ext. intros y.
      apply bool_decide_eq_true in E.
      rewrite elem_of_cons, !elem_of_app.
      split; [tauto|]. intros [->|Hy]; tauto.
    + cbn [app]. rewrite IH. f_equal. f_equal. apply dedup_aux_ext. intros y.
      rewrite elem_of_cons, !elem_of_app, elem_of_cons. tauto.
Qed.

Lemma dedup_aux_not_seen (seen l : list A) (x : A) :
  x ∈ dedup_aux seen l -> (x ∉ seen) /\ (x ∈ l).
Proof.
  revert seen. induction l as [|y ys IH]; intros seen; simpl.
  - intros Hx. inversion Hx.
  - destruct (bool_decide (y ∈ seen)) eqn:E.
    + intros Hx. destruct (IH _ Hx). split; [assumption | right; assumption].
    + apply bool_decide_eq_false in E. rewrite elem_of_cons.
      intros [->|Hx]; [split; [assumption | left]|].
      destruct (IH _ Hx) as [Hn Hin]. split; [|right; assumption].
      intros Hs. apply Hn. right; assumption.
Qed.

Lemma dedup_aux_complete (seen l : list A) (x : A) :
  x ∈ l -> x ∉ seen -> x ∈ dedup_aux seen l.
Proof.
  revert seen. induction l as [|y ys IH]; intros seen Hin Hn; simpl.
  - inversion Hin.
  - destruct (decide (x = y)) as [->|Hne].
    + rewrite bool_decide_eq_false_2 by assumption. by left.
    + apply elem_of_cons in Hin as [->|Hin]; [done|].
      destruct (bool_decide (y ∈ seen)); [by apply IH|].
      right. apply IH; [assumption|]. rewrite elem_of_cons. tauto.
Qed.

Lemma dedup_aux_NoDup (seen l : list A) : NoDup (dedup_aux seen l).
Proof.
  revert seen. induction l as [|y ys IH]; intros seen; simpl.
  - constructor.
  - destruct (bool_decide (y ∈ seen)); [apply IH|].
    constructor; [|apply IH].
    intros Hy. apply dedup_aux_not_seen in Hy as [Hn _]. apply Hn. by left.
Qed.

(** [dedup] keeps every value once, at its first occurrence: a value seen
    again changes nothing, a new value goes to the end. *)
Lemma dedup_snoc (l : list A) (x : A) :
  dedup (l ++ [x]) = if bool_decide (x ∈ l) then dedup l else dedup l ++ [x].
Proof.
  unfold dedup. rewrite dedup_aux_app. simpl.
  rewrite app_nil_r.
  destruct (bool_decide (x ∈ l)); [apply app_nil_r | reflexivity].
Qed.

Lemma dedup_elem_of (l : list A) (x : A) : x ∈ dedup l <-> x ∈ l.
Proof.
  split.
  - intros Hx. apply dedup_aux_not_seen in Hx as [_ Hx]. exact Hx.
  - intros Hx. apply dedup_aux_complete; [assumption | apply not_elem_of_nil].
Qed.

Lemma dedup_NoDup (l : list A) : NoDup (dedup l).
Proof. apply dedup_aux_NoDup. Qed.

End DedupFacts.

Section FirstMatchFacts.
Context {A : Type} `{EqDecision A}.

Lemma matchedBefore_snoc (l : list A) (z x y : A) :
  Spec.matchedBefore l x y -> Spec.matchedBefore (l ++ [z]) x y.
Proof.
  intros (m & Hm & Hy). exists m.
  assert (Hlt : m < length l) by (apply lookup_lt_is_Some; eauto).
  split; [rewrite lookup_app_l by exact Hlt; exact Hm|].
  rewrite take_app_le by lia. exact Hy.
Qed.

Lemma matchedBefore_new (l : list A) (z x : A) :
  x ∈ l -> z ∉ l -> Spec.matchedBefore (l ++ [z]) x z.
Proof.
  intros Hx Hz. apply list_elem_of_lookup in Hx as [m Hm]. exists m.
  assert (Hlt : m < length l) by (apply lookup_lt_is_Some; eauto).
  split; [rewrite lookup_app_l by exact Hlt; exact Hm|].
  rewrite take_app_le by lia. intros Hin. apply Hz.
  apply elem_of_take in Hin as (i & Hi & _). apply list_elem_of_lookup. eauto.
Qed.

Lemma matchedBefore_asym (l : list A) (x y : A) :
  Spec.matchedBefore l x y -> Spec.matchedBefore l y x -> False.
Proof.
  intros (m & Hm & Hy) (m' & Hm' & Hx).
  destruct (decide (m' <= m)) as [Hle|Hgt].
  - apply Hy. apply list_elem_of_lookup. exists m'.
    rewrite lookup_take_lt by lia. exact Hm'.
  - apply Hx. apply list_elem_of_lookup. exists m.
    rewrite lookup_take_lt by lia. exact Hm.
Qed.

(** The distinct values of a list, first occurrences kept, are its
    distinct matches in order of first match, and nothing else is. *)
Lemma dedup_firstMatchOrder (l : list A) : Spec.firstMatchOrder l (dedup l).
Proof.
  split; [apply dedup_NoDup|]. split; [apply dedup_elem_of|].
  induction l as [|z l IH] using rev_ind; [constructor|].
  rewrite dedup_snoc.
  assert (Hmono : StronglySorted (Spec.matchedBefore (l ++ [z])) (dedup l)).
  { rewrite <- (list_fmap_id (dedup l)).
    eapply StronglySorted_fmap; [|exact IH].
    intros x y. apply matchedBefore_snoc. }
  case_bool_decide as Hz; [exact Hmono|].
  apply StronglySorted_app_2; [|exact Hmono|repeat constructor].
  intros x1 x2 Hx1 Hx2. apply list_elem_of_singleton in Hx2 as ->.
  apply matchedBefore_new; [apply dedup_elem_of, Hx1 | exact Hz].
Qed.

Lemma firstMatchOrder_unique (l distinct : list A) :
  Spec.firstMatchOrder l distinct -> distinct = dedup l.
Proof.
  intros (Hnd & Hel & Hsorted).
  destruct (dedup_firstMatchOrder l) as (Hnd' & Hel' & Hsorted').
  apply (StronglySorted_unique_strong (Spec.matchedBefore l));
    [|exact Hsorted|exact Hsorted'|].
  - intros x y _ _ Hxy Hyx. destruct (matchedBefore_asym l x y Hxy Hyx).
  - apply NoDup_Permutation; [exact Hnd | exact Hnd'|].
    intros x. rewrite Hel, Hel'. reflexivity.
Qed.

End FirstMatchFacts.

Section ResolverFacts.

Lemma existsb_fst (acc : list (jsstring * Z)) (name : jsstring) :
  existsb (fun e => bool_decide (fst e = name)) acc
  = bool_decide (name ∈ map fst acc).
Proof.
  induction acc as [|[k v] rest IH]; simpl.
  - reflexivity.
  - rewrite IH. destruct (decide (k = name)) as [->|Hne].
    + rewrite bool_decide_eq_true_2 by reflexivity. simpl.
      symmetry. apply bool_decide_eq_true_2. by left.
    + rewrite (bool_decide_eq_false_2 (k = name)) by assumption. simpl.
      apply bool_decide_ext. rewrite elem_of_cons. split; [tauto|].
      intros [Heq|Hin]; [congruence | assumption].
Qed.

Lemma enumerateFrom_app (i : nat) (l1 l2 : list jsstring) :
  Spec.enumerateFrom i (l1 ++ l2)
  = Spec.enumerateFrom i l1 ++ Spec.enumerateFrom (i + length l1) l2.
Proof.
  revert i. induction l1 as [|x xs IH]; intros i; simpl.
  - by rewrite Nat.add_0_r.
  - rewrite IH. do 3 f_equal. lia.
Qed.

(** The loop over the data lines appends every name it has not seen, with
    the next index. *)
Lemma fold_firstSeenStep (lines : list jsstring) :
  forall acc : list (jsstring * Z),
    fold_left LogParser.firstSeenStep lines acc
    = acc ++ Spec.enumerateFrom (length acc)
               (dedup_aux (map fst acc) (flat_map Spec.nameOfLine lines)).
Proof.
  induction lines as [|line rest IH]; intros acc; simpl.
  - symmetry. apply app_nil_r.
  - rewrite IH. unfold LogParser.firstSeenStep, Spec.nameOfLine.
    destruct (length (map trim (split 44%Z line)) <? 2); [reflexivity|].
    cbn [app]. simpl dedup_aux. rewrite existsb_fst.
    set (name := removeFirst (js "CIVILIZATION_") (nth 1 (map trim (split 44%Z line)) [])).
    destruct (bool_decide (name ∈ map fst acc)); [reflexivity|].
    rewrite <- app_assoc. f_equal. simpl. rewrite length_app. simpl.
    replace (length acc + 1) with (S (length acc)) by lia.
    do 2 f_equal. apply dedup_aux_ext. intros x.
    rewrite map_app, elem_of_app, elem_of_cons. simpl.
    rewrite list_elem_of_singleton. tauto.
Qed.

Lemma firstSeen_enumerate (content : jsstring) :
  LogParser.firstSeen content
  = Spec.enumerateFrom 0 (dedup (Spec.civColumn content)).
Proof. unfold LogParser.firstSeen. rewrite fold_firstSeenStep. reflexivity. Qed.

Lemma insertAll_outside (names : list jsstring) :
  forall (i : nat) (m : gmap Z jsstring) (z : Z),
    (z < Z.of_nat i \/ Z.of_nat (i + length names) <= z)%Z ->
    Spec.insertAll (Spec.enumerateFrom i names) m !! z = m !! z.
Proof.
  induction names as [|n rest IH]; intros i m z Hz; simpl; [reflexivity|].
  unfold Spec.insertAll in *. simpl. rewrite IH by (simpl in Hz; lia).
  apply lookup_insert_ne. simpl in Hz. lia.
Qed.

Lemma insertAll_inside (names : list jsstring) :
  forall (i j : nat) (m : gmap Z jsstring),
    j < length names ->
    Spec.insertAll (Spec.enumerateFrom i names) m !! Z.of_nat (i + j) = names !! j.
Proof.
  induction names as [|n rest IH]; intros i j m Hj; simpl in *; [lia|].
  destruct j as [|j].
  - unfold Spec.insertAll. simpl. fold (Spec.insertAll (Spec.enumerateFrom (S i) rest) (<[Z.of_nat i:=n]> m)).
    rewrite insertAll_outside by lia. rewrite Nat.add_0_r. apply lookup_insert_eq.
  - unfold Spec.insertAll. simpl. fold (Spec.insertAll (Spec.enumerateFrom (S i) rest) (<[Z.of_nat i:=n]> m)).
    replace (i + S j) with (S i + j) by lia. apply IH. lia.
Qed.

Lemma buildPlayerIdMap_insertAll (content : jsstring) :
  LogParser.buildPlayerIdMap (Some content)
  = Spec.insertAll (Spec.enumerateFrom 0 (dedup (Spec.civColumn content))) ∅.
Proof.
  unfold LogParser.buildPlayerIdMap. rewrite firstSeen_enumerate.
  destruct (length (split 10%Z (trim content)) <? 2) eqn:E; [|reflexivity].
  apply Nat.ltb_lt in E. unfold Spec.civColumn.
  rewrite skipn_all2 by lia. reflexivity.
Qed.

(** C4. The resolved map sends the index [i] to the [i]-th distinct
    civilization of the file in first-seen order: indices run from 0, and a
    name that was seen before changes nothing. Rows that list
    [A, B, A, C, B] resolve to {0:A, 1:B, 2:C}. *)
Theorem C4_first_seen_order (content : jsstring) :
  (forall i : nat,
      LogParser.buildPlayerIdMap (Some content) !! Z.of_nat i
      = dedup (Spec.civColumn content) !! i)
  /\ (forall A B C : jsstring,
         A <> B -> A <> C -> B <> C ->
         Spec.civColumn content = [A; B; A; C; B] ->
         LogParser.buildPlayerIdMap (Some content)
         = <[0%Z := A]> (<[1%Z := B]> (<[2%Z := C]> ∅))).
Proof.
  rewrite buildPlayerIdMap_insertAll. split.
  - intros i. destruct (Nat.lt_ge_cases i (length (dedup (Spec.civColumn content)))) as [Hlt|Hge].
    + apply (insertAll_inside _ 0 i ∅ Hlt).
    + rewrite insertAll_outside by lia. rewrite lookup_empty.
      symmetry. by apply lookup_ge_None.
  - intros A B C HAB HAC HBC ->.
    assert (Hd : dedup [A; B; A; C; B] = [A; B; C]).
    { unfold dedup. simpl.
      rewrite (bool_decide_eq_false_2 (B ∈ [A]))
        by (rewrite list_elem_of_singleton; congruence).
      rewrite (bool_decide_eq_true_2 (A ∈ [B; A])) by (right; left).
      rewrite (bool_decide_eq_false_2 (C ∈ [B; A]))
        by (rewrite !elem_of_cons, elem_of_nil; intros [?|[?|?]]; congruence).
      rewrite (bool_decide_eq_true_2 (B ∈ [C; B; A])) by (right; left).
      reflexivity. }
    rewrite Hd.
    unfold Spec.insertAll. simpl.
    apply map_eq. intros z.
    destruct (decide (z = 0%Z)) as [->|H0]; [by simplify_map_eq|].
    destruct (decide (z = 1%Z)) as [->|H1]; [by simplify_map_eq|].
    destruct (decide (z = 2%Z)) as [->|H2]; by simplify_map_eq.
Qed.

Lemma C4_witness :
  LogParser.buildPlayerIdMap (Some Examples.statsABACB)
  = <[0%Z := js "ROME"]> (<[1%Z := js "EGYPT"]> (<[2%Z := js "KABUL"]> ∅)).
Proof.
  apply (proj2 (C4_first_seen_order Examples.statsABACB)
           (js "ROME") (js "EGYPT") (js "KABUL")).
  - vm_compute. discriminate.
  - vm_compute. discriminate.
  - vm_compute. discriminate.
  - vm_compute. reflexivity.
Defined.

End ResolverFacts.

(** ** Diplomatic relations *)

Section DiplomacyFacts.
Context `{R : Runtime}.

Lemma numEq_Num (a : num) (z : Z) : LogParser.numEq a (Num z) = false -> a <> Num z.
Proof.
  destruct a as [|x]; simpl; [discriminate|].
  intros Hx [= ->]. rewrite Z.eqb_refl in Hx. discriminate.
Qed.

Lemma relationCells_no_self (playerMap : gmap Z jsstring) (fromId : num)
    (cells : list jsstring) :
  forall k : nat,
    Forall (fun r => LogParser.fromPlayerId r <> Num (LogParser.toPlayerId r)
                     /\ LogParser.threat r = float_zero
                     /\ LogParser.trust r = float_zero)
      (LogParser.relationCells playerMap fromId k cells).
Proof.
  induction cells as [|cell rest IH]; intros k; simpl; [constructor|].
  destruct cell as [|c cs]; [apply IH|].
  destruct (matchFirst LogParser.relationAt (c :: cs)) as [[scoreText st]|]; [|apply IH].
  destruct (LogParser.numEq fromId (Num (Z.of_nat k))) eqn:E; [apply IH|].
  constructor; [|apply IH]. simpl. split; [|split; reflexivity].
  apply numEq_Num, E.
Qed.

Lemma relationsOfLine_no_self (playerMap : gmap Z jsstring) (line : jsstring) :
  Forall (fun r => LogParser.fromPlayerId r <> Num (LogParser.toPlayerId r)
                   /\ LogParser.threat r = float_zero
                   /\ LogParser.trust r = float_zero)
    (LogParser.relationsOfLine playerMap line).
Proof.
  unfold LogParser.relationsOfLine.
  destruct (length (map trim (split 44%Z line)) <? 4); [constructor|].
  destruct (bool_decide _); [constructor|]. apply relationCells_no_self.
Qed.

Lemma firstPass_no_self (playerMap : gmap Z jsstring) (lines : list jsstring) :
  Forall (fun r => LogParser.fromPlayerId r <> Num (LogParser.toPlayerId r)
                   /\ LogParser.threat r = float_zero
                   /\ LogParser.trust r = float_zero)
    (flat_map (LogParser.relationsOfLine playerMap) lines).
Proof.
  induction lines as [|line rest IH]; simpl; [constructor|].
  apply Forall_app. split; [apply relationsOfLine_no_self | exact IH].
Qed.

Lemma backfill_length (fromId : num) (toId : Z) (th tr : float)
    (rels : list LogParser.DiplomaticRelation) :
  length (LogParser.backfill fromId toId th tr rels) = length rels.
Proof.
  induction rels as [|r0 rest IH]; simpl; [reflexivity|].
  destruct (_ && _); simpl; [reflexivity | by rewrite IH].
Qed.

Lemma edgeOf_samePair (r r' : LogParser.DiplomaticRelation) (f : num) (t : Z) :
  Spec.edgeOf r' = Spec.edgeOf r -> Spec.samePair r' f t = Spec.samePair r f t.
Proof.
  unfold Spec.edgeOf, Spec.samePair. intros [= _ _ -> -> _ _]. reflexivity.
Qed.

Lemma samePair_true (r : LogParser.DiplomaticRelation) (f : num) (t : Z) :
  Spec.samePair r f t = true ->
  LogParser.fromPlayerId r = f /\ LogParser.toPlayerId r = t.
Proof.
  unfold Spec.samePair. intros Hs. apply andb_true_iff in Hs as [Hf Ht].
  apply Z.eqb_eq in Ht. split; [|exact Ht].
  destruct (LogParser.fromPlayerId r) as [|x], f as [|y]; simpl in Hf; try discriminate.
  apply Z.eqb_eq in Hf. by subst.
Qed.

Lemma firstOfPairb_edges (rels rels' : list LogParser.DiplomaticRelation) (i : nat)
    (r r' : LogParser.DiplomaticRelation) :
  map Spec.edgeOf rels' = map Spec.edgeOf rels -> Spec.edgeOf r' = Spec.edgeOf r ->
  Spec.firstOfPairb rels' i r' = Spec.firstOfPairb rels i r.
Proof.
  unfold Spec.firstOfPairb. intros Hm He.
  assert (Hft : LogParser.fromPlayerId r' = LogParser.fromPlayerId r
                /\ LogParser.toPlayerId r' = LogParser.toPlayerId r).
  { unfold Spec.edgeOf in He. injection He as _ _ Ha Hb _ _. by split. }
  destruct Hft as [-> ->]. revert rels' i Hm.
  induction rels as [|x xs IH]; intros [|y ys] i Hm; try discriminate Hm;
    [reflexivity|].
  pose proof (f_equal head Hm) as Hxy. pose proof (f_equal tail Hm) as Hm'.
  simpl in Hxy, Hm'. apply (inj Some) in Hxy.
  destruct i as [|i]; [reflexivity|]. cbn [firstn forallb].
  rewrite (edgeOf_samePair _ _ _ _ Hxy). f_equal. apply IH, Hm'.
Qed.

Lemma firstOfPairb_spec (rels : list LogParser.DiplomaticRelation) (i : nat)
    (r : LogParser.DiplomaticRelation) :
  Spec.firstOfPairb rels i r = true <-> Spec.firstOfPair rels i r.
Proof.
  unfold Spec.firstOfPairb, Spec.firstOfPair. rewrite forallb_forall. split.
  - intros Hall j rj Hj Hrj. apply negb_true_iff, Hall.
    apply list_elem_of_In, list_elem_of_lookup. exists j.
    rewrite lookup_take_lt by exact Hj. exact Hrj.
  - intros Hall rj Hin. apply list_elem_of_In, list_elem_of_lookup in Hin as [j Hj].
    apply negb_true_iff.
    destruct (decide (j < i)) as [Hlt|Hge].
    + apply (Hall j); [exact Hlt|]. by rewrite lookup_take_lt in Hj.
    + rewrite lookup_take_ge in Hj by lia. discriminate.
Qed.

(** One back-fill writes its values onto the first relation of its pair. *)
Lemma backfill_values (fromId : num) (toId : Z) (th tr : float)
    (rels : list LogParser.DiplomaticRelation) :
  forall i r',
    LogParser.backfill fromId toId th tr rels !! i = Some r' ->
    exists r, rels !! i = Some r /\ Spec.edgeOf r' = Spec.edgeOf r
      /\ (LogParser.threat r', LogParser.trust r')
         = if Spec.samePair r fromId toId
              && forallb (fun rj => negb (Spec.samePair rj fromId toId)) (firstn i rels)
           then (th, tr) else (LogParser.threat r, LogParser.trust r).
Proof.
  induction rels as [|r0 rest IH]; intros i r'; simpl; [intros Hi; inversion Hi|].
  fold (Spec.samePair r0 fromId toId).
  destruct (Spec.samePair r0 fromId toId) eqn:E.
  - destruct i as [|i]; simpl.
    + intros [= <-]. exists r0. rewrite E. repeat split.
    + intros Hi. exists r'. rewrite E. simpl. rewrite andb_false_r. repeat split.
      exact Hi.
  - destruct i as [|i]; simpl.
    + intros [= <-]. exists r0. rewrite E. repeat split.
    + intros Hi. destruct (IH _ _ Hi) as (r & Hr & He & Hv).
      exists r. rewrite E. simpl. repeat split; assumption.
Qed.

Lemma filledFrom_refl (base : list LogParser.DiplomaticRelation) :
  Spec.filledFrom (fun _ => None) base base.
Proof.
  split; [reflexivity|]. intros i r Hi. exists r. repeat split; [exact Hi|].
  unfold Spec.valuesAfter. by destruct (Spec.firstOfPairb base i r).
Qed.

Lemma filledFrom_ext
    (caps caps' : LogParser.DiplomaticRelation -> option (jsstring * jsstring))
    (base rels : list LogParser.DiplomaticRelation) :
  (forall r, caps r = caps' r) ->
  Spec.filledFrom caps base rels -> Spec.filledFrom caps' base rels.
Proof.
  intros Hext [Hlen Hinv]. split; [exact Hlen|]. intros i r' Hi.
  destruct (Hinv _ _ Hi) as (r & Hr & He & Hv). exists r. rewrite <- Hext. by repeat split.
Qed.

Lemma filledFrom_edges
    (caps : LogParser.DiplomaticRelation -> option (jsstring * jsstring))
    (base rels : list LogParser.DiplomaticRelation) :
  Spec.filledFrom caps base rels -> map Spec.edgeOf rels = map Spec.edgeOf base.
Proof.
  intros [Hlen Hinv]. apply list_eq. intros i. rewrite !list_lookup_fmap.
  destruct (rels !! i) as [r'|] eqn:E; simpl.
  - destruct (Hinv _ _ E) as (r & -> & He & _). simpl. by rewrite He.
  - apply lookup_ge_None in E. rewrite Hlen in E.
    apply lookup_ge_None in E. by rewrite E.
Qed.

(** Two rounds of back-fills in a row: the later captures win. *)
Lemma filledFrom_trans
    (caps1 caps2 : LogParser.DiplomaticRelation -> option (jsstring * jsstring))
    (base rels rels' : list LogParser.DiplomaticRelation) :
  (forall r r', Spec.edgeOf r' = Spec.edgeOf r -> caps2 r' = caps2 r) ->
  Spec.filledFrom caps1 base rels ->
  Spec.filledFrom caps2 rels rels' ->
  Spec.filledFrom
    (fun r => match caps2 r with Some c => Some c | None => caps1 r end) base rels'.
Proof.
  intros Hresp H1 H2. pose proof (filledFrom_edges _ _ _ H1) as Hedges.
  destruct H1 as [Hlen1 Hinv1], H2 as [Hlen2 Hinv2].
  split; [congruence|]. intros i r'' Hi.
  destruct (Hinv2 _ _ Hi) as (r' & Hr' & He' & Hv').
  destruct (Hinv1 _ _ Hr') as (r & Hr & He & Hv).
  exists r. split; [exact Hr|]. split; [congruence|].
  rewrite Hv'. rewrite (firstOfPairb_edges base rels i r r' Hedges He).
  rewrite (Hresp r r' He). unfold Spec.valuesAfter in *.
  destruct (Spec.firstOfPairb base i r); [|exact Hv].
  destruct (caps2 r) as [[a c]|]; [reflexivity | exact Hv].
Qed.

Lemma backfill_filled (fromId : num) (toId : Z) (a c : jsstring)
    (rels : list LogParser.DiplomaticRelation) :
  Spec.filledFrom (fun r => if Spec.samePair r fromId toId then Some (a, c) else None)
    rels (LogParser.backfill fromId toId (parseFloat a) (parseFloat c) rels).
Proof.
  split; [apply backfill_length|]. intros i r' Hi.
  destruct (backfill_values _ _ _ _ _ _ _ Hi) as (r & Hr & He & Hv).
  exists r. split; [exact Hr|]. split; [exact He|]. rewrite Hv.
  unfold Spec.valuesAfter, Spec.firstOfPairb.
  destruct (Spec.samePair r fromId toId) eqn:E; simpl.
  - destruct (samePair_true _ _ _ E) as [Hf Ht]. rewrite Hf, Ht.
    destruct (forallb _ _); reflexivity.
  - repeat match goal with
           | |- context [forallb ?f ?l] => destruct (forallb f l)
           end; reflexivity.
Qed.

Lemma threatCells_filled (fromId : num) (allCells : list jsstring)
    (base : list LogParser.DiplomaticRelation) :
  forall (rest : list jsstring) (k : nat) (rels : list LogParser.DiplomaticRelation),
    skipn k allCells = rest ->
    Spec.filledFrom (Spec.cellCaps fromId allCells k) base rels ->
    Spec.filledFrom (Spec.cellCaps fromId allCells (length allCells)) base
      (LogParser.threatCells fromId k rest rels).
Proof.
  induction rest as [|cell rest IH]; intros k rels Hk Hinv.
  - simpl. eapply filledFrom_ext; [|exact Hinv]. intros r. unfold Spec.cellCaps.
    assert (Hlen : length allCells <= k).
    { destruct (decide (length allCells <= k)) as [Hle|Hgt]; [exact Hle|].
      assert (Hl : length (skipn k allCells) = length allCells - k) by apply length_skipn.
      rewrite Hk in Hl. simpl in Hl. lia. }
    destruct (LogParser.numEq _ _); [|reflexivity].
    destruct (Z.leb_spec 0 (LogParser.toPlayerId r)); [|reflexivity]. simpl.
    destruct (Z.ltb_spec (LogParser.toPlayerId r) (Z.of_nat k)),
             (Z.ltb_spec (LogParser.toPlayerId r) (Z.of_nat (length allCells)));
      try reflexivity; try lia.
    rewrite (proj2 (lookup_ge_None allCells _)) by lia. reflexivity.
  - assert (Hcell : allCells !! k = Some cell).
    { rewrite <- (Nat.add_0_r k), <- lookup_drop.
      change (skipn k allCells !! 0 = Some cell). by rewrite Hk. }
    assert (Hrest : skipn (S k) allCells = rest).
    { change (S k) with (1 + k). rewrite <- (skipn_skipn 1 k). by rewrite Hk. }
    cbn [LogParser.threatCells]. apply (IH (S k)); [exact Hrest|].
    assert (Hnone : matchFirst LogParser.threatTrustAt cell = None ->
                    Spec.filledFrom (Spec.cellCaps fromId allCells (S k)) base rels).
    { intros Hm. eapply filledFrom_ext; [|exact Hinv]. intros r. unfold Spec.cellCaps.
      destruct (LogParser.numEq _ _); [|reflexivity].
      destruct (Z.leb_spec 0 (LogParser.toPlayerId r)); [|reflexivity]. simpl.
      destruct (Z.ltb_spec (LogParser.toPlayerId r) (Z.of_nat k)),
               (Z.ltb_spec (LogParser.toPlayerId r) (Z.of_nat (S k)));
        try reflexivity; try lia.
      replace (Z.to_nat (LogParser.toPlayerId r)) with k by lia.
      by rewrite Hcell, Hm. }
    destruct cell as [|c0 cs]; [apply Hnone; reflexivity|].
    destruct (matchFirst LogParser.threatTrustAt (c0 :: cs)) as [[a c]|] eqn:Em;
      [|apply Hnone; reflexivity].
    assert (Hresp : forall r r' : LogParser.DiplomaticRelation,
               Spec.edgeOf r' = Spec.edgeOf r ->
               (if Spec.samePair r' fromId (Z.of_nat k) then Some (a, c) else None)
               = (if Spec.samePair r fromId (Z.of_nat k) then Some (a, c) else None)).
    { intros r r' He. by rewrite (edgeOf_samePair _ _ _ _ He). }
    eapply filledFrom_ext;
      [|apply (filledFrom_trans _ _ base rels _ Hresp Hinv
                 (backfill_filled fromId (Z.of_nat k) a c rels))].
    intros r. cbv beta. unfold Spec.cellCaps.
    { 
      destruct (Spec.samePair r fromId (Z.of_nat k)) eqn:Es.
      * pose proof Es as Es'. apply samePair_true in Es' as [Hf Ht].
        unfold Spec.samePair in Es. apply andb_true_iff in Es as [-> _].
        rewrite Ht, Nat2Z.id, Hcell, Em.
        destruct (Z.leb_spec 0 (Z.of_nat k)); [|lia].
        destruct (Z.ltb_spec (Z.of_nat k) (Z.of_nat (S k))); [reflexivity | lia].
      * unfold Spec.samePair in Es.
        destruct (LogParser.numEq (LogParser.fromPlayerId r) fromId); [|reflexivity].
        simpl in Es. apply Z.eqb_neq in Es.
        destruct (Z.leb_spec 0 (LogParser.toPlayerId r)); [|reflexivity]. simpl.
        destruct (Z.ltb_spec (LogParser.toPlayerId r) (Z.of_nat k)),
                 (Z.ltb_spec (LogParser.toPlayerId r) (Z.of_nat (S k)));
          try reflexivity; lia. }
Qed.

Lemma threatCaps_edges (line : jsstring) (r r' : LogParser.DiplomaticRelation) :
  Spec.edgeOf r' = Spec.edgeOf r -> Spec.threatCaps line r' = Spec.threatCaps line r.
Proof.
  unfold Spec.edgeOf, Spec.threatCaps. intros [= _ _ -> -> _ _]. reflexivity.
Qed.

Lemma lastCaps_edges (lines : list jsstring) (r r' : LogParser.DiplomaticRelation) :
  Spec.edgeOf r' = Spec.edgeOf r -> Spec.lastCaps lines r' = Spec.lastCaps lines r.
Proof.
  intros He. unfold Spec.lastCaps. f_equal.
  induction lines as [|l ls IH]; [reflexivity|]. cbn.
  rewrite (threatCaps_edges l r r' He). by rewrite IH.
Qed.

(** One line of the second pass. *)
Lemma backfillLine_filled (base : list LogParser.DiplomaticRelation) (line : jsstring) :
  Spec.filledFrom (Spec.threatCaps line) base (LogParser.backfillLine base line).
Proof.
  unfold LogParser.backfillLine.
  set (parts := map trim (split 44%Z line)).
  destruct (length parts <? 4) eqn:Elen.
  { eapply filledFrom_ext; [|apply filledFrom_refl]. intros r.
    unfold Spec.threatCaps. fold parts.
    apply Nat.ltb_lt in Elen.
    destruct (Nat.leb_spec 4 (length parts)); [lia | reflexivity]. }
  destruct (bool_decide (nth 2 parts [] = LogParser.THREAT_AND_TRUST)) eqn:Eact.
  2:{ eapply filledFrom_ext; [|apply filledFrom_refl]. intros r.
      unfold Spec.threatCaps. fold parts. rewrite Eact.
      by rewrite andb_false_r. }
  cbn [orb negb]. apply Nat.ltb_ge in Elen.
  eapply filledFrom_ext;
    [|apply (threatCells_filled _ (skipn 4 parts) base (skipn 4 parts) 0 base eq_refl)].
  - intros r. unfold Spec.cellCaps, Spec.threatCaps. fold parts. rewrite Eact.
    destruct (Nat.leb_spec 4 (length parts)); [|lia]. cbn [andb].
    destruct (LogParser.numEq _ _); [|reflexivity].
    destruct (Z.leb_spec 0 (LogParser.toPlayerId r)); [|reflexivity]. cbn [andb].
    destruct (Z.ltb_spec (LogParser.toPlayerId r) (Z.of_nat (length (skipn 4 parts))));
      [reflexivity|].
    rewrite (proj2 (lookup_ge_None (skipn 4 parts) _)) by lia. reflexivity.
  - eapply filledFrom_ext; [|apply filledFrom_refl]. intros r. unfold Spec.cellCaps.
    destruct (LogParser.numEq _ _); [|reflexivity].
    destruct (Z.leb_spec 0 (LogParser.toPlayerId r)); [|reflexivity]. cbn [andb].
    destruct (Z.ltb_spec (LogParser.toPlayerId r) (Z.of_nat 0)); [lia | reflexivity].
Qed.

(** The second pass: every pair gets the captures of the last row that
    addresses it. *)
Lemma secondPass_filled (lines : list jsstring) :
  forall base : list LogParser.DiplomaticRelation,
    Spec.filledFrom (Spec.lastCaps lines) base (fold_left LogParser.backfillLine lines base).
Proof.
  induction lines as [|line rest IH]; intros base; simpl.
  - apply filledFrom_refl.
  - assert (Hresp : forall r r' : LogParser.DiplomaticRelation,
               Spec.edgeOf r' = Spec.edgeOf r ->
               Spec.lastCaps rest r' = Spec.lastCaps rest r).
    { intros r r' He. apply lastCaps_edges, He. }
    eapply filledFrom_ext;
      [|apply (filledFrom_trans _ _ base _ _ Hresp (backfillLine_filled base line) (IH _))].
    intros r. cbv beta. unfold Spec.lastCaps. cbn [omap list_omap]. cbv beta.
    destruct (Spec.threatCaps line r) as [c|]; [|by destruct (last _)].
    change (c :: omap (fun l => Spec.threatCaps l r) rest)
      with ([c] ++ omap (fun l => Spec.threatCaps l r) rest).
    rewrite last_app. reflexivity.
Qed.

(** The lines and the first pass of [parseDiplomacy]. *)
Lemma parseDiplomacy_passes (diplomacy : jsstring) (statsFile : option jsstring) :
  LogParser.parseDiplomacy (Some diplomacy) statsFile
  = fold_left LogParser.backfillLine (skipn 1 (split 10%Z (trim diplomacy)))
      (flat_map (LogParser.relationsOfLine (LogParser.buildPlayerIdMap statsFile))
         (skipn 1 (split 10%Z (trim diplomacy)))).
Proof.
  unfold LogParser.parseDiplomacy.
  destruct (length (split 10%Z (trim diplomacy)) <? 2) eqn:E; [|reflexivity].
  apply Nat.ltb_lt in E. rewrite skipn_all2 by lia. reflexivity.
Qed.

Lemma parseDiplomacy_filled (diplomacy : jsstring) (statsFile : option jsstring) :
  Spec.filledFrom (Spec.lastCaps (skipn 1 (split 10%Z (trim diplomacy))))
    (flat_map (LogParser.relationsOfLine (LogParser.buildPlayerIdMap statsFile))
       (skipn 1 (split 10%Z (trim diplomacy))))
    (LogParser.parseDiplomacy (Some diplomacy) statsFile).
Proof. rewrite parseDiplomacy_passes. apply secondPass_filled. Qed.

(** The second pass keeps the edges of the first pass. *)
Lemma parseDiplomacy_edges (diplomacy : jsstring) (statsFile : option jsstring) :
  map Spec.edgeOf (LogParser.parseDiplomacy (Some diplomacy) statsFile)
  = map Spec.edgeOf
      (flat_map (LogParser.relationsOfLine (LogParser.buildPlayerIdMap statsFile))
         (skipn 1 (split 10%Z (trim diplomacy)))).
Proof. exact (filledFrom_edges _ _ _ (parseDiplomacy_filled diplomacy statsFile)). Qed.

(** C9. No relation of the output joins a player with itself: the cell in
    the column of the row's own player yields no edge. *)
Theorem C9_no_self_relation (diplomacyFile statsFile : option jsstring) :
  Forall (fun r => LogParser.fromPlayerId r <> Num (LogParser.toPlayerId r))
    (LogParser.parseDiplomacy diplomacyFile statsFile).
Proof.
  destruct diplomacyFile as [diplomacy|]; [|constructor].
  destruct (parseDiplomacy_filled diplomacy statsFile) as [_ Hinv].
  apply Forall_forall. intros r' Hr'.
  apply list_elem_of_lookup in Hr' as [i Hi].
  destruct (Hinv _ _ Hi) as (r & Hr & He & _).
  pose proof (firstPass_no_self (LogParser.buildPlayerIdMap statsFile)
                (skipn 1 (split 10%Z (trim diplomacy)))) as Hself.
  rewrite Forall_forall in Hself.
  destruct (Hself r) as [Hne _]; [apply list_elem_of_lookup; eauto|].
  unfold Spec.edgeOf in He. injection He as _ _ -> -> _ _. exact Hne.
Qed.

(** C5 as the code has it. The second pass leaves the edges of the first
    pass as they are. The first edge of a (fromPlayerId, toPlayerId) pair
    that some "Threat and Trust" row of its from-player, of whatever turn,
    addresses with a threat:rank:trust cell in the column of its to-player
    gets the threat and the trust of the last such row, read by
    [parseFloat]; every other edge keeps the default threat and trust. *)
Theorem C5_backfill_by_pair (diplomacy : jsstring) (statsFile : option jsstring) :
  let lines := skipn 1 (split 10%Z (trim diplomacy)) in
  let firstPass :=
    flat_map (LogParser.relationsOfLine (LogParser.buildPlayerIdMap statsFile)) lines in
  let relations := LogParser.parseDiplomacy (Some diplomacy) statsFile in
  map Spec.edgeOf relations = map Spec.edgeOf firstPass
  /\ forall i r,
       relations !! i = Some r ->
       (forall threatText trustText,
           Spec.firstOfPair relations i r ->
           Spec.lastCaps lines r = Some (threatText, trustText) ->
           LogParser.threat r = parseFloat threatText
           /\ LogParser.trust r = parseFloat trustText)
       /\ (~ Spec.firstOfPair relations i r \/ Spec.lastCaps lines r = None ->
           LogParser.threat r = float_zero /\ LogParser.trust r = float_zero).
Proof.
  intros lines firstPass relations.
  pose proof (parseDiplomacy_filled diplomacy statsFile) as Hb.
  fold lines in Hb. fold firstPass in Hb. fold relations in Hb.
  pose proof (filledFrom_edges _ _ _ Hb) as Hedges.
  split; [exact Hedges|].
  destruct Hb as [Hlen Hinv]. intros i r' Hi.
  destruct (Hinv _ _ Hi) as (r & Hr & He & Hv).
  rewrite <- (lastCaps_edges lines r r' He) in Hv.
  rewrite <- (firstOfPairb_edges firstPass relations i r r' Hedges He) in Hv.
  assert (Hzero : LogParser.threat r = float_zero /\ LogParser.trust r = float_zero).
  { pose proof (firstPass_no_self (LogParser.buildPlayerIdMap statsFile) lines) as Hz.
    rewrite Forall_forall in Hz. fold firstPass in Hz.
    destruct (Hz r) as (_ & Ht & Hu); [apply list_elem_of_lookup; eauto|]. by split. }
  destruct Hzero as [Hz1 Hz2]. unfold Spec.valuesAfter in Hv. rewrite Hz1, Hz2 in Hv.
  split.
  - intros threatText trustText Hfirst Hcaps.
    apply firstOfPairb_spec in Hfirst. rewrite Hfirst, Hcaps in Hv.
    injection Hv as -> ->. by split.
  - intros [Hnot|Hnone].
    + destruct (Spec.firstOfPairb relations i r') eqn:Ef.
      * exfalso. apply Hnot, firstOfPairb_spec, Ef.
      * injection Hv as -> ->. by split.
    + rewrite Hnone in Hv. destruct (Spec.firstOfPairb relations i r');
        injection Hv as -> ->; by split.
Qed.

End DiplomacyFacts.

Section DiplomacyExamples.

(** The edge of the turn-10 row has the threat and trust of the turn-20
    row; the edge of the turn-20 row for the same pair has none. *)
Lemma C5_counterexample :
  map Spec.summary
    (@LogParser.parseDiplomacy Reference.runtime (Some Examples.diplomacyLog) None)
  = [ (Num 0, 1%Z, Num (-3), Some (6016%Z, 2), Some (3200%Z, 2));
      (Num 0, 2%Z, Num 7, Some (0%Z, 0), Some (0%Z, 0));
      (Num 0, 1%Z, Num (-9), Some (0%Z, 0), Some (0%Z, 0)) ].
Proof. vm_compute. reflexivity. Qed.

(** In [Examples.diplomacyLog] the first edge, of the turn-10 row, is the
    first of the pair (0, 1) and gets the values 60.16 and 32.00 of the
    turn-20 row; the third edge, of the same pair, keeps the default. *)
Lemma C5_witness :
  exists r0 r2,
    let relations :=
      @LogParser.parseDiplomacy Reference.runtime (Some Examples.diplomacyLog) None in
    let lines := skipn 1 (split 10%Z (trim Examples.diplomacyLog)) in
    relations !! 0 = Some r0 /\ relations !! 2 = Some r2
    /\ @Spec.lastCaps Reference.runtime lines r0 = Some (js "60.16", js "32.00")
    /\ (LogParser.threat r0 = Some (6016%Z, 2) /\ LogParser.trust r0 = Some (3200%Z, 2))
    /\ ~ Spec.firstOfPair relations 2 r2
    /\ (LogParser.threat r2 = Some (0%Z, 0) /\ LogParser.trust r2 = Some (0%Z, 0)).
Proof.
  eexists. eexists. intros relations lines.
  split; [vm_compute; reflexivity|]. split; [vm_compute; reflexivity|].
  split; [vm_compute; reflexivity|].
  assert (Hnot : ~ Spec.firstOfPair relations 2
                     (@LogParser.mkRelation Reference.runtime
                        (js "Player 0") (js "Player 1") (Num 0) 1 (js "WAR") (Num (-9))
                        (Some (0%Z, 0)) (Some (0%Z, 0)))).
  { intros Hf.
    assert (Hc := Hf 0 (@LogParser.mkRelation Reference.runtime
                          (js "Player 0") (js "Player 1") (Num 0) 1 (js "UNFRIENDLY")
                          (Num (-3)) (Some (6016%Z, 2)) (Some (3200%Z, 2)))).
    cut (true = false); [discriminate|]. apply Hc; [lia|]. vm_compute. reflexivity. }
  split; [|split; [exact Hnot|]].
  - refine (proj1 (proj2 (@C5_backfill_by_pair Reference.runtime Examples.diplomacyLog None)
                     0 _ _) (js "60.16") (js "32.00") _ _).
    + vm_compute. reflexivity.
    + intros j rj Hj. lia.
    + vm_compute. reflexivity.
  - refine (proj2 (proj2 (@C5_backfill_by_pair Reference.runtime Examples.diplomacyLog None)
                     2 _ _) _).
    + vm_compute. reflexivity.
    + left. exact Hnot.
Defined.

End DiplomacyExamples.

(** ** The player civ and the analyzer *)

Section PlayerFacts.
Context `{R : Runtime}.

Lemma findIndex_Some {B} (p : B -> bool) (l : list B) (i : nat) :
  findIndex p l = Some i -> exists x, l !! i = Some x /\ p x = true.
Proof.
  revert i. induction l as [|y ys IH]; intros i; simpl; [discriminate|].
  destruct (p y) eqn:E.
  - intros [= <-]. exists y. split; [reflexivity | exact E].
  - destruct (findIndex p ys) as [j|]; simpl; [|discriminate].
    intros [= <-]. apply IH. reflexivity.
Qed.

Lemma matchedIndex_in_roster (allCivs : list Parser.CivInfo)
    (info : option Parser.DecompressedInfo) (i : nat) :
  Parser.matchedIndex allCivs info = Some i -> exists c, allCivs !! i = Some c.
Proof.
  unfold Parser.matchedIndex. destruct info as [info|]; [|discriminate].
  destruct (Parser.playerCities info); [discriminate|].
  destruct (Parser.identifyCivFromCities _); [|discriminate].
  intros Hi. apply findIndex_Some in Hi as (c & Hc & _). eauto.
Qed.

Lemma no_human_after_marking (others : list Parser.CivInfo) :
  filter (fun c => Parser.isHuman c) (map (Parser.setHuman false) others) = [].
Proof. induction others as [|c rest IH]; simpl; [reflexivity | exact IH]. Qed.

Lemma others_marked (others : list Parser.CivInfo) :
  Forall (fun c => Parser.isHuman c = false) (map (Parser.setHuman false) others).
Proof. induction others as [|c rest IH]; simpl; constructor; [reflexivity | exact IH]. Qed.

Lemma identifyPlayer_others (allCivs : list Parser.CivInfo)
    (info : option Parser.DecompressedInfo) :
  Forall (fun c => Parser.isHuman c = false) (snd (Parser.identifyPlayer allCivs info)).
Proof.
  unfold Parser.identifyPlayer.
  destruct (Parser.matchedIndex allCivs info) as [i|].
  - destruct (allCivs !! i); [apply others_marked|].
    destruct allCivs; simpl; [constructor | apply others_marked].
  - destruct allCivs; simpl; [constructor | apply others_marked].
Qed.

Lemma identifyPlayer_none (allCivs : list Parser.CivInfo)
    (info : option Parser.DecompressedInfo) :
  fst (Parser.identifyPlayer allCivs info) = None <-> allCivs = [].
Proof.
  unfold Parser.identifyPlayer.
  destruct (Parser.matchedIndex allCivs info) as [i|] eqn:Ei.
  - destruct (matchedIndex_in_roster _ _ _ Ei) as [c Hc]. rewrite Hc. simpl.
    split; [discriminate|]. intros ->. inversion Hc.
  - destruct allCivs; simpl; split; (reflexivity || discriminate).
Qed.

Lemma parseSave_players (filename : jsstring) (buffer : list byte) (p : Parser.SaveParse) :
  Parser.parseSave filename buffer = Ok p ->
  Parser.playerCiv p
  = fst (Parser.identifyPlayer (Parser.rosterOf buffer) (Parser.decompressedInfoOf buffer))
  /\ Parser.otherCivs (Parser.state p)
     = snd (Parser.identifyPlayer (Parser.rosterOf buffer) (Parser.decompressedInfoOf buffer)).
Proof.
  unfold Parser.parseSave.
  destruct (negb _); [discriminate|].
  destruct (Parser.readMarkerValue buffer Parser.GAME_TURN); [|discriminate].
  destruct (Parser.readMarkerValue buffer Parser.GAME_SPEED); [|discriminate].
  destruct (Parser.readMarkerValue buffer Parser.MAP_SIZE); [|discriminate].
  cbn [bind]. intros [= <-]. split; reflexivity.
Qed.

Lemma findIndex_least {B} (p : B -> bool) (l : list B) (i : nat) :
  findIndex p l = Some i
  <-> (exists x, l !! i = Some x /\ p x = true)
      /\ forall j y, j < i -> l !! j = Some y -> p y = false.
Proof.
  revert i. induction l as [|y ys IH]; intros i; cbn [findIndex].
  - split; [discriminate|]. intros [(x & Hx & _) _]. inversion Hx.
  - destruct (p y) eqn:E.
    + split.
      * intros [= <-]. split; [exists y; by split|]. intros j z Hj. lia.
      * intros [(x & Hx & Hp) Hleast]. destruct i as [|i]; [reflexivity|].
        specialize (Hleast 0 y ltac:(lia) eq_refl). congruence.
    + split.
      * destruct (findIndex p ys) as [k|] eqn:Ek; [|discriminate].
        intros [= <-]. destruct (proj1 (IH k) eq_refl) as [(x & Hx & Hp) Hleast].
        split; [exists x; by split|].
        intros [|j] z Hj; cbn; [intros [= <-]; exact E|].
        intros Hz. apply (Hleast j); [lia | exact Hz].
      * intros [(x & Hx & Hp) Hleast]. destruct i as [|i].
        { cbn in Hx. injection Hx as ->. congruence. }
        cbn in Hx. rewrite (proj2 (IH i)); [reflexivity|].
        split; [exists x; by split|].
        intros j z Hj Hz. apply (Hleast (S j)); [lia | exact Hz].
Qed.

(** [matchedIndex] is the index that the city names lead to. *)
Lemma matchedIndex_cityMatch (roster : list Parser.CivInfo)
    (info : option Parser.DecompressedInfo) (i : nat) :
  Parser.matchedIndex roster info = Some i <-> Spec.cityMatch roster info i.
Proof.
  unfold Parser.matchedIndex, Spec.cityMatch. split.
  - destruct info as [d|]; [|discriminate].
    destruct (Parser.playerCities d) as [|c0 cs] eqn:Ec; [discriminate|].
    destruct (Parser.identifyCivFromCities (c0 :: cs)) as [name|] eqn:En; [|discriminate].
    intros Hi. apply findIndex_least in Hi as [(c & Hc & Hp) Hleast].
    exists d, name, c. rewrite Ec. split; [reflexivity|]. split; [discriminate|].
    split; [exact En|]. split; [exact Hc|].
    split; [apply bool_decide_eq_true in Hp; exact Hp|].
    intros j cj Hj Hcj. specialize (Hleast j cj Hj Hcj).
    apply bool_decide_eq_false in Hleast. exact Hleast.
  - intros (d & name & c & -> & Hne & Hn & Hc & Hup & Hleast).
    destruct (Parser.playerCities d) as [|c0 cs]; [congruence|]. rewrite Hn.
    apply findIndex_least. split.
    + exists c. split; [exact Hc|]. apply bool_decide_eq_true. exact Hup.
    + intros j cj Hj Hcj. apply bool_decide_eq_false. apply (Hleast j cj Hj Hcj).
Qed.

Lemma identifyPlayer_match (allCivs : list Parser.CivInfo)
    (info : option Parser.DecompressedInfo) (i : nat) :
  Parser.matchedIndex allCivs info = Some i ->
  exists c, allCivs !! i = Some c
    /\ Parser.identifyPlayer allCivs info
       = (Some (Parser.setHuman true c),
          map (Parser.setHuman false) (firstn i allCivs ++ skipn (S i) allCivs)).
Proof.
  intros Hi. destruct (matchedIndex_in_roster _ _ _ Hi) as [c Hc].
  exists c. split; [exact Hc|].
  unfold Parser.identifyPlayer. rewrite Hi, Hc. reflexivity.
Qed.

Lemma identifyPlayer_fallback (allCivs : list Parser.CivInfo)
    (info : option Parser.DecompressedInfo) :
  Parser.matchedIndex allCivs info = None ->
  Parser.identifyPlayer allCivs info
  = (head allCivs, map (Parser.setHuman false) (tail allCivs)).
Proof.
  intros Hi. unfold Parser.identifyPlayer. rewrite Hi. by destruct allCivs.
Qed.

(** C7 as the code has it. After a successful parse the other civs are all
    marked not human, and there is a player civ exactly when the roster is
    not empty. When the decoded city names lead to a civ of the roster,
    that civ is the player, it is marked human, the other civs are the
    rest of the roster, and there is exactly one human record. Otherwise
    the first civ of the roster is the player, as the header scan left it,
    and the other civs are the rest of the roster. *)
Theorem C7_player_marking (filename : jsstring) (buffer : list byte)
    (p : Parser.SaveParse) :
  Parser.parseSave filename buffer = Ok p ->
  let roster := Parser.rosterOf buffer in
  let info := Parser.decompressedInfoOf buffer in
  Forall (fun c => Parser.isHuman c = false) (Parser.otherCivs (Parser.state p))
  /\ (Parser.playerCiv p = None <-> roster = [])
  /\ (forall i,
         Spec.cityMatch roster info i ->
         exists c, roster !! i = Some c
           /\ Parser.playerCiv p = Some (Parser.setHuman true c)
           /\ Parser.otherCivs (Parser.state p)
              = map (Parser.setHuman false) (firstn i roster ++ skipn (S i) roster)
           /\ Spec.humans (Parser.playerCiv p) (Parser.otherCivs (Parser.state p)) = 1)
  /\ ((forall i, ~ Spec.cityMatch roster info i) ->
      Parser.playerCiv p = head roster
      /\ Parser.otherCivs (Parser.state p) = map (Parser.setHuman false) (tail roster)).
Proof.
  intros Hp roster info. destruct (parseSave_players _ _ _ Hp) as [-> ->].
  fold roster. fold info.
  split; [apply identifyPlayer_others|]. split; [apply identifyPlayer_none|].
  split.
  - intros i Hi. apply matchedIndex_cityMatch in Hi.
    destruct (identifyPlayer_match _ _ _ Hi) as (c & Hc & Heq).
    exists c. rewrite Heq. cbn [fst snd]. repeat split; try assumption.
    unfold Spec.humans. cbn. rewrite no_human_after_marking. reflexivity.
  - intros Hnone.
    destruct (Parser.matchedIndex roster info) as [i|] eqn:Ei.
    + exfalso. apply (Hnone i), matchedIndex_cityMatch, Ei.
    + rewrite (identifyPlayer_fallback _ _ Ei). by split.
Qed.

(** C8 as the code has it. Every list but the player cities holds the
    first entries of a list of distinct matches in order of first match:
    the first 20 technology tokens without BOOST and GRANT, the first 20
    civic tokens, the first 15 cleaned names of the wonder tokens, the
    first 15 great people, the first 12 of the civilization tokens that
    name a city-state. The player cities are not cut: they are the cities
    of the allow-list that occur in the text, in the order of the
    allow-list, ten at most. *)
Theorem C8_caps (text : jsstring) :
  let info := Parser.analyzeText text in
  (exists techs,
      Spec.firstMatchOrder
        (filter (fun t => negb (includes t (js "BOOST")) && negb (includes t (js "GRANT")))
           (matchAll (Parser.tokenAt (js "TECH_")) text)) techs
      /\ Parser.technologies info
         = map (fun t => Parser.formatEnumValue (removeFirst (js "TECH_") t))
             (firstn 20 techs))
  /\ (exists civics,
         Spec.firstMatchOrder (matchAll (Parser.tokenAt (js "CIVIC_")) text) civics
         /\ Parser.civics info
            = map (fun c => Parser.formatEnumValue (removeFirst (js "CIVIC_") c))
                (firstn 20 civics))
  /\ (exists wonderTokens wonderNames,
         Spec.firstMatchOrder
           (filter Parser.isWonder (matchAll (Parser.tokenAt (js "BUILDING_")) text))
           wonderTokens
         /\ Spec.firstMatchOrder (map Parser.cleanWonderName wonderTokens) wonderNames
         /\ Parser.wonders info = firstn 15 wonderNames)
  /\ (exists people,
         Spec.firstMatchOrder (matchAll Parser.greatPersonAt text) people
         /\ Parser.greatPeople info
            = firstn 15 (map Parser.formatGreatPersonName people))
  /\ (exists civTokens,
         Spec.firstMatchOrder (matchAll (Parser.tokenAt (js "CIVILIZATION_")) text)
           civTokens
         /\ Parser.cityStates info
            = firstn 12
                (map Parser.formatEnumValue
                   (filter Parser.isCityState
                      (map (removeFirst (js "CIVILIZATION_")) civTokens))))
  /\ (exists cities,
         cities `sublist_of` Parser.vietnamCities
         /\ (forall c, c ∈ cities <-> c ∈ Parser.vietnamCities /\ includes text c = true)
         /\ Parser.playerCities info = map Parser.formatEnumValue cities)
  /\ (length (Parser.technologies info) <= 20
      /\ length (Parser.civics info) <= 20
      /\ length (Parser.wonders info) <= 15
      /\ length (Parser.greatPeople info) <= 15
      /\ length (Parser.cityStates info) <= 12
      /\ length (Parser.playerCities info) <= 10).
Proof.
  intros info. unfold info, Parser.analyzeText.
  cbn [Parser.technologies Parser.civics Parser.wonders Parser.greatPeople
       Parser.cityStates Parser.playerCities].
  split; [eexists; split; [apply dedup_firstMatchOrder | reflexivity]|].
  split; [eexists; split; [apply dedup_firstMatchOrder | reflexivity]|].
  split; [eexists; eexists; split; [apply dedup_firstMatchOrder|];
          split; [apply dedup_firstMatchOrder | reflexivity]|].
  split; [eexists; split; [apply dedup_firstMatchOrder | reflexivity]|].
  split; [eexists; split; [apply dedup_firstMatchOrder | reflexivity]|].
  split.
  - exists (filter (fun c => includes text c) Parser.vietnamCities).
    split; [apply sublist_filter|]. split; [|reflexivity].
    intros c. rewrite list_elem_of_filter. split.
    + intros [Hc Hin]. split; [exact Hin | apply Is_true_true, Hc].
    + intros [Hin Hc]. split; [apply Is_true_true, Hc | exact Hin].
  - rewrite !length_map. repeat split; try apply firstn_le_length.
    unfold Parser.playerCitiesOf. rewrite length_map.
    etransitivity; [apply length_filter | reflexivity].
Qed.

End PlayerFacts.

Section PlayerExamples.

Lemma C7_counterexample :
  (exists p,
      @Parser.parseSave Reference.runtime Examples.saveName Examples.rosterlessSave = Ok p
      /\ Parser.playerCiv p = None
      /\ Spec.humans (Parser.playerCiv p) (Parser.otherCivs (Parser.state p)) = 0)
  /\ (exists p c,
         @Parser.parseSave Reference.runtime Examples.saveName Examples.fallbackSave = Ok p
         /\ Parser.playerCiv p = Some c
         /\ Parser.civilization c = js "Rome"
         /\ Parser.isHuman c = false
         /\ Spec.humans (Parser.playerCiv p) (Parser.otherCivs (Parser.state p)) = 0).
Proof.
  split.
  - eexists. split; [vm_compute; reflexivity|]. split; reflexivity.
  - eexists. eexists. split; [vm_compute; reflexivity|].
    split; [reflexivity|]. repeat split; reflexivity.
Qed.

(** [Examples.vietnamSave]: the city Hanoi leads to Vietnam, the second
    civ of the roster, which becomes the one human record.
    [Examples.fallbackSave]: no city is decoded, and the first civ of the
    roster, Rome, is the player; Egypt is the other civ. *)
Lemma C7_witness :
  (exists p c,
      @Parser.parseSave Reference.runtime Examples.saveName Examples.vietnamSave = Ok p
      /\ @Parser.rosterOf Reference.runtime Examples.vietnamSave !! 1 = Some c
      /\ Parser.civilization c = js "Vietnam"
      /\ Parser.playerCiv p = Some (Parser.setHuman true c)
      /\ map Parser.civilization (Parser.otherCivs (Parser.state p)) = [js "Rome"]
      /\ Spec.humans (Parser.playerCiv p) (Parser.otherCivs (Parser.state p)) = 1)
  /\ (exists p,
         @Parser.parseSave Reference.runtime Examples.saveName Examples.fallbackSave = Ok p
         /\ Parser.civilization <$> Parser.playerCiv p = Some (js "Rome")
         /\ map Parser.civilization (Parser.otherCivs (Parser.state p)) = [js "Egypt"]).
Proof.
  split.
  - assert (Hp : exists p,
               @Parser.parseSave Reference.runtime Examples.saveName Examples.vietnamSave
               = Ok p)
      by (eexists; vm_compute; reflexivity).
    destruct Hp as [p Hp].
    assert (Hr : @Parser.rosterOf Reference.runtime Examples.vietnamSave
                 = [ Parser.mkCivInfo (js "Trajan") (js "Rome") Parser.full_civ false;
                     Parser.mkCivInfo
                       (js "B" ++ [224%Z] ++ js " Tri" ++ [7879%Z] ++ js "u")
                       (js "Vietnam") Parser.full_civ false ])
      by (vm_compute; reflexivity).
    assert (Hm : @Spec.cityMatch Reference.runtime
                   (@Parser.rosterOf Reference.runtime Examples.vietnamSave)
                   (@Parser.decompressedInfoOf Reference.runtime Examples.vietnamSave) 1).
    { eexists. eexists. eexists.
      split; [vm_compute; reflexivity|]. split; [discriminate|].
      split; [vm_compute; reflexivity|]. split; [rewrite Hr; reflexivity|].
      split; [vm_compute; reflexivity|].
      rewrite Hr. intros [|[|j]] cj Hj; try lia. intros [= <-]. vm_compute. discriminate. }
    pose proof (@C7_player_marking Reference.runtime Examples.saveName
                  Examples.vietnamSave p Hp) as Hall.
    cbv zeta in Hall. destruct Hall as (_ & _ & Hmatched & _).
    destruct (Hmatched 1 Hm) as (c & Hc & Hpc & Ho & Hh).
    exists p, c. split; [exact Hp|]. split; [exact Hc|].
    rewrite Hr in Hc. injection Hc as <-.
    split; [reflexivity|]. split; [exact Hpc|]. split; [|exact Hh].
    rewrite Ho, Hr. reflexivity.
  - assert (Hp : exists p,
               @Parser.parseSave Reference.runtime Examples.saveName Examples.fallbackSave
               = Ok p)
      by (eexists; vm_compute; reflexivity).
    destruct Hp as [p Hp]. exists p. split; [exact Hp|].
    pose proof (@C7_player_marking Reference.runtime Examples.saveName
                  Examples.fallbackSave p Hp) as Hall.
    cbv zeta in Hall. destruct Hall as (_ & _ & _ & Hfallback).
    destruct Hfallback as [Hpc Ho].
    { intros i (d & name & c & Hinfo & _). vm_compute in Hinfo. discriminate Hinfo. }
    rewrite Hpc, Ho. split; vm_compute; reflexivity.
Defined.

Lemma C8_counterexample :
  length (@Parser.cityStatesOf Reference.runtime Examples.thirteenCityStates) = 13
  /\ length (Parser.cityStates
               (@Parser.analyzeText Reference.runtime Examples.thirteenCityStates)) = 12.
Proof. split; vm_compute; reflexivity. Qed.

(** On [Examples.smallGameText] the lists are fixed by the property: the
    technology named twice is listed once and the boost not at all, the
    two keys of Petra give one wonder. *)
Lemma C8_witness :
  let info := @Parser.analyzeText Reference.runtime Examples.smallGameText in
  Parser.technologies info = [js "Pottery"; js "Mining"]
  /\ Parser.civics info = [js "Code Of Laws"]
  /\ Parser.wonders info = [js "Petra"]
  /\ Parser.cityStates info = [js "Kabul"]
  /\ Parser.playerCities info = [js "Hue"].
Proof.
  intros info.
  destruct (@C8_caps Reference.runtime Examples.smallGameText)
    as ((techs & Ht & Htechs) & (civics & Hc & Hcivics)
        & (tokens & names & Hw1 & Hw2 & Hwonders) & _
        & (civTokens & Hs & Hstates) & (cities & Hsub & Hcities & Hplayer) & _).
  fold info in Htechs, Hcivics, Hwonders, Hstates, Hplayer.
  apply firstMatchOrder_unique in Ht, Hc, Hw1, Hs. subst techs civics tokens civTokens.
  apply firstMatchOrder_unique in Hw2. subst names.
  rewrite Htechs, Hcivics, Hwonders, Hstates.
  split; [vm_compute; reflexivity|]. split; [vm_compute; reflexivity|].
  split; [vm_compute; reflexivity|]. split; [vm_compute; reflexivity|].
  vm_compute. reflexivity.
Defined.

End PlayerExamples.

(** ** The game history *)

Section HistoryFacts.
Context `{R : Runtime}.

(** *** The latest complete turn *)








(** *** The turns of a history *)

Section JsMapFacts.
Context {K V : Type} `{EqDecision K}.

Lemma mapUpdate_keys (k : K) (f : option V -> V) (m : list (K * V)) :
  map fst (HistoryParser.mapUpdate k f m)
  = if bool_decide (k ∈ map fst m) then map fst m else map fst m ++ [k].
Proof.
  induction m as [|[k' v] rest IH]; simpl; [reflexivity|].
  destruct (decide (k' = k)) as [->|Hne].
  - rewrite bool_decide_eq_true_2 by reflexivity. simpl.
    rewrite bool_decide_eq_true_2 by (left; reflexivity). reflexivity.
  - rewrite (bool_decide_eq_false_2 (k' = k)) by assumption. simpl. rewrite IH.
    rewrite (bool_decide_ext (k ∈ k' :: map fst rest) (k ∈ map fst rest)).
    + destruct (bool_decide (k ∈ map fst rest)); reflexivity.
    + rewrite elem_of_cons. split; [|tauto]. intros [->|Hin]; [congruence | exact Hin].
Qed.

End JsMapFacts.

Lemma turnMap_keys (rawStats : list HistoryParser.RawPlayerStats) :
  forall acc : list (num * list HistoryParser.RawPlayerStats),
    map fst (fold_left HistoryParser.turnStep rawStats acc)
    = map fst acc ++ dedup_aux (map fst acc) (map HistoryParser.rs_turn rawStats).
Proof.
  induction rawStats as [|s rest IH]; intros acc; simpl.
  - symmetry. apply app_nil_r.
  - rewrite IH. unfold HistoryParser.turnStep. rewrite mapUpdate_keys.
    destruct (bool_decide (HistoryParser.rs_turn s ∈ map fst acc)); [reflexivity|].
    rewrite <- app_assoc. f_equal. simpl. f_equal. apply dedup_aux_ext. intros x.
    rewrite elem_of_app, !elem_of_cons, elem_of_nil. tauto.
Qed.

Lemma toTurnData_turn (scoresByTurn : list (num * list (num * num)))
    (turnMap : list (num * list HistoryParser.RawPlayerStats)) :
  map HistoryParser.td_turn (map (HistoryParser.toTurnData scoresByTurn) turnMap)
  = map fst turnMap.
Proof.
  induction turnMap as [|[k rows] rest IH]; simpl; [reflexivity|]. by rewrite IH.
Qed.

(** The sort: on turns that are numbers and pairwise different it yields
    the strictly ascending order. *)
Lemma insertTurn_Permutation (x : HistoryParser.TurnData) (l : list HistoryParser.TurnData) :
  HistoryParser.insertTurn x l ≡ₚ x :: l.
Proof.
  induction l as [|y ys IH]; simpl; [reflexivity|].
  destruct (HistoryParser.numGt _ _); [reflexivity|].
  rewrite IH. apply Permutation_swap.
Qed.

Lemma turnLt_trans (a b c : num) : Spec.turnLt a b -> Spec.turnLt b c -> Spec.turnLt a c.
Proof. destruct a, b, c; simpl; try tauto. lia. Qed.

Lemma insertTurn_ascending (x : HistoryParser.TurnData) (l : list HistoryParser.TurnData) :
  Spec.isNum (HistoryParser.td_turn x) ->
  Forall (fun t => Spec.isNum (HistoryParser.td_turn t)) l ->
  HistoryParser.td_turn x ∉ map HistoryParser.td_turn l ->
  Spec.ascending l -> Spec.ascending (HistoryParser.insertTurn x l).
Proof.
  unfold Spec.ascending. intros Hx Hl Hnew Hs.
  induction l as [|y ys IH]; simpl; [repeat constructor|].
  apply StronglySorted_inv in Hs as [Hys Hy].
  inversion Hl as [|? ? Hny Hnys]; subst.
  assert (Hne : HistoryParser.td_turn x <> HistoryParser.td_turn y).
  { intros Heq. apply Hnew. simpl. rewrite Heq. left. }
  assert (Hnew' : HistoryParser.td_turn x ∉ map HistoryParser.td_turn ys).
  { intros Hin. apply Hnew. simpl. right. exact Hin. }
  destruct (HistoryParser.td_turn x) as [|zx] eqn:Ex; [destruct Hx|].
  destruct (HistoryParser.td_turn y) as [|zy] eqn:Ey; [destruct Hny|].
  simpl. destruct (Z.ltb_spec zx zy) as [Hlt|Hge].
  - constructor; [constructor; [exact Hys | rewrite Ey; exact Hy]|].
    constructor; [rewrite Ex, Ey; exact Hlt|].
    eapply Forall_impl; [exact Hy|]. simpl. intros t Ht. rewrite Ex.
    destruct (HistoryParser.td_turn t); simpl in *; [tauto | lia].
  - constructor; [apply IH; assumption|].
    rewrite insertTurn_Permutation. constructor; [|rewrite Ey; exact Hy].
    rewrite Ex, Ey. simpl. assert (zx <> zy) by congruence. lia.
Qed.

Lemma sortTurns_fold (rest : list HistoryParser.TurnData) :
  forall acc : list HistoryParser.TurnData,
    Forall (fun t => Spec.isNum (HistoryParser.td_turn t)) (acc ++ rest) ->
    NoDup (map HistoryParser.td_turn (acc ++ rest)) ->
    Spec.ascending acc ->
    Spec.ascending (fold_left (fun sorted x => HistoryParser.insertTurn x sorted) rest acc)
    /\ fold_left (fun sorted x => HistoryParser.insertTurn x sorted) rest acc ≡ₚ acc ++ rest.
Proof.
  induction rest as [|x xs IH]; intros acc Hnum Hnd Hs; simpl.
  - rewrite app_nil_r. split; [exact Hs | reflexivity].
  - assert (Hperm : HistoryParser.insertTurn x acc ++ xs ≡ₚ acc ++ x :: xs).
    { rewrite insertTurn_Permutation. simpl. apply Permutation_middle. }
    destruct (IH (HistoryParser.insertTurn x acc)) as [Hsorted Hp].
    + rewrite Hperm. exact Hnum.
    + rewrite Hperm. exact Hnd.
    + apply Forall_app in Hnum as [Hacc Hrest].
      inversion Hrest as [|? ? Hx Hxs]; subst.
      apply insertTurn_ascending; [exact Hx | exact Hacc | | exact Hs].
      rewrite map_app in Hnd. simpl in Hnd.
      apply NoDup_app in Hnd as (_ & Hdisj & _).
      intros Hin. apply (Hdisj _ Hin). left.
    + split; [exact Hsorted|]. rewrite Hp. exact Hperm.
Qed.

Lemma sortTurns_ascending (l : list HistoryParser.TurnData) :
  Forall (fun t => Spec.isNum (HistoryParser.td_turn t)) l ->
  NoDup (map HistoryParser.td_turn l) ->
  Spec.ascending (HistoryParser.sortTurns l) /\ HistoryParser.sortTurns l ≡ₚ l.
Proof.
  intros Hnum Hnd. apply (sortTurns_fold l []); [exact Hnum | exact Hnd | constructor].
Qed.

Lemma ascending_turns (l : list HistoryParser.TurnData) :
  Spec.ascending l -> StronglySorted Spec.turnLt (map HistoryParser.td_turn l).
Proof.
  unfold Spec.ascending.
  induction 1 as [|t l Hl IH Ht]; simpl; constructor; [exact IH|].
  apply Forall_forall. intros n Hn.
  apply list_elem_of_fmap in Hn as (t' & -> & Ht').
  rewrite Forall_forall in Ht. apply Ht, Ht'.
Qed.

(** The turns of a parsed history are the distinct turn numbers of the
    statistics rows; without a NaN among them they are in strictly
    ascending order. *)
Lemma history_turns (statsFile scoresFile : option jsstring)
    (history : HistoryParser.GameHistory) :
  HistoryParser.parseGameHistory statsFile scoresFile = Some history ->
  Forall Spec.isNum (map HistoryParser.rs_turn (HistoryParser.parsePlayerStatsCSV statsFile)) ->
  StronglySorted Spec.turnLt (map HistoryParser.td_turn (HistoryParser.turns history))
  /\ forall n, n ∈ map HistoryParser.td_turn (HistoryParser.turns history)
               <-> n ∈ map HistoryParser.rs_turn (HistoryParser.parsePlayerStatsCSV statsFile).
Proof.
  unfold HistoryParser.parseGameHistory.
  destruct (HistoryParser.parsePlayerStatsCSV statsFile) as [|s0 raw] eqn:Eraw; [discriminate|].
  intros [= <-] Hnum. cbn [HistoryParser.turns].
  change (fold_left HistoryParser.turnStep raw (HistoryParser.turnStep [] s0))
    with (fold_left HistoryParser.turnStep (s0 :: raw) []).
  set (turnMap := fold_left HistoryParser.turnStep (s0 :: raw) []).
  set (scoresByTurn :=
         fold_left HistoryParser.scoreStep
           (HistoryParser.parsePlayerScoresCSV scoresFile) []).
  set (entries := map (HistoryParser.toTurnData scoresByTurn) turnMap).
  assert (Hkeys : map HistoryParser.td_turn entries
                  = dedup (map HistoryParser.rs_turn (s0 :: raw))).
  { unfold entries. rewrite toTurnData_turn. unfold turnMap. rewrite turnMap_keys.
    reflexivity. }
  destruct (sortTurns_ascending entries) as [Hasc Hperm].
  - apply Forall_forall. intros t Ht.
    rewrite Forall_forall in Hnum. apply Hnum. apply dedup_elem_of.
    rewrite <- Hkeys. apply list_elem_of_fmap. exists t. split; [reflexivity | exact Ht].
  - rewrite Hkeys. apply dedup_NoDup.
  - split.
    + apply ascending_turns, Hasc.
    + intros n. rewrite Hperm, Hkeys. apply dedup_elem_of.
Qed.

#[local] Instance turnLt_antisymm : AntiSymm (=) Spec.turnLt.
Proof. intros [|x] [|y]; simpl; try tauto. lia. Qed.

(** A strictly ascending list of the turns 1, 5, 9 and 15. *)
Lemma ascending_1_5_9_15 (l : list num) :
  StronglySorted Spec.turnLt l ->
  (forall n, n ∈ l <-> n ∈ [Num 1; Num 5; Num 9; Num 15]) ->
  l = [Num 1; Num 5; Num 9; Num 15].
Proof.
  intros Hs Hel. apply (StronglySorted_unique Spec.turnLt); [exact Hs| |].
  - repeat constructor; simpl; lia.
  - apply NoDup_Permutation; [|by_evaluation|exact Hel].
    clear Hel. induction Hs as [|n l Hl IH Hn]; constructor; [|exact IH].
    intros Hin. rewrite Forall_forall in Hn. specialize (Hn _ Hin).
    destruct n; simpl in Hn; [tauto | lia].
Qed.

(** *** The rows of the turns *)

Lemma turnStep_groups (turnMap : list (num * list HistoryParser.RawPlayerStats))
    (stat : HistoryParser.RawPlayerStats) :
  Forall Spec.groupOk turnMap ->
  Forall Spec.groupOk (HistoryParser.turnStep turnMap stat)
  /\ flat_map snd (HistoryParser.turnStep turnMap stat) ≡ₚ flat_map snd turnMap ++ [stat].
Proof.
  unfold HistoryParser.turnStep.
  induction turnMap as [|[k rows] rest IH]; intros Hg; cbn [HistoryParser.mapUpdate].
  - split; [|reflexivity]. constructor; [|constructor].
    split; [discriminate|]. repeat constructor.
  - inversion Hg as [|? ? [Hne Hrows] Hrest]; subst. cbn [fst snd] in *.
    case_bool_decide as Hk.
    + split.
      * constructor; [|exact Hrest]. split; cbn [fst snd].
        -- destruct rows; discriminate.
        -- apply Forall_app. split; [exact Hrows|]. constructor; [|constructor].
           symmetry. exact Hk.
      * cbn [flat_map snd]. rewrite <- !app_assoc. apply Permutation_app_head.
        apply Permutation_app_comm.
    + destruct (IH Hrest) as [IH1 IH2]. split.
      * constructor; [|exact IH1]. split; assumption.
      * cbn [flat_map snd]. rewrite IH2. rewrite app_assoc. reflexivity.
Qed.

Lemma turnSteps_groups (raw : list HistoryParser.RawPlayerStats) :
  forall turnMap,
    Forall Spec.groupOk turnMap ->
    Forall Spec.groupOk (fold_left HistoryParser.turnStep raw turnMap)
    /\ flat_map snd (fold_left HistoryParser.turnStep raw turnMap)
       ≡ₚ flat_map snd turnMap ++ raw.
Proof.
  induction raw as [|stat rest IH]; intros turnMap Hg; cbn [fold_left].
  - split; [exact Hg|]. rewrite app_nil_r. reflexivity.
  - destruct (turnStep_groups turnMap stat Hg) as [H1 H2].
    destruct (IH _ H1) as [H3 H4]. split; [exact H3|].
    rewrite H4, H2, <- app_assoc. reflexivity.
Qed.

Lemma mapIndexed_rows (turnScores : option (list (num * num)))
    (rows : list HistoryParser.RawPlayerStats) :
  forall i,
    map Spec.filedRow (HistoryParser.mapIndexed (HistoryParser.toCivStatistics turnScores) i rows)
    = map Spec.rawRow rows.
Proof.
  induction rows as [|r rest IH]; intros i; cbn [HistoryParser.mapIndexed map];
    [reflexivity|].
  rewrite IH. reflexivity.
Qed.

Lemma toTurnData_rows (scoresByTurn : list (num * list (num * num)))
    (e : num * list HistoryParser.RawPlayerStats) :
  map Spec.filedRow (HistoryParser.civStats (HistoryParser.toTurnData scoresByTurn e))
  = map Spec.rawRow (snd e).
Proof. destruct e as [k rows]. apply mapIndexed_rows. Qed.

Lemma toTurnData_wellFiled (scoresByTurn : list (num * list (num * num)))
    (e : num * list HistoryParser.RawPlayerStats) :
  Spec.groupOk e -> Spec.wellFiled (HistoryParser.toTurnData scoresByTurn e).
Proof.
  intros [Hne Hrows]. pose proof (toTurnData_rows scoresByTurn e) as Hmap.
  destruct e as [k rows]. cbn [fst snd] in *.
  unfold Spec.wellFiled. cbn [HistoryParser.toTurnData HistoryParser.td_turn] in *.
  set (stats := HistoryParser.civStats _) in *. split.
  - intros Hnil. rewrite Hnil in Hmap. destruct rows; [congruence | discriminate].
  - apply Forall_forall. intros s Hs.
    assert (Hin : Spec.filedRow s ∈ map Spec.rawRow rows).
    { rewrite <- Hmap. apply list_elem_of_fmap. exists s. split; [reflexivity | exact Hs]. }
    apply list_elem_of_fmap in Hin as (r & Heq & Hr).
    rewrite Forall_forall in Hrows. specialize (Hrows r Hr).
    unfold Spec.filedRow, Spec.rawRow in Heq. congruence.
Qed.

Lemma sortTurns_Permutation (l : list HistoryParser.TurnData) :
  HistoryParser.sortTurns l ≡ₚ l.
Proof.
  unfold HistoryParser.sortTurns.
  assert (Hgen : forall acc,
             fold_left (fun sorted x => HistoryParser.insertTurn x sorted) l acc
             ≡ₚ acc ++ l).
  { induction l as [|x xs IH]; intros acc; cbn [fold_left].
    - rewrite app_nil_r. reflexivity.
    - rewrite IH, insertTurn_Permutation. cbn [app]. apply Permutation_middle. }
  apply (Hgen []).
Qed.

(** The turns of a parsed history: their numbers are the distinct turn
    numbers of the rows, each turn is well filed, and together they hold
    the rows of the file. *)
Lemma history_rows (statsFile scoresFile : option jsstring)
    (history : HistoryParser.GameHistory) :
  HistoryParser.parseGameHistory statsFile scoresFile = Some history ->
  HistoryParser.parsePlayerStatsCSV statsFile <> []
  /\ map HistoryParser.td_turn (HistoryParser.turns history)
     ≡ₚ dedup (map HistoryParser.rs_turn (HistoryParser.parsePlayerStatsCSV statsFile))
  /\ Forall Spec.wellFiled (HistoryParser.turns history)
  /\ map Spec.filedRow (flat_map HistoryParser.civStats (HistoryParser.turns history))
     ≡ₚ map Spec.rawRow (HistoryParser.parsePlayerStatsCSV statsFile).
Proof.
  unfold HistoryParser.parseGameHistory.
  destruct (HistoryParser.parsePlayerStatsCSV statsFile) as [|s0 raw] eqn:Eraw; [discriminate|].
  intros [= <-]. cbn [HistoryParser.turns].
  change (fold_left HistoryParser.turnStep raw (HistoryParser.turnStep [] s0))
    with (fold_left HistoryParser.turnStep (s0 :: raw) []).
  set (turnMap := fold_left HistoryParser.turnStep (s0 :: raw) []).
  set (scoresByTurn :=
         fold_left HistoryParser.scoreStep
           (HistoryParser.parsePlayerScoresCSV scoresFile) []).
  destruct (turnSteps_groups (s0 :: raw) [] ltac:(constructor)) as [Hgroups Hrows].
  fold turnMap in Hgroups, Hrows. cbn [flat_map app] in Hrows.
  split; [discriminate|]. split; [|split].
  - rewrite sortTurns_Permutation, toTurnData_turn. unfold turnMap.
    rewrite turnMap_keys. reflexivity.
  - rewrite sortTurns_Permutation. apply Forall_forall. intros t Ht.
    apply list_elem_of_fmap in Ht as (e & -> & He).
    apply toTurnData_wellFiled. rewrite Forall_forall in Hgroups. apply Hgroups, He.
  - rewrite sortTurns_Permutation. rewrite <- Hrows.
    clear Hgroups Hrows. induction turnMap as [|e rest IH]; [reflexivity|].
    cbn [map flat_map]. rewrite !map_app, IH, toTurnData_rows. reflexivity.
Qed.

Lemma history_nonempty (statsFile scoresFile : option jsstring)
    (history : HistoryParser.GameHistory) :
  HistoryParser.parseGameHistory statsFile scoresFile = Some history ->
  HistoryParser.turns history <> [].
Proof.
  intros Hh. destruct (history_rows _ _ _ Hh) as (Hraw & Hturns & _).
  intros Hnil. rewrite Hnil in Hturns. cbn [map] in Hturns.
  apply Permutation_nil_l in Hturns.
  destruct (HistoryParser.parsePlayerStatsCSV statsFile) as [|r rest]; [congruence|].
  discriminate Hturns.
Qed.

(** *** Trends in a window *)

Lemma calcChange_changeFrom (x y : num) :
  Spec.changeFrom x y (HistoryParser.calcChange x y).
Proof.
  unfold Spec.changeFrom, HistoryParser.calcChange. cbn. repeat split.
  destruct x as [|s], y as [|e]; cbn; try reflexivity;
    destruct (0 <? s)%Z; reflexivity.
Qed.

Lemma delta_deltaFrom (x y : num) : Spec.deltaFrom x y (HistoryParser.delta x y).
Proof. repeat split. Qed.

Lemma findStats_rowOf (civ s : HistoryParser.CivStatistics)
    (rows : list HistoryParser.CivStatistics) :
  HistoryParser.findStats civ rows = Some s ->
  Spec.rowOf (HistoryParser.civilization civ) rows s.
Proof.
  unfold HistoryParser.findStats, Spec.rowOf.
  induction rows as [|r rest IH]; cbn [find]; [discriminate|].
  destruct (bool_decide (HistoryParser.civilization r = HistoryParser.civilization civ)
            && negb (HistoryParser.isCityState_ r)) eqn:E.
  - intros [= <-]. exists [], rest. apply andb_true_iff in E as [Hn Hc].
    apply bool_decide_eq_true in Hn. apply negb_true_iff in Hc.
    repeat split; [exact Hn | exact Hc | constructor].
  - intros Hs. destruct (IH Hs) as (before & after & -> & Hn & Hc & Hb).
    exists (r :: before), after. repeat split; [exact Hn | exact Hc|].
    constructor; [|exact Hb]. apply andb_false_iff in E as [E|E].
    + left. apply bool_decide_eq_false in E. exact E.
    + right. apply negb_false_iff in E. exact E.
Qed.

Lemma findStats_hasRow (civ : HistoryParser.CivStatistics)
    (rows : list HistoryParser.CivStatistics) :
  Spec.hasRow rows (HistoryParser.civilization civ)
  = match HistoryParser.findStats civ rows with
    | Some _ => true
    | None => false
    end.
Proof.
  unfold Spec.hasRow, HistoryParser.findStats.
  induction rows as [|r rest IH]; cbn [existsb find]; [reflexivity|].
  destruct (bool_decide _ && negb _); [reflexivity | exact IH].
Qed.

Lemma findStats_own (civ : HistoryParser.CivStatistics)
    (rows : list HistoryParser.CivStatistics) :
  civ ∈ rows -> HistoryParser.isCityState_ civ = false ->
  exists s, HistoryParser.findStats civ rows = Some s.
Proof.
  intros Hin Hc. pose proof (findStats_hasRow civ rows) as Hh.
  destruct (HistoryParser.findStats civ rows) as [s|]; [eauto|].
  exfalso. unfold Spec.hasRow in Hh.
  assert (Ht : existsb
                 (fun s => bool_decide (HistoryParser.civilization s
                                        = HistoryParser.civilization civ)
                           && negb (HistoryParser.isCityState_ s)) rows = true).
  { apply existsb_exists. exists civ. split; [apply list_elem_of_In, Hin|].
    rewrite Hc. rewrite bool_decide_eq_true_2 by reflexivity. reflexivity. }
  congruence.
Qed.

(** The trend of one civ of the later turn. *)
Lemma trendOf_trendFor (start end_ : HistoryParser.TurnData)
    (civ : HistoryParser.CivStatistics) :
  civ ∈ HistoryParser.civStats end_ -> HistoryParser.isCityState_ civ = false ->
  if Spec.hasRow (HistoryParser.civStats start) (HistoryParser.civilization civ)
  then exists tr, HistoryParser.trendOf start end_ civ = [tr]
                  /\ Spec.trendFor start end_ civ tr
  else HistoryParser.trendOf start end_ civ = [].
Proof.
  intros Hin Hc. rewrite findStats_hasRow. unfold HistoryParser.trendOf.
  destruct (findStats_own civ _ Hin Hc) as [b Hb]. rewrite Hb.
  destruct (HistoryParser.findStats civ (HistoryParser.civStats start)) as [a|] eqn:Ha;
    [|reflexivity].
  eexists. split; [reflexivity|].
  unfold Spec.trendFor.
  cbn [HistoryParser.t_civilization HistoryParser.t_leader HistoryParser.startTurn
       HistoryParser.endTurn HistoryParser.turnsAnalyzed HistoryParser.t_score
       HistoryParser.science HistoryParser.culture HistoryParser.gold
       HistoryParser.military HistoryParser.t_cities HistoryParser.territory
       HistoryParser.t_techs].
  do 5 (split; [reflexivity|]). exists a, b.
  split; [apply findStats_rowOf, Ha|]. split; [apply findStats_rowOf, Hb|].
  repeat split; try apply calcChange_changeFrom.
Qed.

(** The trends between two turns, for the major civs of the later one. *)
Lemma trends_between (start end_ : HistoryParser.TurnData) :
  Forall2 (Spec.trendFor start end_) (Spec.trendCivs start end_)
    (flat_map (HistoryParser.trendOf start end_)
       (HistoryParser.majorCivsOf (HistoryParser.civStats end_))).
Proof.
  unfold Spec.trendCivs, HistoryParser.majorCivsOf.
  assert (Hgen : forall l,
             (forall c, c ∈ l -> c ∈ HistoryParser.civStats end_) ->
             Forall2 (Spec.trendFor start end_)
               (filter (fun c => negb (HistoryParser.isCityState_ c)
                                 && Spec.hasRow (HistoryParser.civStats start)
                                      (HistoryParser.civilization c)) l)
               (flat_map (HistoryParser.trendOf start end_)
                  (filter (fun s => negb (HistoryParser.isCityState_ s)) l))).
  { induction l as [|c l IH]; intros Hsub; [constructor|].
    rewrite !filter_cons.
    assert (IH' := IH (fun c' Hc' => Hsub c' (list_elem_of_further _ _ _ Hc'))).
    destruct (HistoryParser.isCityState_ c) eqn:Ec; cbn [negb andb]; [exact IH'|].
    pose proof (trendOf_trendFor start end_ c (Hsub c (list_elem_of_here _ _)) Ec) as Ht.
    destruct (Spec.hasRow _ _).
    - destruct Ht as (tr & Htr & Hfor).
      change (Forall2 (Spec.trendFor start end_)
                (c :: filter (fun c => negb (HistoryParser.isCityState_ c)
                                       && Spec.hasRow (HistoryParser.civStats start)
                                            (HistoryParser.civilization c)) l)
                (HistoryParser.trendOf start end_ c
                 ++ flat_map (HistoryParser.trendOf start end_)
                      (filter (fun s => negb (HistoryParser.isCityState_ s)) l))).
      rewrite Htr. constructor; assumption.
    - change (Forall2 (Spec.trendFor start end_)
                (filter (fun c => negb (HistoryParser.isCityState_ c)
                                  && Spec.hasRow (HistoryParser.civStats start)
                                       (HistoryParser.civilization c)) l)
                (HistoryParser.trendOf start end_ c
                 ++ flat_map (HistoryParser.trendOf start end_)
                      (filter (fun s => negb (HistoryParser.isCityState_ s)) l))).
      rewrite Ht. exact IH'. }
  apply Hgen. tauto.
Qed.

Lemma trends_endpoints (a b : HistoryParser.TurnData)
    (civs : list HistoryParser.CivStatistics) (trends : list HistoryParser.CivTrend) :
  Forall2 (Spec.trendFor a b) civs trends ->
  Forall (fun tr => HistoryParser.startTurn tr = HistoryParser.td_turn a
                    /\ HistoryParser.endTurn tr = HistoryParser.td_turn b
                    /\ HistoryParser.turnsAnalyzed tr
                       = HistoryParser.numSub (HistoryParser.td_turn b)
                           (HistoryParser.td_turn a)) trends.
Proof.
  induction 1 as [|c tr civs trends (_ & _ & Hs & He & Hn & _) _ IH]; constructor;
    [by repeat split | exact IH].
Qed.

(** C6. On a history with exactly the turns 1, 5, 9 and 15 the ten-turn
    window holds the turns 5, 9 and 15. There are trends unless the rows
    of turn 15 are all rows of city-states; there is one trend for each
    major civilization of turn 15 that has a row in turn 5, and each
    figure of it goes from the row of the civilization in turn 5 to its
    row in turn 15. Turn 1 plays no part. *)
Theorem C6_window_endpoints (statsFile scoresFile : option jsstring) :
  (forall n, n ∈ map HistoryParser.rs_turn (HistoryParser.parsePlayerStatsCSV statsFile)
             <-> n ∈ [Num 1; Num 5; Num 9; Num 15]) ->
  exists history t1 t5 t9 t15,
    HistoryParser.parseGameHistory statsFile scoresFile = Some history
    /\ HistoryParser.turns history = [t1; t5; t9; t15]
    /\ (HistoryParser.td_turn t1 = Num 1 /\ HistoryParser.td_turn t5 = Num 5
        /\ HistoryParser.td_turn t9 = Num 9 /\ HistoryParser.td_turn t15 = Num 15)
    /\ (Forall (fun s => HistoryParser.turn s = Num 5) (HistoryParser.civStats t5)
        /\ Forall (fun s => HistoryParser.turn s = Num 15) (HistoryParser.civStats t15))
    /\ HistoryParser.relevantTurnsOf history 10 = [t5; t9; t15]
    /\ (HistoryParser.analyzeTrends statsFile scoresFile 10 = None
        <-> Forall (fun s => HistoryParser.isCityState_ s = true)
              (HistoryParser.civStats t15))
    /\ forall trends,
         HistoryParser.analyzeTrends statsFile scoresFile 10 = Some trends ->
         Forall2 (Spec.trendFor t5 t15) (Spec.trendCivs t5 t15) trends
         /\ Forall (fun tr => HistoryParser.startTurn tr = Num 5
                              /\ HistoryParser.endTurn tr = Num 15
                              /\ HistoryParser.turnsAnalyzed tr = Num 10) trends.
Proof.
  intros Hturns.
  destruct (HistoryParser.parseGameHistory statsFile scoresFile) as [history|] eqn:Eh.
  2:{ exfalso. unfold HistoryParser.parseGameHistory in Eh.
      destruct (HistoryParser.parsePlayerStatsCSV statsFile); [|discriminate Eh].
      assert (Hin : Num 1 ∈ @nil num) by (apply Hturns; left). inversion Hin. }
  destruct (history_turns _ _ _ Eh) as [Hsorted Hsame].
  { apply Forall_forall. intros n Hn. apply Hturns in Hn.
    repeat (apply elem_of_cons in Hn as [->|Hn]; [exact I|]). inversion Hn. }
  assert (Hlist : map HistoryParser.td_turn (HistoryParser.turns history)
                  = [Num 1; Num 5; Num 9; Num 15]).
  { apply ascending_1_5_9_15; [exact Hsorted|].
    intros n. rewrite Hsame. apply Hturns. }
  destruct (history_rows _ _ _ Eh) as (_ & _ & Hfiled & _).
  destruct (HistoryParser.turns history) as [|t1 [|t5 [|t9 [|t15 [|t more]]]]] eqn:Et;
    try discriminate Hlist.
  injection Hlist as H1 H5 H9 H15.
  assert (Hrows : Forall (fun s => HistoryParser.turn s = Num 5) (HistoryParser.civStats t5)
                  /\ Forall (fun s => HistoryParser.turn s = Num 15)
                       (HistoryParser.civStats t15)).
  { inversion Hfiled as [|? ? _ Hf5]; subst. inversion Hf5 as [|? ? [_ Hr5] Hf9]; subst.
    inversion Hf9 as [|? ? _ Hf15]; subst. inversion Hf15 as [|? ? [_ Hr15] _]; subst.
    rewrite H5 in Hr5. rewrite H15 in Hr15. by split. }
  assert (Hrel : HistoryParser.relevantTurnsOf history 10 = [t5; t9; t15]).
  { unfold HistoryParser.relevantTurnsOf. rewrite Et. cbn [last].
    rewrite H15. cbn [HistoryParser.numSub HistoryParser.max1].
    rewrite !filter_cons, filter_nil, H1, H5, H9, H15. reflexivity. }
  assert (Htrends : HistoryParser.analyzeTrends statsFile scoresFile 10
                    = match HistoryParser.majorCivsOf (HistoryParser.civStats t15) with
                      | [] => None
                      | c :: cs => Some (flat_map (HistoryParser.trendOf t5 t15) (c :: cs))
                      end).
  { unfold HistoryParser.analyzeTrends. rewrite Eh.
    unfold HistoryParser.trendsOfHistory. rewrite Hrel, Et. cbn [length Nat.ltb Nat.leb last head].
    destruct (HistoryParser.majorCivsOf (HistoryParser.civStats t15)); reflexivity. }
  exists history, t1, t5, t9, t15.
  split; [reflexivity|]. split; [exact Et|]. split; [tauto|].
  split; [exact Hrows|]. split; [exact Hrel|].
  pose proof (trends_between t5 t15) as Hbetween.
  rewrite Htrends. split.
  - unfold HistoryParser.majorCivsOf. split.
    + intros Hnone. apply Forall_forall. intros s Hs.
      destruct (HistoryParser.isCityState_ s) eqn:Ec; [reflexivity|]. exfalso.
      assert (Hin : s ∈ filter (fun s => negb (HistoryParser.isCityState_ s))
                          (HistoryParser.civStats t15)).
      { apply list_elem_of_filter. split; [rewrite Ec; exact I | exact Hs]. }
      destruct (filter _ _); [inversion Hin | discriminate Hnone].
    + intros Hall.
      destruct (filter _ _) as [|c cs] eqn:Ef; [reflexivity|]. exfalso.
      assert (Hin : c ∈ filter (fun s => negb (HistoryParser.isCityState_ s))
                          (HistoryParser.civStats t15)) by (rewrite Ef; left).
      apply list_elem_of_filter in Hin as [Hc Hin].
      rewrite Forall_forall in Hall. rewrite (Hall c Hin) in Hc. destruct Hc.
  - intros trends Heq.
    assert (Hall : Forall2 (Spec.trendFor t5 t15) (Spec.trendCivs t5 t15) trends).
    { destruct (HistoryParser.majorCivsOf (HistoryParser.civStats t15)) as [|c cs];
        [discriminate Heq|]. injection Heq as <-. exact Hbetween. }
    split; [exact Hall|].
    pose proof (trends_endpoints _ _ _ _ Hall) as Hends.
    rewrite H5, H15 in Hends. exact Hends.
Qed.


End HistoryFacts.

Section HistoryExamples.


(** On [Examples.trendStats] Rome and Egypt have a trend, Greece, which
    has no row in turn 5, and the city-state Kabul have none; the science
    of Rome goes from the 4 of turn 5, not from the 2 of turn 1, to 9. *)
Lemma C6_witness :
  exists trends,
    @HistoryParser.analyzeTrends Reference.runtime (Some Examples.trendStats) None 10
    = Some trends
    /\ map (fun tr => (HistoryParser.t_civilization tr,
                       HistoryParser.c_start (HistoryParser.science tr),
                       HistoryParser.c_end (HistoryParser.science tr),
                       HistoryParser.change (HistoryParser.science tr),
                       HistoryParser.percentChange (HistoryParser.science tr))) trends
       = [ (js "Rome", Num 4, Num 9, Num 5, Num 125);
           (js "Egypt", Num 3, Num 6, Num 3, Num 100) ]
    /\ Forall (fun tr => HistoryParser.startTurn tr = Num 5
                         /\ HistoryParser.endTurn tr = Num 15
                         /\ HistoryParser.turnsAnalyzed tr = Num 10) trends.
Proof.
  eexists. split; [vm_compute; reflexivity|]. split; [reflexivity|].
  destruct (@C6_window_endpoints Reference.runtime (Some Examples.trendStats) None)
    as (history & t1 & t5 & t9 & t15 & _ & _ & _ & _ & _ & _ & Hall).
  - assert (Hraw : dedup (map HistoryParser.rs_turn
                            (HistoryParser.parsePlayerStatsCSV (Some Examples.trendStats)))
                   = [Num 1; Num 5; Num 9; Num 15]) by (vm_compute; reflexivity).
    intros n. rewrite <- Hraw. symmetry. apply dedup_elem_of.
  - apply Hall. vm_compute. reflexivity.
Defined.

End HistoryExamples.

(** * Further properties *)

(** ** The tag-value scanner: booleans, unknown tags and the end of the
    buffer *)

Section MarkerEdges.
Context `{R : Runtime}.

Lemma byteVal_range (b : byte) : (0 <= Parser.byteVal b < 256)%Z.
Proof.
  unfold Parser.byteVal. pose proof (Byte.to_N_bounded b) as Hb. lia.
Qed.

Lemma byteVal_zero (b : byte) : Parser.byteVal b = 0%Z <-> b = x00.
Proof.
  split; [|intros ->; reflexivity].
  unfold Parser.byteVal. intros Hz.
  assert (Hn : Byte.to_N b = 0%N) by lia.
  pose proof (Byte.of_to_N b) as Hb. rewrite Hn in Hb.
  injection Hb as <-. reflexivity.
Qed.

Lemma le32_zero (b0 b1 b2 b3 : byte) :
  Spec.le32 b0 b1 b2 b3 = 0%Z <-> [b0; b1; b2; b3] = [x00; x00; x00; x00].
Proof.
  unfold Spec.le32.
  pose proof (byteVal_range b0) as R0. pose proof (byteVal_range b1) as R1.
  pose proof (byteVal_range b2) as R2. pose proof (byteVal_range b3) as R3.
  split.
  - intros Hz.
    assert (Z0 : Parser.byteVal b0 = 0%Z) by lia.
    assert (Z1 : Parser.byteVal b1 = 0%Z) by lia.
    assert (Z2 : Parser.byteVal b2 = 0%Z) by lia.
    assert (Z3 : Parser.byteVal b3 = 0%Z) by lia.
    apply byteVal_zero in Z0, Z1, Z2, Z3. congruence.
  - intros [= -> -> -> ->]. reflexivity.
Qed.

Lemma readUInt32LE_at (buf : list byte) (off : nat) (b0 b1 b2 b3 : byte) :
  Spec.bytesAt buf off [b0; b1; b2; b3] ->
  Parser.readUInt32LE buf off = Ok (Spec.le32 b0 b1 b2 b3).
Proof. intros [rest Hr]. unfold Parser.readUInt32LE. rewrite Hr. reflexivity. Qed.

Lemma readUInt16LE_at (buf : list byte) (off : nat) (b0 b1 : byte) :
  Spec.bytesAt buf off [b0; b1] ->
  Parser.readUInt16LE buf off = Ok (Spec.le16 b0 b1).
Proof. intros [rest Hr]. unfold Parser.readUInt16LE. rewrite Hr. reflexivity. Qed.

Lemma readUInt32LE_out_of_range (buf : list byte) (off : nat) :
  length buf < off + 4 -> Parser.readUInt32LE buf off = Throw RangeError.
Proof.
  intros Hlen. unfold Parser.readUInt32LE.
  pose proof (length_skipn off buf) as Hs.
  destruct (skipn off buf) as [|b0 [|b1 [|b2 [|b3 rest]]]]; simpl in Hs;
    first [reflexivity | lia].
Qed.

Lemma readUInt16LE_out_of_range (buf : list byte) (off : nat) :
  length buf < off + 2 -> Parser.readUInt16LE buf off = Throw RangeError.
Proof.
  intros Hlen. unfold Parser.readUInt16LE.
  pose proof (length_skipn off buf) as Hs.
  destruct (skipn off buf) as [|b0 [|b1 rest]]; simpl in Hs;
    first [reflexivity | lia].
Qed.

(** X1. A type tag 1 makes the value a boolean, false exactly when the four
    bytes at [p + 16] are all zero; a type tag other than 1, 2 and 5 makes
    the result null, whatever follows the tag. *)
Theorem X1_marker_boolean (buffer marker : list byte) (p : nat) :
  indexOf buffer marker 0 = Some p ->
  (forall b0 b1 b2 b3,
      Spec.bytesAt buffer (p + 4) [x01; x00; x00; x00] ->
      Spec.bytesAt buffer (p + 16) [b0; b1; b2; b3] ->
      Parser.readMarkerValue buffer marker
      = Ok (Some (Parser.MarkerValue 1
                    (Parser.DBool
                       (negb (bool_decide ([b0; b1; b2; b3] = [x00; x00; x00; x00])))))))
  /\ (forall t0 t1 t2 t3,
         Spec.bytesAt buffer (p + 4) [t0; t1; t2; t3] ->
         Spec.le32 t0 t1 t2 t3 <> 1%Z ->
         Spec.le32 t0 t1 t2 t3 <> 2%Z ->
         Spec.le32 t0 t1 t2 t3 <> 5%Z ->
         Parser.readMarkerValue buffer marker = Ok None).
Proof.
  intros Hp. unfold Parser.readMarkerValue. rewrite Hp. split.
  - intros b0 b1 b2 b3 Htag Hval.
    rewrite (readUInt32LE_at _ _ _ _ _ _ Htag). cbn [bind].
    change (Spec.le32 x01 x00 x00 x00) with 1%Z. cbv iota.
    rewrite (readUInt32LE_at _ _ _ _ _ _ Hval). cbn [bind].
    do 4 f_equal.
    destruct (Z.eqb_spec (Spec.le32 b0 b1 b2 b3) 0) as [Hz|Hnz].
    + apply le32_zero in Hz. rewrite bool_decide_eq_true_2 by exact Hz. reflexivity.
    + rewrite bool_decide_eq_false_2; [reflexivity|].
      intros Heq. apply Hnz, le32_zero, Heq.
  - intros t0 t1 t2 t3 Htag H1 H2 H5.
    rewrite (readUInt32LE_at _ _ _ _ _ _ Htag). cbn [bind].
    destruct (Spec.le32 t0 t1 t2 t3) as [|[q|q|]|]; try reflexivity.
    + destruct q as [q|[q|q|]|]; try reflexivity. congruence.
    + destruct q as [q|q|]; try reflexivity. congruence.
    + congruence.
Qed.

(** X2. A fixed-width read behind the end of the buffer throws a
    RangeError: the type tag when fewer than 8 bytes are left from the
    marker on, the value of a boolean or an integer when fewer than 20 are
    left, the length of a string when fewer than 10 are left. The bytes of
    a string are not checked: a string whose declared length runs past
    the end of the buffer is decoded from the bytes that are there. *)
Theorem X2_marker_bounds (buffer marker : list byte) (p : nat) :
  indexOf buffer marker 0 = Some p ->
  (length buffer < p + 8 ->
   Parser.readMarkerValue buffer marker = Throw RangeError)
  /\ (Spec.bytesAt buffer (p + 4) [x01; x00; x00; x00]
      \/ Spec.bytesAt buffer (p + 4) [x02; x00; x00; x00] ->
      length buffer < p + 20 ->
      Parser.readMarkerValue buffer marker = Throw RangeError)
  /\ (Spec.bytesAt buffer (p + 4) [x05; x00; x00; x00] ->
      length buffer < p + 10 ->
      Parser.readMarkerValue buffer marker = Throw RangeError)
  /\ (forall l0 l1,
         Spec.bytesAt buffer (p + 4) [x05; x00; x00; x00] ->
         Spec.bytesAt buffer (p + 8) [l0; l1] ->
         Parser.readMarkerValue buffer marker
         = Ok (Some (Parser.MarkerValue 5
                       (Parser.DStr
                          (utf8Decode
                             (firstn (Z.to_nat (Spec.le16 l0 l1) - 1)
                                (skipn (p + 16) buffer))))))).
Proof.
  intros Hp. unfold Parser.readMarkerValue. rewrite Hp. repeat split.
  - intros Hlen. rewrite readUInt32LE_out_of_range by lia. reflexivity.
  - intros [Htag|Htag] Hlen;
      rewrite (readUInt32LE_at _ _ _ _ _ _ Htag); cbn [bind];
      [change (Spec.le32 x01 x00 x00 x00) with 1%Z
      |change (Spec.le32 x02 x00 x00 x00) with 2%Z]; cbv iota;
      rewrite readUInt32LE_out_of_range by lia; reflexivity.
  - intros Htag Hlen. rewrite (readUInt32LE_at _ _ _ _ _ _ Htag). cbn [bind].
    change (Spec.le32 x05 x00 x00 x00) with 5%Z. cbv iota.
    rewrite readUInt16LE_out_of_range by lia. reflexivity.
  - intros l0 l1 Htag Hlen. rewrite (readUInt32LE_at _ _ _ _ _ _ Htag). cbn [bind].
    change (Spec.le32 x05 x00 x00 x00) with 5%Z. cbv iota.
    rewrite (readUInt16LE_at _ _ _ _ Hlen). cbn [bind].
    unfold substring. do 6 f_equal. lia.
Qed.

End MarkerEdges.

(** ** The compressed segment: what is not there, and the header area *)

Section SegmentEdges.
Context `{R : Runtime}.

Lemma indexOf_None (s pat : list byte) (start : nat) :
  (forall k, start <= k -> ~ Spec.bytesAt s k pat) -> indexOf s pat start = None.
Proof.
  intros Hno. destruct (indexOf s pat start) as [j|] eqn:Ej; [|reflexivity].
  apply indexOf_Some in Ej as (Hle & Hsw & _). apply startsWith_app in Hsw.
  destruct (Hno j Hle Hsw).
Qed.

Lemma bytesAt_length (s : list byte) (k : nat) (b : byte) (bs : list byte) :
  Spec.bytesAt s k (b :: bs) -> k + length (b :: bs) <= length s.
Proof.
  intros [rest Hr]. apply (f_equal (@length byte)) in Hr.
  rewrite length_skipn, length_app in Hr. simpl in *. lia.
Qed.

Lemma skipn_behind (h rest : list byte) (k : nat) :
  length h <= k -> skipn k (h ++ rest) = skipn (k - length h) rest.
Proof. intros Hk. rewrite skipn_app, skipn_all2 by exact Hk. reflexivity. Qed.

Lemma indexOf_behind (h rest pat : list byte) (start : nat) :
  length h <= start ->
  indexOf (h ++ rest) pat start
  = indexOf_aux pat (skipn (start - length h) rest) start.
Proof. intros Hk. unfold indexOf. rewrite skipn_behind by exact Hk. reflexivity. Qed.

(** X3. Without the bytes 78 9C at or behind offset 200000 there is no
    decompressed data; in particular a save of fewer than 200002 bytes has
    none. With the header but without the bytes 00 00 FF FF behind it
    there is none either. *)
Theorem X3_no_segment (buffer : list byte) :
  ((forall k, Parser.headerArea <= k -> ~ Spec.bytesAt buffer k Parser.ZLIB_HEADER) ->
   Parser.decompressGameData buffer = None)
  /\ (length buffer < Parser.headerArea + 2 ->
      Parser.decompressGameData buffer = None)
  /\ (forall zlibStart,
         indexOf buffer Parser.ZLIB_HEADER Parser.headerArea = Some zlibStart ->
         (forall k, zlibStart <= k -> ~ Spec.bytesAt buffer k Parser.COMPRESSED_DATA_END) ->
         Parser.decompressGameData buffer = None).
Proof.
  assert (Hfirst : (forall k, Parser.headerArea <= k ->
                          ~ Spec.bytesAt buffer k Parser.ZLIB_HEADER) ->
                   Parser.decompressGameData buffer = None).
  { intros Hno. unfold Parser.decompressGameData, Parser.assembleCompressed.
    rewrite indexOf_None by exact Hno. reflexivity. }
  split; [exact Hfirst|]. split.
  - intros Hlen. apply Hfirst. intros k Hk Hat.
    apply bytesAt_length in Hat. simpl in Hat. lia.
  - intros zlibStart Hz Hno.
    unfold Parser.decompressGameData, Parser.assembleCompressed.
    rewrite Hz, indexOf_None by exact Hno. reflexivity.
Qed.

(** X4. The bytes before offset 200000 play no part in the decompression:
    two buffers that differ only there give the same result. *)
Theorem X4_header_area_ignored (h1 h2 rest : list byte) :
  length h1 = length h2 ->
  length h1 <= Parser.headerArea ->
  Parser.decompressGameData (h1 ++ rest) = Parser.decompressGameData (h2 ++ rest).
Proof.
  intros Hlen Hle.
  unfold Parser.decompressGameData, Parser.assembleCompressed.
  rewrite !indexOf_behind by lia. rewrite <- Hlen.
  destruct (indexOf_aux Parser.ZLIB_HEADER _ Parser.headerArea) as [zlibStart|] eqn:Ez;
    [|reflexivity].
  apply indexOf_aux_Some in Ez as (Hz & _).
  rewrite !indexOf_behind by lia. rewrite <- Hlen.
  destruct (indexOf_aux Parser.COMPRESSED_DATA_END _ zlibStart) as [endPos|];
    [|reflexivity].
  destruct (endPos <=? zlibStart); [reflexivity|].
  unfold substring. rewrite !skipn_behind by lia. rewrite <- Hlen. reflexivity.
Qed.

End SegmentEdges.

Section EdgeExamples.

Lemma X1_witness :
  @Parser.readMarkerValue Reference.runtime Examples.flagBuffer Parser.MAP_FILE
  = Ok (Some (Parser.MarkerValue 1 (Parser.DBool true)))
  /\ @Parser.readMarkerValue Reference.runtime Examples.unknownTagBuffer Parser.MAP_FILE
     = Ok None.
Proof.
  split.
  - refine (proj1 (@X1_marker_boolean Reference.runtime Examples.flagBuffer
                     Parser.MAP_FILE 2 _) x00 x00 x01 x00 _ _).
    + reflexivity.
    + eexists. reflexivity.
    + eexists. reflexivity.
  - refine (proj2 (@X1_marker_boolean Reference.runtime Examples.unknownTagBuffer
                     Parser.MAP_FILE 0 _) x07 x00 x00 x00 _ _ _ _).
    + reflexivity.
    + eexists. reflexivity.
    + discriminate.
    + discriminate.
    + discriminate.
Defined.

Lemma X2_witness :
  @Parser.readMarkerValue Reference.runtime Examples.cutTagBuffer Parser.MAP_FILE
  = Throw RangeError
  /\ @Parser.readMarkerValue Reference.runtime Examples.cutString Parser.GAME_SPEED
     = Ok (Some (Parser.MarkerValue 5 (Parser.DStr (js "FAST")))).
Proof.
  split.
  - refine (proj1 (@X2_marker_bounds Reference.runtime Examples.cutTagBuffer
                     Parser.MAP_FILE 0 _) _).
    + reflexivity.
    + simpl. lia.
  - refine (proj2 (proj2 (proj2 (@X2_marker_bounds Reference.runtime Examples.cutString
                     Parser.GAME_SPEED 0 _))) x09 x00 _ _).
    + reflexivity.
    + eexists. reflexivity.
    + eexists. reflexivity.
Defined.

Lemma X3_witness :
  @Parser.decompressGameData Reference.runtime Examples.notASave = None.
Proof.
  refine (proj1 (proj2 (@X3_no_segment Reference.runtime Examples.notASave)) _).
  apply Nat.ltb_lt. vm_compute. reflexivity.
Defined.

Lemma X4_witness :
  @Parser.decompressGameData Reference.runtime
    (Examples.segmentBehind (Reference.bytesOf "CIV6"))
  = @Parser.decompressGameData Reference.runtime
      (Examples.segmentBehind (Reference.bytesOf "PK34")).
Proof.
  refine (@X4_header_area_ignored Reference.runtime
            (Reference.bytesOf "CIV6") (Reference.bytesOf "PK34") _ _ _).
  - reflexivity.
  - apply Nat.leb_le. vm_compute. reflexivity.
Defined.

End EdgeExamples.


(** ** The roster, the player and the mods *)

Section RosterFacts.
Context `{R : Runtime}.

Lemma startsWith_firstn (s pat : jsstring) (n : nat) :
  startsWith (firstn n s) pat = true -> startsWith s pat = true.
Proof.
  rewrite !startsWith_app. intros [rest Hr].
  exists (rest ++ skipn n s). rewrite app_assoc, <- Hr. symmetry. apply firstn_skipn.
Qed.

Lemma closestCiv_not_level (captures : list jsstring) (civ : jsstring) :
  Parser.closestCiv captures = Some civ -> startsWith civ (js "LEVEL") = false.
Proof.
  induction captures as [|c rest IH]; cbn [Parser.closestCiv]; [discriminate|].
  destruct (startsWith c (js "LEVEL")) eqn:E; [exact IH|].
  intros [= <-]. unfold Parser.stripNameSuffix.
  destruct (endsWith c (js "_NAME")); [|exact E].
  destruct (startsWith (firstn (length c - 5) c) (js "LEVEL")) eqn:E'; [|reflexivity].
  apply startsWith_firstn in E'. congruence.
Qed.

Lemma fullCivStep_invariant (headerText : jsstring) (positions : list nat) :
  forall (seen : list jsstring) (all : list Parser.CivInfo) (raws : list (jsstring * bool))
         (seen' : list jsstring) (all' : list Parser.CivInfo),
    fold_left (Parser.fullCivStep headerText) positions (seen, all) = (seen', all') ->
    map fst raws = rev seen -> NoDup seen -> all = map Spec.rosterEntry raws ->
    Forall (fun e => startsWith (fst e) (js "LEVEL") = false) raws ->
    exists raws',
      map fst raws' = rev seen' /\ NoDup seen' /\ all' = map Spec.rosterEntry raws'
      /\ Forall (fun e => startsWith (fst e) (js "LEVEL") = false) raws'
      /\ length raws' <= length raws + length positions.
Proof.
  induction positions as [|pos rest IH];
    intros seen all raws seen' all' Hfold Hk Hnd Hall Hlevel.
  - injection Hfold as <- <-. exists raws. simpl. repeat split; try assumption. lia.
  - cbn [fold_left] in Hfold.
    assert (Hstep : exists seen1 all1 raws1,
               Parser.fullCivStep headerText (seen, all) pos = (seen1, all1)
               /\ map fst raws1 = rev seen1 /\ NoDup seen1
               /\ all1 = map Spec.rosterEntry raws1
               /\ Forall (fun e => startsWith (fst e) (js "LEVEL") = false) raws1
               /\ length raws1 <= length raws + 1).
    { unfold Parser.fullCivStep.
      destruct (Parser.closestCiv (Parser.capturesBefore headerText pos)) as [civ|] eqn:Ec.
      - destruct (decide (civ ∈ seen)) as [Hin|Hnew].
        + rewrite bool_decide_eq_true_2 by exact Hin.
          exists seen, all, raws. repeat split; try assumption. lia.
        + rewrite bool_decide_eq_false_2 by exact Hnew.
          set (h := includes (substring headerText pos (pos + 100)) (js "Player")).
          exists (civ :: seen), (all ++ [Spec.rosterEntry (civ, h)]), (raws ++ [(civ, h)]).
          split; [reflexivity|]. split; [rewrite map_app, Hk; reflexivity|].
          split; [constructor; assumption|].
          split; [rewrite map_app, Hall; reflexivity|]. split.
          * apply Forall_app. split; [exact Hlevel|]. constructor; [|constructor].
            simpl. eapply closestCiv_not_level, Ec.
          * rewrite length_app. simpl. lia.
      - exists seen, all, raws. repeat split; try assumption. lia. }
    destruct Hstep as (seen1 & all1 & raws1 & Es & Hk1 & Hnd1 & Hall1 & Hlevel1 & Hlen1).
    rewrite Es in Hfold.
    destruct (IH _ _ _ _ _ Hfold Hk1 Hnd1 Hall1 Hlevel1) as (raws' & H1 & H2 & H3 & H4 & H5).
    exists raws'. repeat split; try assumption. simpl. lia.
Qed.

Lemma roster_head_tail (allCivs : list Parser.CivInfo) :
  match head allCivs with
  | Some headerPlayer => headerPlayer :: skipn 1 allCivs
  | None => skipn 1 allCivs
  end = allCivs.
Proof. destruct allCivs; reflexivity. Qed.

(** X12. The roster of the header holds a civilization at most once: its
    entries are made of pairwise different raw names, none of which starts
    with LEVEL; each entry is a full civ whose leader is the one looked up
    for the raw name that its civilization field displays. The roster has
    at most one entry for each CIVILIZATION_LEVEL_FULL_CIV marker, and the
    city-states of the header are at most 15. *)
Theorem X12_header_roster (headerText : jsstring) :
  let header := Parser.extractCivsFromHeader headerText in
  let roster :=
    match Parser.player header with
    | Some headerPlayer => headerPlayer :: Parser.aiCivs header
    | None => Parser.aiCivs header
    end in
  (exists raws : list (jsstring * bool),
      roster = map Spec.rosterEntry raws
      /\ NoDup (map fst raws)
      /\ Forall (fun e => startsWith (fst e) (js "LEVEL") = false) raws
      /\ length raws
         <= length (occurrences headerText (js "CIVILIZATION_LEVEL_FULL_CIV")))
  /\ length (Parser.hc_cityStates header) <= 15.
Proof.
  intros header roster. split.
  - unfold roster, header, Parser.extractCivsFromHeader.
    cbn [Parser.player Parser.aiCivs]. rewrite roster_head_tail.
    destruct (fold_left (Parser.fullCivStep headerText)
                (occurrences headerText (js "CIVILIZATION_LEVEL_FULL_CIV")) ([], []))
      as [seen' all'] eqn:Ef.
    destruct (fullCivStep_invariant _ _ [] [] [] _ _ Ef)
      as (raws & Hk & Hnd & Hall & Hlevel & Hlen);
      [reflexivity | constructor | reflexivity | constructor |].
    exists raws. cbn [snd]. split; [exact Hall|]. split.
    + rewrite Hk. apply NoDup_ListNoDup, List.NoDup_rev, NoDup_ListNoDup, Hnd.
    + split; [exact Hlevel | exact Hlen].
  - unfold header, Parser.extractCivsFromHeader. cbn [Parser.hc_cityStates].
    apply firstn_le_length.
Qed.

End RosterFacts.

Section PlayerMore.
Context `{R : Runtime}.

Lemma civOf_setHuman (b : bool) (c : Parser.CivInfo) :
  Spec.civOf (Parser.setHuman b c) = Spec.civOf c.
Proof. reflexivity. Qed.

Lemma civOf_marked (b : bool) (l : list Parser.CivInfo) :
  map Spec.civOf (map (Parser.setHuman b) l) = map Spec.civOf l.
Proof. rewrite map_map. apply map_ext. intros c. apply civOf_setHuman. Qed.

Lemma identifyPlayer_civs (allCivs : list Parser.CivInfo)
    (info : option Parser.DecompressedInfo) :
  let players := Parser.identifyPlayer allCivs info in
  map Spec.civOf
    (match fst players with
     | Some c => c :: snd players
     | None => snd players
     end) ≡ₚ map Spec.civOf allCivs
  /\ map Spec.civOf (snd players) `sublist_of` map Spec.civOf allCivs.
Proof.
  unfold Parser.identifyPlayer.
  destruct (Parser.matchedIndex allCivs info) as [i|] eqn:Ei.
  - destruct (matchedIndex_in_roster _ _ _ Ei) as [c Hc]. rewrite Hc.
    cbn [fst snd]. rewrite map_cons, civOf_setHuman, civOf_marked.
    pose proof (take_drop_middle allCivs i c Hc) as Hmid.
    set (before := firstn i allCivs) in *. set (behind := skipn (S i) allCivs) in *.
    rewrite <- Hmid, !map_app, map_cons. split.
    + apply Permutation_middle.
    + apply sublist_app; [reflexivity|]. apply sublist_cons. reflexivity.
  - destruct allCivs as [|c rest]; cbn [fst snd].
    + split; reflexivity.
    + rewrite !map_cons, civOf_marked. split; [reflexivity|].
      apply sublist_cons. reflexivity.
Qed.

(** X5. Identifying the player loses no civ and invents none: after a
    successful parse the player civ and the other civs are the roster of
    the header up to the human flag and up to order, and the other civs
    stand in the order of the roster. *)
Theorem X5_roster_preserved (filename : jsstring) (buffer : list byte)
    (p : Parser.SaveParse) :
  Parser.parseSave filename buffer = Ok p ->
  map Spec.civOf (Spec.civsOf p) ≡ₚ map Spec.civOf (Parser.rosterOf buffer)
  /\ map Spec.civOf (Parser.otherCivs (Parser.state p))
     `sublist_of` map Spec.civOf (Parser.rosterOf buffer).
Proof.
  intros Hp. unfold Spec.civsOf.
  destruct (parseSave_players _ _ _ Hp) as [-> ->].
  apply identifyPlayer_civs.
Qed.

Lemma modStep_ids (mods : list Parser.ModInfo) (m : jsstring * jsstring) :
  NoDup (map Parser.id mods) -> NoDup (map Parser.id (Parser.modStep mods m)).
Proof.
  intros Hnd. unfold Parser.modStep.
  destruct (existsb _ mods) eqn:E; [exact Hnd|].
  rewrite map_app. apply NoDup_app. split; [exact Hnd|]. split.
  - intros x Hx Hin. apply list_elem_of_singleton in Hin. subst x.
    apply list_elem_of_fmap in Hx as (known & Hid & Hknown).
    assert (Hex : existsb (fun x => bool_decide (Parser.id x = fst m)) mods = true).
    { apply existsb_exists. exists known. split; [apply list_elem_of_In, Hknown|].
      apply bool_decide_eq_true. symmetry. exact Hid. }
    congruence.
  - apply NoDup_singleton.
Qed.

Lemma modSteps_ids (matches : list (jsstring * jsstring)) :
  forall mods, NoDup (map Parser.id mods) ->
               NoDup (map Parser.id (fold_left Parser.modStep matches mods)).
Proof.
  induction matches as [|m rest IH]; intros mods Hnd; simpl; [exact Hnd|].
  apply IH, modStep_ids, Hnd.
Qed.

Lemma parseSave_mods (filename : jsstring) (buffer : list byte) (p : Parser.SaveParse) :
  Parser.parseSave filename buffer = Ok p ->
  Parser.mods (Parser.state p)
  = fold_left Parser.modStep (Parser.modMatches (Parser.headerSectionOf buffer) 0) [].
Proof.
  unfold Parser.parseSave.
  destruct (negb _); [discriminate|].
  destruct (Parser.readMarkerValue buffer Parser.GAME_TURN); [|discriminate].
  destruct (Parser.readMarkerValue buffer Parser.GAME_SPEED); [|discriminate].
  destruct (Parser.readMarkerValue buffer Parser.MAP_SIZE); [|discriminate].
  cbn [bind]. intros [= <-]. reflexivity.
Qed.

(** X6. No two mods of a parsed save have the same id. *)
Theorem X6_mod_ids_distinct (filename : jsstring) (buffer : list byte)
    (state : Parser.GameState) :
  Parser.parseSaveFile filename buffer = Ok state ->
  NoDup (map Parser.id (Parser.mods state)).
Proof.
  unfold Parser.parseSaveFile.
  destruct (Parser.parseSave filename buffer) as [p|e] eqn:Ep; [|discriminate].
  cbn [bind]. intros [= <-]. rewrite (parseSave_mods _ _ _ Ep).
  apply modSteps_ids. constructor.
Qed.

End PlayerMore.

(** ** The cities of the player *)

Section CityFacts.
Context `{R : Runtime}.

Lemma cityToCiv_nonempty (city civ : jsstring) :
  Parser.lookupTable Parser.cityToCiv city = Some civ -> civ <> [].
Proof.
  unfold Parser.cityToCiv. cbn [Parser.lookupTable].
  repeat (case_bool_decide; [intros [= <-]; discriminate|]).
  discriminate.
Qed.

Lemma identify_known (city civ : jsstring) (rest : list jsstring) :
  Parser.lookupTable Parser.cityToCiv city = Some civ ->
  Parser.identifyCivFromCities (city :: rest) = Some civ.
Proof.
  intros Hc. cbn [Parser.identifyCivFromCities]. rewrite Hc.
  rewrite bool_decide_eq_false_2 by (eapply cityToCiv_nonempty, Hc). reflexivity.
Qed.

Lemma identify_unknown (unknown rest : list jsstring) :
  Forall Spec.unknownCity unknown ->
  Parser.identifyCivFromCities (unknown ++ rest) = Parser.identifyCivFromCities rest.
Proof.
  induction 1 as [|u us [Hu _] _ IH]; [reflexivity|].
  cbn [app Parser.identifyCivFromCities]. rewrite Hu. exact IH.
Qed.

(** X11. The civ of the first listed city that the table knows is the
    answer, whatever stands behind it; cities that the table does not know
    are passed over, and a list of such cities alone yields null. A city
    that the table does not know is one that is no key of the table and no
    name of a member of [Object.prototype]. *)
Theorem X11_first_known_city (unknown : list jsstring) :
  Forall Spec.unknownCity unknown ->
  Parser.identifyCivFromCities unknown = None
  /\ forall city civ rest,
       Parser.lookupTable Parser.cityToCiv city = Some civ ->
       Parser.identifyCivFromCities (unknown ++ city :: rest) = Some civ.
Proof.
  intros Hu. split.
  - rewrite <- (app_nil_r unknown). rewrite identify_unknown by exact Hu. reflexivity.
  - intros city civ rest Hc. rewrite identify_unknown by exact Hu.
    apply identify_known, Hc.
Qed.

Lemma identify_vietnam (cities : list jsstring) :
  Forall (fun c => c ∈ Spec.vietnamCityNames) cities ->
  Parser.identifyCivFromCities cities
  = match cities with
    | [] => None
    | _ :: _ => Some (js "VIETNAM")
    end.
Proof.
  intros Hc. destruct cities as [|c rest]; [reflexivity|].
  inversion Hc as [|? ? Hin _]; subst. apply identify_known.
  unfold Spec.vietnamCityNames in Hin. cbn [map] in Hin.
  repeat (apply elem_of_cons in Hin as [->|Hin]; [vm_compute; reflexivity|]).
  inversion Hin.
Qed.

(** X7. Where the ten names of the allow-list are displayed as Thang Long,
    Hue, Hanoi, ... (the capitalisation of 7-bit letters), the city table
    can name one civilization only: whatever the decompressed data, the
    civ identified from the player cities is VIETNAM when a city of the
    allow-list occurs in the data, and null when none does. So a civ of
    the roster that is matched through the cities has the name of Vietnam
    up to case. *)
Theorem X7_cities_name_vietnam (data : list byte) :
  map Parser.formatEnumValue Parser.vietnamCities = Spec.vietnamCityNames ->
  Parser.identifyCivFromCities (Parser.playerCities (Parser.analyzeDecompressedData data))
  = match Parser.playerCities (Parser.analyzeDecompressedData data) with
    | [] => None
    | _ :: _ => Some (js "VIETNAM")
    end
  /\ forall allCivs i,
       Parser.matchedIndex allCivs (Some (Parser.analyzeDecompressedData data)) = Some i ->
       exists c, allCivs !! i = Some c
         /\ toUpperCase (Parser.civilization c) = toUpperCase (js "VIETNAM").
Proof.
  intros Hnames.
  assert (Hid : Parser.identifyCivFromCities
                  (Parser.playerCities (Parser.analyzeDecompressedData data))
                = match Parser.playerCities (Parser.analyzeDecompressedData data) with
                  | [] => None
                  | _ :: _ => Some (js "VIETNAM")
                  end).
  { apply identify_vietnam.
    unfold Parser.analyzeDecompressedData, Parser.analyzeText.
    cbn [Parser.playerCities]. unfold Parser.playerCitiesOf.
    apply Forall_forall. intros c Hc.
    apply list_elem_of_fmap in Hc as (raw & -> & Hraw).
    apply list_elem_of_filter in Hraw as [_ Hraw].
    rewrite <- Hnames. apply list_elem_of_fmap.
    exists raw. split; [reflexivity | exact Hraw]. }
  split; [exact Hid|].
  intros allCivs i. unfold Parser.matchedIndex. rewrite Hid.
  destruct (Parser.playerCities (Parser.analyzeDecompressedData data)); [discriminate|].
  intros Hi. apply findIndex_Some in Hi as (c & Hc & Hup).
  exists c. split; [exact Hc|]. apply bool_decide_eq_true in Hup. exact Hup.
Qed.

End CityFacts.

(** ** What [parseSaveFile] throws *)

Section ThrowFacts.
Context `{R : Runtime}.

Lemma readUInt32LE_throws (buf : list byte) (off : nat) (e : exn) :
  Parser.readUInt32LE buf off = Throw e -> e = RangeError.
Proof.
  unfold Parser.readUInt32LE.
  destruct (skipn off buf) as [|b0 [|b1 [|b2 [|b3 rest]]]]; congruence.
Qed.

Lemma readUInt16LE_throws (buf : list byte) (off : nat) (e : exn) :
  Parser.readUInt16LE buf off = Throw e -> e = RangeError.
Proof.
  unfold Parser.readUInt16LE.
  destruct (skipn off buf) as [|b0 [|b1 rest]]; congruence.
Qed.

Lemma readMarkerValue_throws (buffer marker : list byte) (e : exn) :
  Parser.readMarkerValue buffer marker = Throw e -> e = RangeError.
Proof.
  unfold Parser.readMarkerValue.
  destruct (indexOf buffer marker 0) as [pos|]; [|discriminate].
  destruct (Parser.readUInt32LE buffer (pos + 4)) as [ty|e'] eqn:Ety; cbn [bind];
    [|intros [= <-]; eapply readUInt32LE_throws, Ety].
  destruct (Parser.readUInt32LE buffer (pos + 16)) as [v|e'] eqn:Ev;
    destruct (Parser.readUInt16LE buffer (pos + 8)) as [n|e''] eqn:En;
    try apply readUInt32LE_throws in Ev; try apply readUInt16LE_throws in En;
    subst;
    destruct ty as [|[q|q|]|]; cbn [bind]; try discriminate;
    try (intros [= <-]; reflexivity);
    try (destruct q as [q|[q|q|]|]; cbn [bind]; try discriminate;
         intros [= <-]; reflexivity);
    try (destruct q as [q|q|]; cbn [bind]; try discriminate;
         intros [= <-]; reflexivity).
Qed.

(** X8. [parseSaveFile] throws two exceptions only: the error that quotes
    the magic, when the magic is not CIV6, and otherwise a RangeError of
    the tag-value scanner, which takes one of the three markers too close
    to the end of the buffer. Nothing else of the parse throws. *)
Theorem X8_exceptions (filename : jsstring) (buffer : list byte) (e : exn) :
  Parser.parseSaveFile filename buffer = Throw e ->
  (Parser.magicOf buffer <> js "CIV6"
   /\ e = Parser.invalidMagic (Parser.magicOf buffer))
  \/ (Parser.magicOf buffer = js "CIV6"
      /\ e = RangeError
      /\ ~ (Spec.markerInRange buffer Parser.GAME_TURN
            /\ Spec.markerInRange buffer Parser.GAME_SPEED
            /\ Spec.markerInRange buffer Parser.MAP_SIZE)).
Proof.
  unfold Parser.parseSaveFile, Parser.parseSave.
  destruct (decide (Parser.magicOf buffer = js "CIV6")) as [Hmagic|Hmagic].
  - rewrite bool_decide_eq_true_2 by exact Hmagic. cbn [negb].
    intros He. right. split; [exact Hmagic|].
    destruct (Parser.readMarkerValue buffer Parser.GAME_TURN) as [t|e1] eqn:Et.
    + destruct (Parser.readMarkerValue buffer Parser.GAME_SPEED) as [s|e2] eqn:Es.
      * destruct (Parser.readMarkerValue buffer Parser.MAP_SIZE) as [m|e3] eqn:Em;
          [discriminate He|].
        cbn [bind] in He. injection He as <-. split.
        -- eapply readMarkerValue_throws, Em.
        -- intros (_ & _ & Hin). destruct (readMarkerValue_in_range _ _ Hin). congruence.
      * cbn [bind] in He. injection He as <-. split.
        -- eapply readMarkerValue_throws, Es.
        -- intros (_ & Hin & _). destruct (readMarkerValue_in_range _ _ Hin). congruence.
    + cbn [bind] in He. injection He as <-. split.
      * eapply readMarkerValue_throws, Et.
      * intros (Hin & _ & _). destruct (readMarkerValue_in_range _ _ Hin). congruence.
  - rewrite bool_decide_eq_false_2 by exact Hmagic. cbn [negb bind].
    intros [= <-]. left. split; [exact Hmagic | reflexivity].
Qed.

End ThrowFacts.

(** ** Wonders *)

Section WonderFacts.
Context `{R : Runtime}.

Lemma NoDup_firstn {A} (n : nat) (l : list A) : NoDup l -> NoDup (firstn n l).
Proof.
  intros Hnd. rewrite <- (firstn_skipn n l) in Hnd.
  apply NoDup_app in Hnd as [Hnd _]. exact Hnd.
Qed.

(** X9. The list of wonders names no wonder twice. *)
Theorem X9_wonders_distinct (data : list byte) :
  NoDup (Parser.wonders (Parser.analyzeDecompressedData data)).
Proof.
  unfold Parser.analyzeDecompressedData, Parser.analyzeText. cbn [Parser.wonders].
  apply NoDup_firstn. unfold Parser.wonderNamesCleanOf. apply dedup_NoDup.
Qed.

Lemma endsWith_suffix (s pat : jsstring) :
  endsWith s pat = true <-> pat `suffix_of` s.
Proof.
  unfold endsWith. rewrite andb_true_iff, Nat.leb_le, startsWith_app. split.
  - intros [Hlen [rest Hr]]. exists (firstn (length s - length pat) s).
    assert (Hrest : rest = []).
    { apply (f_equal (@length Z)) in Hr. rewrite length_skipn, length_app in Hr.
      destruct rest; [reflexivity | simpl in Hr; lia]. }
    subst rest. rewrite app_nil_r in Hr.
    etransitivity; [symmetry; apply (firstn_skipn (length s - length pat))|].
    rewrite Hr. reflexivity.
  - intros [pre ->]. rewrite length_app. split; [lia|].
    exists []. rewrite app_nil_r.
    replace (length pre + length pat - length pat) with (length pre) by lia.
    rewrite skipn_app, skipn_all, Nat.sub_diag. reflexivity.
Qed.

Lemma stripFirstSuffix_hit (suffixes : list jsstring) (w s : jsstring) :
  s ∈ suffixes ->
  (forall s', s' ∈ suffixes -> s' <> s ->
              endsWith s s' = false /\ endsWith s' s = false) ->
  Parser.stripFirstSuffix suffixes (w ++ s) = w.
Proof.
  induction suffixes as [|s0 rest IH]; intros Hin Hother; [inversion Hin|].
  cbn [Parser.stripFirstSuffix].
  destruct (endsWith (w ++ s) s0) eqn:E.
  - destruct (decide (s0 = s)) as [Heq|Hne].
    + rewrite Heq, length_app. replace (length w + length s - length s) with (length w) by lia.
      rewrite firstn_app, firstn_all, Nat.sub_diag. simpl. apply app_nil_r.
    + exfalso. destruct (Hother s0 ltac:(left) Hne) as [H1 H2].
      apply endsWith_suffix in E.
      assert (Hs : s `suffix_of` w ++ s) by (exists w; reflexivity).
      destruct (suffix_weak_total _ _ _ E Hs) as [H|H];
        apply endsWith_suffix in H; congruence.
  - apply IH.
    + apply elem_of_cons in Hin as [Heq|Hin]; [|exact Hin].
      assert (Hs : endsWith (w ++ s) s = true)
        by (apply endsWith_suffix; exists w; reflexivity).
      congruence.
    + intros s' Hs'. apply Hother. right. exact Hs'.
Qed.

Lemma removeFirst_prefix (pat rest : jsstring) :
  removeFirst pat (pat ++ rest) = rest.
Proof.
  assert (Hsw : startsWith (pat ++ rest) pat = true)
    by (apply startsWith_app; exists rest; reflexivity).
  destruct pat as [|c pat]; [destruct rest; reflexivity|].
  cbn [removeFirst app] in *. rewrite Hsw.
  change (c :: pat ++ rest) with ((c :: pat) ++ rest).
  rewrite skipn_app, skipn_all, Nat.sub_diag. reflexivity.
Qed.

(** X10. The ten localisation variants of a building token clean to one
    name: behind BUILDING_, a name [w] followed by one of the suffixes
    _NAME, _GOLD, ..., _QUOTE is displayed as [w] alone; and where [w] is
    a name of the wonder list, each of these tokens is taken for a wonder. *)
Theorem X10_wonder_variants (w suffix : jsstring) :
  suffix ∈ Parser.wonderSuffixes ->
  Parser.cleanWonderName (js "BUILDING_" ++ w ++ suffix) = Parser.formatEnumValue w
  /\ (w ∈ Parser.WONDER_NAMES ->
      Parser.isWonder (js "BUILDING_" ++ w ++ suffix) = true).
Proof.
  intros Hs. split.
  - unfold Parser.cleanWonderName. rewrite removeFirst_prefix.
    rewrite stripFirstSuffix_hit; [reflexivity | exact Hs|].
    intros s' Hs' Hne. unfold Parser.wonderSuffixes in Hs, Hs'. cbn [map] in Hs, Hs'.
    repeat (apply elem_of_cons in Hs as [->|Hs];
            [repeat (apply elem_of_cons in Hs' as [->|Hs'];
                     [first [congruence | split; vm_compute; reflexivity]|]);
             inversion Hs'|]).
    inversion Hs.
  - intros Hw. unfold Parser.isWonder. rewrite removeFirst_prefix.
    apply existsb_exists. exists w. split; [apply list_elem_of_In, Hw|].
    apply startsWith_app. exists suffix. reflexivity.
Qed.

End WonderFacts.

Section ParserMoreExamples.

Lemma X5_witness :
  exists p,
    @Parser.parseSave Reference.runtime Examples.saveName Examples.fallbackSave = Ok p
    /\ map Parser.civilization (Spec.civsOf p) = [js "Rome"; js "Egypt"]
    /\ map Spec.civOf (Spec.civsOf p)
       ≡ₚ map Spec.civOf (@Parser.rosterOf Reference.runtime Examples.fallbackSave).
Proof.
  eexists. split; [vm_compute; reflexivity|]. split; [vm_compute; reflexivity|].
  refine (proj1 (@X5_roster_preserved Reference.runtime Examples.saveName
                   Examples.fallbackSave _ _)).
  vm_compute. reflexivity.
Defined.

Lemma X6_witness :
  exists state,
    @Parser.parseSaveFile Reference.runtime Examples.saveName Examples.moddedSave
    = Ok state
    /\ map Parser.title (Parser.mods state) = [js "Gathering Storm"; js "Expansion"]
    /\ NoDup (map Parser.id (Parser.mods state)).
Proof.
  eexists. split; [vm_compute; reflexivity|]. split; [vm_compute; reflexivity|].
  refine (@X6_mod_ids_distinct Reference.runtime Examples.saveName
            Examples.moddedSave _ _).
  vm_compute. reflexivity.
Defined.

Lemma X7_witness :
  Parser.identifyCivFromCities
    (Parser.playerCities (@Parser.analyzeDecompressedData Reference.runtime Examples.hanoiData))
  = Some (js "VIETNAM").
Proof.
  etransitivity.
  - refine (proj1 (@X7_cities_name_vietnam Reference.runtime Examples.hanoiData _)).
    vm_compute. reflexivity.
  - vm_compute. reflexivity.
Defined.

Lemma X8_witness :
  Parser.magicOf Examples.truncatedSave = js "CIV6"
  /\ ~ (Spec.markerInRange Examples.truncatedSave Parser.GAME_TURN
        /\ Spec.markerInRange Examples.truncatedSave Parser.GAME_SPEED
        /\ Spec.markerInRange Examples.truncatedSave Parser.MAP_SIZE).
Proof.
  assert (Hthrow : @Parser.parseSaveFile Reference.runtime Examples.saveName
                     Examples.truncatedSave = Throw RangeError)
    by (vm_compute; reflexivity).
  destruct (@X8_exceptions Reference.runtime Examples.saveName Examples.truncatedSave
              RangeError Hthrow) as [[Hmagic _]|(Hmagic & _ & Hout)].
  - exfalso. apply Hmagic. vm_compute. reflexivity.
  - split; assumption.
Defined.

Lemma X10_witness :
  @Parser.cleanWonderName Reference.runtime (js "BUILDING_PETRA_QUOTE") = js "Petra"
  /\ @Parser.isWonder (js "BUILDING_PETRA_QUOTE") = true.
Proof.
  assert (Hs : js "_QUOTE" ∈ Parser.wonderSuffixes) by (repeat first [left | right]).
  assert (Hw : js "PETRA" ∈ Parser.WONDER_NAMES) by (repeat first [left | right]).
  split.
  - exact (proj1 (@X10_wonder_variants Reference.runtime (js "PETRA") (js "_QUOTE") Hs)).
  - exact (proj2 (@X10_wonder_variants Reference.runtime (js "PETRA") (js "_QUOTE") Hs) Hw).
Defined.

Lemma X11_witness :
  Parser.identifyCivFromCities [js "Atlantis"; js "Rome"; js "Hue"] = Some (js "ROME").
Proof.
  refine (proj2 (X11_first_known_city [js "Atlantis"] _) (js "Rome") (js "ROME")
            [js "Hue"] _).
  - constructor; [|constructor]. split; [vm_compute; reflexivity | by_evaluation].
  - vm_compute. reflexivity.
Defined.

End ParserMoreExamples.


(** ** The player-index map as a whole *)

Section ResolverMore.

Lemma buildPlayerIdMap_lookup (content : jsstring) (z : Z) :
  LogParser.buildPlayerIdMap (Some content) !! z
  = if (0 <=? z)%Z then dedup (Spec.civColumn content) !! Z.to_nat z else None.
Proof.
  rewrite buildPlayerIdMap_insertAll.
  destruct (Z.leb_spec 0 z) as [Hz|Hz].
  - destruct (Nat.lt_ge_cases (Z.to_nat z) (length (dedup (Spec.civColumn content))))
      as [Hlt|Hge].
    + rewrite <- (insertAll_inside _ 0 (Z.to_nat z) ∅ Hlt). f_equal. lia.
    + rewrite insertAll_outside by lia. rewrite lookup_empty.
      symmetry. by apply lookup_ge_None.
  - rewrite insertAll_outside by lia. apply lookup_empty.
Qed.

(** X13. The player-index map is one to one and has no gaps: two indices
    never resolve to the same name, every index of the map is 0 or more,
    and with an index every smaller index from 0 on is in the map. Without
    a statistics file the map is empty. *)
Theorem X13_index_map_shape (statsFile : option jsstring) :
  let playerMap := LogParser.buildPlayerIdMap statsFile in
  (forall z1 z2 name,
      playerMap !! z1 = Some name -> playerMap !! z2 = Some name -> z1 = z2)
  /\ (forall z name,
         playerMap !! z = Some name ->
         (0 <= z)%Z /\ forall z', (0 <= z' <= z)%Z -> is_Some (playerMap !! z'))
  /\ (statsFile = None -> playerMap = ∅).
Proof.
  intros playerMap. unfold playerMap.
  destruct statsFile as [content|]; [|repeat split; intros; simplify_map_eq].
  split; [|split; [|discriminate]].
  - intros z1 z2 name. rewrite !buildPlayerIdMap_lookup.
    destruct (Z.leb_spec 0 z1); [|discriminate].
    destruct (Z.leb_spec 0 z2); [|discriminate].
    intros H1 H2.
    pose proof (NoDup_lookup _ _ _ _ (dedup_NoDup (Spec.civColumn content)) H1 H2).
    lia.
  - intros z name. rewrite buildPlayerIdMap_lookup.
    destruct (Z.leb_spec 0 z) as [Hz|Hz]; [|discriminate].
    intros Hl. split; [exact Hz|]. intros z' Hz'.
    rewrite buildPlayerIdMap_lookup.
    destruct (Z.leb_spec 0 z'); [|lia].
    apply lookup_lt_is_Some. apply lookup_lt_Some in Hl. lia.
Qed.

End ResolverMore.

(** ** The scores and the states of the relations *)

Section RelationFields.
Context `{R : Runtime}.

Lemma isDigit_cases (c : Z) :
  isDigit c = true ->
  c = 48%Z \/ c = 49%Z \/ c = 50%Z \/ c = 51%Z \/ c = 52%Z \/ c = 53%Z \/ c = 54%Z
  \/ c = 55%Z \/ c = 56%Z \/ c = 57%Z.
Proof. unfold isDigit. rewrite andb_true_iff, !Z.leb_le. lia. Qed.

Lemma takeWhile_all {A} (p : A -> bool) (s : list A) :
  forallb p (takeWhile p s) = true.
Proof.
  induction s as [|c cs IH]; simpl; [reflexivity|].
  destruct (p c) eqn:E; simpl; [rewrite E; exact IH | reflexivity].
Qed.

Lemma takeWhile_fixed {A} (p : A -> bool) (s : list A) :
  forallb p s = true -> takeWhile p s = s.
Proof.
  induction s as [|c cs IH]; simpl; [reflexivity|].
  rewrite andb_true_iff. intros [-> Hcs]. rewrite IH by exact Hcs. reflexivity.
Qed.

(** [parseInt] of an optional minus sign and digits is a number. *)
Lemma parseInt_numeral (ds : jsstring) :
  ds <> [] -> forallb isDigit ds = true ->
  Spec.isNum (parseInt ds) /\ Spec.isNum (parseInt (45%Z :: ds)).
Proof.
  intros Hne Hds.
  assert (Htw : takeWhile isDigit ds = ds) by (apply takeWhile_fixed, Hds).
  destruct ds as [|d ds']; [congruence|].
  assert (Hd : isDigit d = true) by (simpl in Hds; apply andb_true_iff in Hds; tauto).
  split.
  - unfold parseInt. 
    assert (Hws : dropWhile isWhiteSpace (d :: ds') = d :: ds').
    { cbn [dropWhile].
      destruct (isDigit_cases d Hd) as [->|[->|[->|[->|[->|[->|[->|[->|[->| ->]]]]]]]]];
        reflexivity. }
    rewrite Hws.
    assert (Hsign : match d :: ds' with
                    | 45%Z :: r => (true, r)
                    | 43%Z :: r => (false, r)
                    | _ => (false, d :: ds')
                    end = (false, d :: ds')).
    { destruct (isDigit_cases d Hd) as [->|[->|[->|[->|[->|[->|[->|[->|[->| ->]]]]]]]]];
        reflexivity. }
    rewrite Hsign, Htw. exact I.
  - unfold parseInt. cbn [dropWhile].
    change (isWhiteSpace 45) with false. cbv iota. rewrite Htw. exact I.
Qed.

(** What the expression of the first pass captures: a numeral and a word. *)
Lemma relationAt_captures (s scoreText state : jsstring) :
  LogParser.relationAt s = Some (scoreText, state) ->
  Spec.isNum (parseInt scoreText) /\ state <> [].
Proof.
  unfold LogParser.relationAt.
  destruct s as [|c s'].
  - cbn. discriminate.
  - set (sign_rest := match c :: s' with
                      | 45%Z :: r => ([45%Z], r)
                      | _ => ([], c :: s')
                      end).
    assert (Hsign : fst sign_rest = [] \/ fst sign_rest = [45%Z]).
    { unfold sign_rest. destruct c as [|q|q]; try (left; reflexivity).
      do 6 (destruct q as [q|q|]; try (left; reflexivity)). right. reflexivity. }
    destruct sign_rest as [sign s1].
    cbn [fst] in Hsign.
    set (ds := takeWhile isDigit s1).
    destruct (negb (bool_decide (ds = []))) eqn:Eds; [|discriminate].
    destruct (startsWith (skipn (length ds) s1) (js ":DIPLO_STATE_")); [|discriminate].
    set (w := takeWhile isWord _).
    destruct (negb (bool_decide (w = []))) eqn:Ew; [|discriminate].
    cbn [andb]. intros [= <- <-].
    apply negb_true_iff, bool_decide_eq_false in Eds, Ew.
    split; [|exact Ew].
    destruct (parseInt_numeral ds Eds (takeWhile_all _ _)) as [H1 H2].
    destruct Hsign as [->| ->]; assumption.
Qed.

Lemma matchFirst_Some {A B} (m : list A -> option B) (text : list A) (b : B) :
  matchFirst m text = Some b -> exists suffix, m suffix = Some b.
Proof.
  induction text as [|c cs IH]; simpl; [discriminate|].
  destruct (m (c :: cs)) as [b'|] eqn:E.
  - intros [= <-]. eauto.
  - exact IH.
Qed.

Lemma relationCells_fields (playerMap : gmap Z jsstring) (fromId : num)
    (cells : list jsstring) :
  forall k : nat,
    Forall (fun r => Spec.wellFormedEdge (Spec.edgeOf r))
      (LogParser.relationCells playerMap fromId k cells).
Proof.
  induction cells as [|cell rest IH]; intros k; cbn [LogParser.relationCells];
    [constructor|].
  destruct cell as [|c cell']; [apply IH|].
  destruct (matchFirst LogParser.relationAt (c :: cell')) as [[scoreText state]|] eqn:Em;
    [|apply IH].
  destruct (LogParser.numEq fromId (Num (Z.of_nat k))); [apply IH|].
  constructor; [|apply IH].
  apply matchFirst_Some in Em as [suffix Hs].
  apply relationAt_captures in Hs as [Hnum Hstate].
  unfold Spec.edgeOf, Spec.wellFormedEdge. cbn. repeat split; [exact Hnum | exact Hstate | lia].
Qed.

Lemma firstPass_fields (playerMap : gmap Z jsstring) (lines : list jsstring) :
  Forall (fun r => Spec.wellFormedEdge (Spec.edgeOf r))
    (flat_map (LogParser.relationsOfLine playerMap) lines).
Proof.
  induction lines as [|line rest IH]; simpl; [constructor|].
  apply Forall_app. split; [|exact IH].
  unfold LogParser.relationsOfLine.
  destruct (length _ <? 4); [constructor|].
  destruct (bool_decide _); [constructor|]. apply relationCells_fields.
Qed.

(** X14. Every relation of the output has a score that is a number (never
    NaN), a state that is not empty, and a to-player index of 0 or more. *)
Theorem X14_relation_fields (diplomacyFile statsFile : option jsstring) :
  Forall (fun r => Spec.isNum (LogParser.score r)
                   /\ LogParser.state r <> []
                   /\ (0 <= LogParser.toPlayerId r)%Z)
    (LogParser.parseDiplomacy diplomacyFile statsFile).
Proof.
  destruct diplomacyFile as [diplomacy|]; [|constructor].
  pose proof (parseDiplomacy_edges diplomacy statsFile)
    as Hedges.
  pose proof (firstPass_fields (LogParser.buildPlayerIdMap statsFile)
                (skipn 1 (split 10%Z (trim diplomacy)))) as Hfirst.
  assert (Hmap : Forall Spec.wellFormedEdge
                   (map Spec.edgeOf (LogParser.parseDiplomacy (Some diplomacy) statsFile))).
  { rewrite Hedges. apply (proj2 (Forall_fmap _ _ _)). exact Hfirst. }
  pose proof (proj1 (Forall_fmap _ _ _) Hmap) as Hall.
  eapply Forall_impl; [exact Hall|].
  intros r Hr. exact Hr.
Qed.

End RelationFields.

(** ** Display names *)

Section DisplayNames.
Context `{R : Runtime}.

Lemma skipn_prefix {A} (p rest : list A) : skipn (length p) (p ++ rest) = rest.
Proof. rewrite skipn_app, skipn_all, Nat.sub_diag. reflexivity. Qed.

Lemma startsWith_prefix (p rest : jsstring) : startsWith (p ++ rest) p = true.
Proof. apply startsWith_app. exists rest. reflexivity. Qed.

(** X15. [formatEnumName] removes one leading category prefix, UNIT_,
    BUILDING_, DISTRICT_, PROJECT_, TECH_, CIVIC_, GREAT_PERSON_INDIVIDUAL_
    or GREAT_PERSON_CLASS_, and displays what follows it as [formatCivName]
    does; a second prefix behind the first one stays. A name that starts
    with none of the eight is displayed whole. *)
Theorem X15_enum_prefix (name : jsstring) :
  (forall prefix, prefix ∈ LogParser.enumPrefixes ->
                  LogParser.formatEnumName (prefix ++ name) = LogParser.formatCivName name)
  /\ (Forall (fun prefix => startsWith name prefix = false) LogParser.enumPrefixes ->
      LogParser.formatEnumName name = LogParser.formatCivName name).
Proof.
  split.
  - intros prefix Hp. unfold LogParser.formatEnumName, LogParser.formatCivName.
    do 3 f_equal. unfold LogParser.enumPrefixes in *. cbn [map] in *.
    repeat (apply elem_of_cons in Hp as [->|Hp];
            [cbn [LogParser.stripFirstPrefix];
             repeat match goal with
               | |- context [startsWith (js ?a ++ name) (js ?b)] =>
                   lazymatch a with
                   | b => rewrite (startsWith_prefix (js b) name), (skipn_prefix (js b) name)
                   | _ => change (startsWith (js a ++ name) (js b)) with false; cbv iota
                   end
               end;
             reflexivity|]).
    inversion Hp.
  - intros Hno. unfold LogParser.formatEnumName, LogParser.formatCivName.
    do 3 f_equal. induction Hno as [|p ps Hp _ IH]; [reflexivity|].
    cbn [LogParser.stripFirstPrefix]. rewrite Hp. exact IH.
Qed.

Lemma stripPrefix_hit (p rest : jsstring) : LogParser.stripPrefix p (p ++ rest) = rest.
Proof.
  unfold LogParser.stripPrefix. rewrite startsWith_prefix. apply skipn_prefix.
Qed.

Lemma stripPrefix_miss (p s : jsstring) :
  startsWith s p = false -> LogParser.stripPrefix p s = s.
Proof. unfold LogParser.stripPrefix. intros ->. reflexivity. Qed.

(** X16. Both forms of a city key give the same display name: for a name
    that does not itself start with LOC_CITY_ or NAME_, the keys
    LOC_CITY_NAME_ + name and LOC_CITY_ + name are displayed as the name
    alone is. *)
Theorem X16_city_key_forms (name : jsstring) :
  startsWith name (js "LOC_CITY_") = false ->
  startsWith name (js "NAME_") = false ->
  LogParser.formatCityName (js "LOC_CITY_NAME_" ++ name) = LogParser.formatCivName name
  /\ LogParser.formatCityName (js "LOC_CITY_" ++ name) = LogParser.formatCivName name
  /\ LogParser.formatCityName name = LogParser.formatCivName name.
Proof.
  intros Hloc Hname.
  assert (Hlong : startsWith name (js "LOC_CITY_NAME_") = false).
  { destruct (startsWith name (js "LOC_CITY_NAME_")) eqn:E; [|reflexivity].
    apply startsWith_app in E as [rest ->].
    change (js "LOC_CITY_NAME_" ++ rest) with (js "LOC_CITY_" ++ (js "NAME_" ++ rest)) in Hloc.
    rewrite startsWith_prefix in Hloc. discriminate. }
  unfold LogParser.formatCityName, LogParser.formatCivName. repeat split; do 3 f_equal.
  - rewrite stripPrefix_hit, (stripPrefix_miss _ _ Hloc). apply stripPrefix_miss, Hname.
  - rewrite (stripPrefix_miss (js "LOC_CITY_NAME_")).
    + rewrite stripPrefix_hit. apply stripPrefix_miss, Hname.
    + destruct (startsWith (js "LOC_CITY_" ++ name) (js "LOC_CITY_NAME_")) eqn:E;
        [|reflexivity].
      apply startsWith_app in E as [rest Hr].
      change (js "LOC_CITY_NAME_" ++ rest) with (js "LOC_CITY_" ++ (js "NAME_" ++ rest)) in Hr.
      apply app_inv_head in Hr. subst name.
      rewrite startsWith_prefix in Hname. discriminate.
  - rewrite (stripPrefix_miss _ _ Hlong), (stripPrefix_miss _ _ Hloc).
    apply stripPrefix_miss, Hname.
Qed.

End DisplayNames.

(** ** City founding statistics *)

Section FoundingFacts.
Context `{R : Runtime} `{!FloatTests}.

Lemma foundingStep_invariant (seen : list jsstring)
    (stats : list LogParser.CityFoundingStats) (line : jsstring) :
  map Spec.foundingKey stats = seen -> NoDup seen -> Forall Spec.foundingOk stats ->
  let st := LogParser.foundingStep (seen, stats) line in
  map Spec.foundingKey (snd st) = fst st /\ NoDup (fst st) /\ Forall Spec.foundingOk (snd st).
Proof.
  intros Hk Hnd Hok. unfold LogParser.foundingStep.
  destruct (length _ <? 5); [repeat split; assumption|].
  destruct (isNaN (parseFloat _)) eqn:Ef; [repeat split; assumption|].
  destruct (isNaN (parseFloat (nth 4 _ _))) eqn:Ep; [repeat split; assumption|].
  cbn [orb]. case_bool_decide as Hseen; [repeat split; assumption|].
  cbn [fst snd]. split; [|split].
  - rewrite map_app, Hk. reflexivity.
  - apply NoDup_app. split; [exact Hnd|]. split; [|apply NoDup_singleton].
    intros x Hx Hin. apply list_elem_of_singleton in Hin. subst x. exact (Hseen Hx).
  - apply Forall_app. split; [exact Hok|]. constructor; [|constructor].
    repeat split; assumption.
Qed.

Lemma foundingSteps_invariant (lines : list jsstring) :
  forall seen stats,
    map Spec.foundingKey stats = seen -> NoDup seen -> Forall Spec.foundingOk stats ->
    let st := fold_left LogParser.foundingStep lines (seen, stats) in
    map Spec.foundingKey (snd st) = fst st /\ NoDup (fst st) /\ Forall Spec.foundingOk (snd st).
Proof.
  induction lines as [|line rest IH]; intros seen stats Hk Hnd Hok;
    [repeat split; assumption|].
  cbn [fold_left].
  destruct (foundingStep_invariant seen stats line Hk Hnd Hok) as (H1 & H2 & H3).
  destruct (LogParser.foundingStep (seen, stats) line) as [seen1 stats1].
  apply IH; assumption.
Qed.

(** X17. The founding statistics hold one entry at most for a player and a
    city, and no entry without data: in every entry the food advantage and
    the production advantage are numbers (not NaN). *)
Theorem X17_founding_entries (cityBuildFile : option jsstring) :
  let stats := LogParser.parseCityFoundingStats cityBuildFile in
  NoDup (map (fun s => (LogParser.cf_playerId s, LogParser.city s)) stats)
  /\ Forall (fun s => isNaN (LogParser.foodAdvantage s) = false
                      /\ isNaN (LogParser.productionAdvantage s) = false)
       stats.
Proof.
  intros stats. unfold stats, LogParser.parseCityFoundingStats.
  destruct cityBuildFile as [content|]; [|split; constructor].
  destruct (length _ <? 2); [split; constructor|].
  destruct (foundingSteps_invariant (skipn 1 (split 10%Z (trim content))) [] [])
    as (Hk & Hnd & Hok); [reflexivity | constructor | constructor |].
  split; [|exact Hok].
  rewrite <- Hk in Hnd.
  set (result := snd (fold_left LogParser.foundingStep _ _)) in *.
  assert (Hkeys : map Spec.foundingKey result
                  = map (fun e : num * jsstring =>
                           LogParser.showNum (fst e) ++ js ":" ++ snd e)
                      (map (fun s => (LogParser.cf_playerId s, LogParser.city s)) result))
    by (rewrite map_map; reflexivity).
  rewrite Hkeys in Hnd. exact (NoDup_fmap_1 _ _ Hnd).
Qed.

End FoundingFacts.

Section LogMoreExamples.

Lemma X13_witness :
  LogParser.buildPlayerIdMap (Some Examples.statsABACB) !! 2%Z = Some (js "KABUL")
  /\ is_Some (LogParser.buildPlayerIdMap (Some Examples.statsABACB) !! 1%Z)
  /\ forall z, LogParser.buildPlayerIdMap (Some Examples.statsABACB) !! z
               = Some (js "KABUL") -> z = 2%Z.
Proof.
  assert (Hk : LogParser.buildPlayerIdMap (Some Examples.statsABACB) !! 2%Z
               = Some (js "KABUL")) by (vm_compute; reflexivity).
  split; [exact Hk|]. split.
  - apply (proj2 (proj1 (proj2 (X13_index_map_shape (Some Examples.statsABACB)))
                    2%Z (js "KABUL") Hk)).
    lia.
  - intros z Hz.
    exact (proj1 (X13_index_map_shape (Some Examples.statsABACB)) z 2%Z (js "KABUL") Hz Hk).
Defined.

Lemma X15_witness :
  @LogParser.formatEnumName Reference.runtime (js "UNIT_TANK") = js "Tank"
  /\ @LogParser.formatEnumName Reference.runtime (js "BUILDING_UNIT_DEPOT") = js "Unit Depot"
  /\ @LogParser.formatEnumName Reference.runtime (js "NO_TECH") = js "No Tech".
Proof.
  split; [|split].
  - refine (proj1 (@X15_enum_prefix Reference.runtime (js "TANK")) (js "UNIT_") _).
    repeat first [left | right].
  - refine (proj1 (@X15_enum_prefix Reference.runtime (js "UNIT_DEPOT")) (js "BUILDING_") _).
    repeat first [left | right].
  - refine (proj2 (@X15_enum_prefix Reference.runtime (js "NO_TECH")) _).
    repeat constructor.
Defined.

Lemma X16_witness :
  @LogParser.formatCityName Reference.runtime (js "LOC_CITY_NAME_HA_NOI") = js "Ha Noi"
  /\ @LogParser.formatCityName Reference.runtime (js "LOC_CITY_HA_NOI") = js "Ha Noi"
  /\ @LogParser.formatCityName Reference.runtime (js "HA_NOI") = js "Ha Noi".
Proof.
  refine (@X16_city_key_forms Reference.runtime (js "HA_NOI") _ _); reflexivity.
Defined.

End LogMoreExamples.

Section FoundingExamples.

Lemma X17_witness :
  let stats :=
    @LogParser.parseCityFoundingStats Reference.runtime Reference.floatTests
      (Some Examples.cityBuildLog) in
  map (fun s => (LogParser.cf_turn s, LogParser.cf_playerId s, LogParser.cityDisplayName s))
    stats
  = [(Num 1, Num 0, js "Hanoi"); (Num 3, Num 1, js "Rome")]
  /\ NoDup (map (fun s => (LogParser.cf_playerId s, LogParser.city s)) stats).
Proof.
  intros stats. split; [vm_compute; reflexivity|].
  exact (proj1 (@X17_founding_entries Reference.runtime Reference.floatTests
                  (Some Examples.cityBuildLog))).
Defined.

End FoundingExamples.


(** ** The rows of a history *)

Section HistoryRows.
Context `{R : Runtime}.

(** X18. The turns of a history stand in strictly ascending order of their
    numbers when every data row has a number in its turn cell; in every
    case no two turns of the history have the same number. *)
Theorem X18_turns_ascending (statsFile scoresFile : option jsstring)
    (history : HistoryParser.GameHistory) :
  HistoryParser.parseGameHistory statsFile scoresFile = Some history ->
  NoDup (map HistoryParser.td_turn (HistoryParser.turns history))
  /\ (Forall Spec.isNum
        (map HistoryParser.rs_turn (HistoryParser.parsePlayerStatsCSV statsFile)) ->
      StronglySorted Spec.turnLt (map HistoryParser.td_turn (HistoryParser.turns history))).
Proof.
  intros Hh. split.
  - destruct (history_rows _ _ _ Hh) as (_ & Hturns & _). rewrite Hturns.
    apply dedup_NoDup.
  - intros Hnum. apply (history_turns _ _ _ Hh Hnum).
Qed.

(** X19. Every turn of a history has at least one row, and every row
    stands in the turn whose number it carries. *)
Theorem X19_rows_filed_by_turn (statsFile scoresFile : option jsstring)
    (history : HistoryParser.GameHistory) :
  HistoryParser.parseGameHistory statsFile scoresFile = Some history ->
  HistoryParser.turns history <> []
  /\ Forall (fun t =>
               HistoryParser.civStats t <> []
               /\ Forall (fun s => HistoryParser.turn s = HistoryParser.td_turn t)
                    (HistoryParser.civStats t))
       (HistoryParser.turns history).
Proof.
  intros Hh. split; [eapply history_nonempty, Hh|].
  apply (history_rows _ _ _ Hh).
Qed.

(** X20. Grouping the rows by turn loses no row and invents none: the rows
    of all turns together are the data rows of the statistics file, each
    with its turn number and its raw civilization name, up to order. *)
Theorem X20_rows_conserved (statsFile scoresFile : option jsstring)
    (history : HistoryParser.GameHistory) :
  HistoryParser.parseGameHistory statsFile scoresFile = Some history ->
  map Spec.filedRow (flat_map HistoryParser.civStats (HistoryParser.turns history))
  ≡ₚ map Spec.rawRow (HistoryParser.parsePlayerStatsCSV statsFile).
Proof. intros Hh. apply (history_rows _ _ _ Hh). Qed.

End HistoryRows.

(** ** Single turns *)

Section SingleTurns.
Context `{R : Runtime}.

Lemma majorCivsOf_major (stats : list HistoryParser.CivStatistics) :
  Forall (fun s => HistoryParser.isCityState_ s = false) (HistoryParser.majorCivsOf stats).
Proof.
  apply Forall_forall. intros s Hs. unfold HistoryParser.majorCivsOf in Hs.
  apply list_elem_of_filter in Hs as [Hs _]. apply negb_true_iff, Is_true_true, Hs.
Qed.

Lemma lastCompleteTurn_major (turnsBackward : list HistoryParser.TurnData)
    (rows : list HistoryParser.CivStatistics) :
  HistoryParser.lastCompleteTurn turnsBackward = Some rows ->
  Forall (fun s => HistoryParser.isCityState_ s = false) rows.
Proof.
  induction turnsBackward as [|t earlier IH]; cbn [HistoryParser.lastCompleteTurn];
    [discriminate|].
  destruct (HistoryParser.civStats t) as [|c l]; [exact IH|].
  destruct (1 <? _); [|exact IH].
  intros [= <-]. apply majorCivsOf_major.
Qed.

Lemma parseGameHistory_None (statsFile scoresFile : option jsstring) :
  HistoryParser.parseGameHistory statsFile scoresFile = None
  <-> HistoryParser.parsePlayerStatsCSV statsFile = [].
Proof.
  unfold HistoryParser.parseGameHistory.
  destruct (HistoryParser.parsePlayerStatsCSV statsFile); split; congruence.
Qed.

(** X22. [getLatestTurnStatsFullCivsOnly] is null exactly when the
    statistics file is missing or has no data row; the rows it returns are
    never those of a city-state. *)
Theorem X22_full_civs_only (statsFile scoresFile : option jsstring) :
  (HistoryParser.getLatestTurnStatsFullCivsOnly statsFile scoresFile = None
   <-> HistoryParser.parsePlayerStatsCSV statsFile = [])
  /\ forall rows,
       HistoryParser.getLatestTurnStatsFullCivsOnly statsFile scoresFile = Some rows ->
       Forall (fun s => HistoryParser.isCityState_ s = false) rows.
Proof.
  unfold HistoryParser.getLatestTurnStatsFullCivsOnly.
  destruct statsFile as [content|]; [|split; [split; reflexivity | discriminate]].
  destruct (HistoryParser.parseGameHistory (Some content) scoresFile) as [history|] eqn:Eh.
  - pose proof (history_nonempty _ _ _ Eh) as Hne.
    assert (Hraw : HistoryParser.parsePlayerStatsCSV (Some content) <> []).
    { intros Hnil. apply parseGameHistory_None with (scoresFile := scoresFile) in Hnil.
      congruence. }
    destruct (HistoryParser.turns history) as [|t0 ts] eqn:Et; [congruence|].
    destruct (last (t0 :: ts)) as [latest|] eqn:El;
      [|apply last_None in El; discriminate].
    destruct (HistoryParser.lastCompleteTurn (rev (t0 :: ts))) as [majorCivs|] eqn:Ec.
    + split; [split; [discriminate | congruence]|].
      intros rows [= <-]. eapply lastCompleteTurn_major, Ec.
    + split; [split; [discriminate | congruence]|].
      intros rows [= <-]. apply majorCivsOf_major.
  - split; [|discriminate]. split; [|reflexivity]. intros _.
    apply parseGameHistory_None in Eh. exact Eh.
Qed.




Lemma sorted_last {A} (lt : A -> A -> Prop) (l : list A) (x : A) :
  StronglySorted lt l -> last l = Some x -> forall y, y ∈ l -> y = x \/ lt y x.
Proof.
  induction 1 as [|a l Hl IH Ha]; [discriminate|].
  intros Hlast y Hy. destruct l as [|b l'].
  - injection Hlast as <-. apply list_elem_of_singleton in Hy. left. exact Hy.
  - change (last (a :: b :: l')) with (last (b :: l')) in Hlast.
    apply elem_of_cons in Hy as [->|Hy]; [|apply IH; assumption].
    right. rewrite Forall_forall in Ha. apply Ha.
    apply last_Some_elem_of, Hlast.
Qed.


End SingleTurns.

(** ** Victory progress *)

Section VictoryFacts.
Context `{R : Runtime}.

Lemma insertDesc_Permutation (key : HistoryParser.CivStatistics -> num)
    (x : HistoryParser.CivStatistics) (l : list HistoryParser.CivStatistics) :
  HistoryParser.insertDesc key x l ≡ₚ x :: l.
Proof.
  induction l as [|y ys IH]; cbn [HistoryParser.insertDesc]; [reflexivity|].
  destruct (HistoryParser.numGt _ _); [reflexivity|].
  rewrite IH. apply Permutation_swap.
Qed.

Lemma sortDesc_Permutation (key : HistoryParser.CivStatistics -> num)
    (l : list HistoryParser.CivStatistics) :
  HistoryParser.sortDesc key l ≡ₚ l.
Proof.
  unfold HistoryParser.sortDesc.
  assert (Hgen : forall acc,
             fold_left (fun sorted x => HistoryParser.insertDesc key x sorted) l acc
             ≡ₚ acc ++ l).
  { induction l as [|x xs IH]; intros acc; cbn [fold_left].
    - rewrite app_nil_r. reflexivity.
    - rewrite IH, insertDesc_Permutation. cbn [app]. apply Permutation_middle. }
  apply (Hgen []).
Qed.

Lemma insertDesc_sorted (key : HistoryParser.CivStatistics -> num)
    (x : HistoryParser.CivStatistics) (l : list HistoryParser.CivStatistics) :
  Spec.isNum (key x) -> Forall (fun s => Spec.isNum (key s)) l ->
  StronglySorted (Spec.keyGe key) l ->
  StronglySorted (Spec.keyGe key) (HistoryParser.insertDesc key x l).
Proof.
  intros Hx Hl Hs. induction l as [|y ys IH]; cbn [HistoryParser.insertDesc];
    [repeat constructor|].
  apply StronglySorted_inv in Hs as [Hys Hy].
  inversion Hl as [|? ? Hny Hnys]; subst.
  unfold HistoryParser.numGt.
  destruct (key x) as [|a] eqn:Ex; [destruct Hx|].
  destruct (key y) as [|b] eqn:Ey; [destruct Hny|].
  destruct (Z.ltb_spec b a) as [Hlt|Hge].
  - constructor; [constructor; assumption|].
    constructor; [unfold Spec.keyGe; rewrite Ex, Ey; lia|].
    eapply Forall_impl; [exact Hy|]. intros s. unfold Spec.keyGe. rewrite Ex, Ey.
    destruct (key s); [tauto | lia].
  - constructor; [apply IH; assumption|].
    rewrite insertDesc_Permutation. constructor; [|exact Hy].
    unfold Spec.keyGe. rewrite Ex, Ey. lia.
Qed.

Lemma sortDesc_sorted (key : HistoryParser.CivStatistics -> num)
    (l : list HistoryParser.CivStatistics) :
  Forall (fun s => Spec.isNum (key s)) l ->
  StronglySorted (Spec.keyGe key) (HistoryParser.sortDesc key l).
Proof.
  unfold HistoryParser.sortDesc.
  assert (Hgen : forall acc,
             Forall (fun s => Spec.isNum (key s)) (acc ++ l) ->
             StronglySorted (Spec.keyGe key) acc ->
             StronglySorted (Spec.keyGe key)
               (fold_left (fun sorted x => HistoryParser.insertDesc key x sorted) l acc)).
  { induction l as [|x xs IH]; intros acc Hnum Hs; cbn [fold_left]; [exact Hs|].
    apply Forall_app in Hnum as [Hacc Hrest].
    inversion Hrest as [|? ? Hx Hxs]; subst.
    apply IH.
    - apply Forall_app. split; [|exact Hxs].
      rewrite insertDesc_Permutation. constructor; assumption.
    - apply insertDesc_sorted; assumption. }
  intros Hnum. apply (Hgen []); [exact Hnum | constructor].
Qed.

Lemma findIndex_first {B} (p : B -> bool) (l : list B) (x : B) :
  x ∈ l -> p x = true ->
  exists i y, findIndex p l = Some i /\ l !! i = Some y /\ p y = true.
Proof.
  induction l as [|y ys IH]; intros Hin Hp; [inversion Hin|].
  cbn [findIndex]. destruct (p y) eqn:E.
  - exists 0, y. repeat split; assumption.
  - apply elem_of_cons in Hin as [->|Hin]; [congruence|].
    destruct (IH Hin Hp) as (i & z & Hi & Hz & Hpz).
    exists (S i), z. rewrite Hi. repeat split; assumption.
Qed.



Lemma sorted_lookup {A} (lt : A -> A -> Prop) (l : list A) :
  StronglySorted lt l ->
  forall i j x y, i < j -> l !! i = Some x -> l !! j = Some y -> lt x y.
Proof.
  induction 1 as [|a l Hl IH Ha]; intros i j x y Hij Hx Hy; [inversion Hx|].
  destruct j as [|j]; [lia|]. cbn in Hy.
  destruct i as [|i].
  - injection Hx as <-. rewrite Forall_forall in Ha. apply Ha.
    eapply list_elem_of_lookup_2, Hy.
  - cbn in Hx. apply (IH i j); [lia | assumption | assumption].
Qed.

(** In a list sorted by a key, under pairwise different names, a row with
    a greater key stands before a row with a smaller one. *)
Lemma positionOf_order (key : HistoryParser.CivStatistics -> num)
    (l : list HistoryParser.CivStatistics) (a b : HistoryParser.CivStatistics) :
  NoDup (map HistoryParser.civilization l) ->
  Forall (fun s => Spec.isNum (key s)) l ->
  a ∈ l -> b ∈ l ->
  HistoryParser.numGt (key a) (key b) = true ->
  (HistoryParser.positionOf a (HistoryParser.sortDesc key l)
   < HistoryParser.positionOf b (HistoryParser.sortDesc key l))%Z.
Proof.
  intros Hnd Hnum Ha Hb Hgt.
  pose proof (sortDesc_Permutation key l) as Hperm.
  pose proof (sortDesc_sorted key l Hnum) as Hsorted.
  set (sorted := HistoryParser.sortDesc key l) in *.
  assert (Hnd' : NoDup (map HistoryParser.civilization sorted)) by (rewrite Hperm; exact Hnd).
  assert (Hfind : forall x, x ∈ l ->
             exists i, findIndex (fun s => bool_decide (HistoryParser.civilization s
                                                        = HistoryParser.civilization x))
                         sorted = Some i
                       /\ sorted !! i = Some x).
  { intros x Hx.
    destruct (findIndex_first
                (fun s => bool_decide (HistoryParser.civilization s
                                       = HistoryParser.civilization x))
                sorted x) as (i & y & Hi & Hy & Hname).
    - rewrite Hperm. exact Hx.
    - apply bool_decide_eq_true. reflexivity.
    - exists i. split; [exact Hi|]. apply bool_decide_eq_true in Hname.
      assert (Hxs : x ∈ sorted) by (rewrite Hperm; exact Hx).
      apply list_elem_of_lookup_1 in Hxs as [k Hk].
      assert (Hik : i = k).
      { eapply (NoDup_lookup _ _ _ _ Hnd').
        - rewrite list_lookup_fmap, Hy. reflexivity.
        - rewrite list_lookup_fmap, Hk. cbn. rewrite Hname. reflexivity. }
      subst k. exact Hk. }
  destruct (Hfind a Ha) as (i & Hi & Hai). destruct (Hfind b Hb) as (j & Hj & Hbj).
  unfold HistoryParser.positionOf. rewrite Hi, Hj.
  destruct (Nat.lt_trichotomy i j) as [Hlt|[Heq|Hgt']]; [lia| |].
  - subst j. assert (a = b) by congruence. subst b.
    unfold HistoryParser.numGt in Hgt. destruct (key a); [discriminate|].
    apply Z.ltb_lt in Hgt. lia.
  - pose proof (sorted_lookup _ _ Hsorted j i b a Hgt' Hbj Hai) as Hge.
    unfold Spec.keyGe in Hge. unfold HistoryParser.numGt in Hgt.
    destruct (key a); [discriminate|]. destruct (key b); [discriminate|].
    apply Z.ltb_lt in Hgt. lia.
Qed.

(** X26. Where the major civs of the rows have pairwise different names and
    numbers in the four ranked fields, the positions follow the fields: of
    two entries the one with more techs researched has the smaller science
    position, and likewise for culture per turn and the culture position,
    for the military strength and the domination position, and for the
    total score and the score position. *)
Theorem X26_victory_order (stats : list HistoryParser.CivStatistics) :
  NoDup (map HistoryParser.civilization (HistoryParser.majorCivsOf stats)) ->
  Forall (fun s => Spec.isNum (HistoryParser.techsResearched s)
                   /\ Spec.isNum (HistoryParser.culturePerTurn s)
                   /\ Spec.isNum (HistoryParser.militaryOf s)
                   /\ Spec.isNum (HistoryParser.score s))
    (HistoryParser.majorCivsOf stats) ->
  forall p q,
    p ∈ HistoryParser.calculateVictoryProgress stats ->
    q ∈ HistoryParser.calculateVictoryProgress stats ->
    (HistoryParser.numGt (HistoryParser.sci_techsResearched (HistoryParser.vp_science p))
       (HistoryParser.sci_techsResearched (HistoryParser.vp_science q)) = true ->
     (HistoryParser.sci_position (HistoryParser.vp_science p)
      < HistoryParser.sci_position (HistoryParser.vp_science q))%Z)
    /\ (HistoryParser.numGt (HistoryParser.cul_culturePerTurn (HistoryParser.vp_culture p))
          (HistoryParser.cul_culturePerTurn (HistoryParser.vp_culture q)) = true ->
        (HistoryParser.cul_position (HistoryParser.vp_culture p)
         < HistoryParser.cul_position (HistoryParser.vp_culture q))%Z)
    /\ (HistoryParser.numGt (HistoryParser.militaryStrength (HistoryParser.vp_domination p))
          (HistoryParser.militaryStrength (HistoryParser.vp_domination q)) = true ->
        (HistoryParser.dom_position (HistoryParser.vp_domination p)
         < HistoryParser.dom_position (HistoryParser.vp_domination q))%Z)
    /\ (HistoryParser.numGt (HistoryParser.totalScore (HistoryParser.vp_score p))
          (HistoryParser.totalScore (HistoryParser.vp_score q)) = true ->
        (HistoryParser.sco_position (HistoryParser.vp_score p)
         < HistoryParser.sco_position (HistoryParser.vp_score q))%Z).
Proof.
  intros Hnd Hnum p q. unfold HistoryParser.calculateVictoryProgress.
  destruct stats as [|s0 rest]; [intros Hp; inversion Hp|].
  set (majorCivs := HistoryParser.majorCivsOf (s0 :: rest)) in *.
  intros Hp Hq.
  apply list_elem_of_fmap in Hp as (a & -> & Ha).
  apply list_elem_of_fmap in Hq as (b & -> & Hb).
  cbn [HistoryParser.vp_science HistoryParser.vp_culture HistoryParser.vp_domination
       HistoryParser.vp_score HistoryParser.sci_position HistoryParser.cul_position
       HistoryParser.dom_position HistoryParser.sco_position
       HistoryParser.sci_techsResearched HistoryParser.cul_culturePerTurn
       HistoryParser.militaryStrength HistoryParser.totalScore].
  split; [|split; [|split]]; intros Hgt; apply positionOf_order; try assumption;
    (eapply Forall_impl; [exact Hnum|]; intros s (H1 & H2 & H3 & H4); assumption).
Qed.

End VictoryFacts.

(** ** The window of the trend analysis *)

Section TrendWindow.
Context `{R : Runtime}.

Lemma sorted_filter {A} (lt : A -> A -> Prop) (p : A -> bool) (l : list A) :
  StronglySorted lt l -> StronglySorted lt (filter p l).
Proof.
  induction 1 as [|a l Hl IH Ha]; [constructor|].
  rewrite filter_cons. destruct (decide (p a)); [|exact IH].
  constructor; [exact IH|]. apply Forall_forall. intros y Hy.
  apply list_elem_of_filter in Hy as [_ Hy]. rewrite Forall_forall in Ha. apply Ha, Hy.
Qed.

Lemma last_filter {A} (p : A -> bool) (l : list A) (x : A) :
  last l = Some x -> p x = true -> last (filter p l) = Some x.
Proof.
  intros Hl Hp. apply last_Some in Hl as [l' ->].
  rewrite filter_app, filter_cons, filter_nil.
  destruct (decide (p x)) as [_|Hn]; [apply last_snoc|].
  exfalso. apply Hn. rewrite Hp. exact I.
Qed.

Lemma trendOf_fields (a b : HistoryParser.TurnData) (civ : HistoryParser.CivStatistics) :
  Forall (fun tr => HistoryParser.startTurn tr = HistoryParser.td_turn a
                    /\ HistoryParser.endTurn tr = HistoryParser.td_turn b
                    /\ HistoryParser.turnsAnalyzed tr
                       = HistoryParser.numSub (HistoryParser.td_turn b)
                           (HistoryParser.td_turn a))
    (HistoryParser.trendOf a b civ).
Proof.
  unfold HistoryParser.trendOf.
  destruct (HistoryParser.findStats civ (HistoryParser.civStats a)); [|constructor].
  destruct (HistoryParser.findStats civ (HistoryParser.civStats b)); [|constructor].
  repeat constructor.
Qed.

Lemma trends_fields (a b : HistoryParser.TurnData) (civs : list HistoryParser.CivStatistics) :
  Forall (fun tr => HistoryParser.startTurn tr = HistoryParser.td_turn a
                    /\ HistoryParser.endTurn tr = HistoryParser.td_turn b
                    /\ HistoryParser.turnsAnalyzed tr
                       = HistoryParser.numSub (HistoryParser.td_turn b)
                           (HistoryParser.td_turn a))
    (flat_map (HistoryParser.trendOf a b) civs).
Proof.
  induction civs as [|c cs IH]; simpl; [constructor|].
  apply Forall_app. split; [apply trendOf_fields | exact IH].
Qed.

(** X27. The window of the trend analysis, for every look-back: where the
    turn cells of the data rows are numbers and the analysis returns
    trends, they all run from one start turn to one end turn; the end turn
    is the highest turn number of the file, the start turn is the lowest
    turn number of the file that is at least max(1, end - turnsBack), it is
    lower than the end turn, and the number of turns analyzed is their
    difference. *)
Theorem X27_trend_window (statsFile scoresFile : option jsstring) (turnsBack : Z)
    (trends : list HistoryParser.CivTrend) :
  let turnNumbers :=
    map HistoryParser.rs_turn (HistoryParser.parsePlayerStatsCSV statsFile) in
  Forall Spec.isNum turnNumbers ->
  HistoryParser.analyzeTrends statsFile scoresFile turnsBack = Some trends ->
  exists first latest : Z,
    Num first ∈ turnNumbers /\ Num latest ∈ turnNumbers
    /\ (forall y, Num y ∈ turnNumbers -> (y <= latest)%Z)
    /\ (Z.max 1 (latest - turnsBack) <= first < latest)%Z
    /\ (forall y, Num y ∈ turnNumbers ->
                  (Z.max 1 (latest - turnsBack) <= y)%Z -> (first <= y)%Z)
    /\ Forall (fun tr => HistoryParser.startTurn tr = Num first
                         /\ HistoryParser.endTurn tr = Num latest
                         /\ HistoryParser.turnsAnalyzed tr = Num (latest - first))
         trends.
Proof.
  intros turnNumbers Hnum. unfold HistoryParser.analyzeTrends.
  destruct (HistoryParser.parseGameHistory statsFile scoresFile) as [history|] eqn:Eh;
    [|discriminate].
  destruct (history_turns _ _ _ Eh Hnum) as [Hsorted Hsame].
  fold turnNumbers in Hsame.
  unfold HistoryParser.trendsOfHistory.
  destruct (length (HistoryParser.turns history) <? 2); [discriminate|].
  destruct (last (HistoryParser.turns history)) as [latestTurn|] eqn:El; [|discriminate].
  destruct (HistoryParser.majorCivsOf (HistoryParser.civStats latestTurn)) as [|c cs];
    [discriminate|].
  destruct (length (HistoryParser.relevantTurnsOf history turnsBack) <? 2) eqn:Elen;
    [discriminate|].
  apply Nat.ltb_ge in Elen.
  set (inWindow := fun t : HistoryParser.TurnData =>
         HistoryParser.numGe (HistoryParser.td_turn t)
           (HistoryParser.max1
              (HistoryParser.numSub (HistoryParser.td_turn latestTurn) (Num turnsBack)))
         && HistoryParser.numLe (HistoryParser.td_turn t)
              (HistoryParser.td_turn latestTurn)).
  assert (Hrel : HistoryParser.relevantTurnsOf history turnsBack
                 = filter inWindow (HistoryParser.turns history)).
  { unfold HistoryParser.relevantTurnsOf. rewrite El. reflexivity. }
  assert (HinNum : forall t, t ∈ HistoryParser.turns history ->
                             exists y, HistoryParser.td_turn t = Num y
                                       /\ Num y ∈ turnNumbers).
  { intros t Ht.
    assert (Hm : HistoryParser.td_turn t ∈ turnNumbers).
    { apply Hsame. apply list_elem_of_fmap. exists t. split; [reflexivity | exact Ht]. }
    rewrite Forall_forall in Hnum. specialize (Hnum _ Hm).
    destruct (HistoryParser.td_turn t) as [|y]; [destruct Hnum|].
    exists y. split; [reflexivity | exact Hm]. }
  assert (Hlatest_in : latestTurn ∈ HistoryParser.turns history)
    by (apply last_Some_elem_of, El).
  destruct (HinNum _ Hlatest_in) as (latest & Elatest & Hlatest).
  assert (Hmax : forall t, t ∈ HistoryParser.turns history ->
                           forall y, HistoryParser.td_turn t = Num y -> (y <= latest)%Z).
  { intros t Ht y Ey.
    assert (Hl : last (map HistoryParser.td_turn (HistoryParser.turns history))
                 = Some (Num latest)).
    { rewrite fmap_last, El. cbn. rewrite Elatest. reflexivity. }
    assert (Hm : Num y ∈ map HistoryParser.td_turn (HistoryParser.turns history)).
    { apply list_elem_of_fmap. exists t. split; [symmetry; exact Ey | exact Ht]. }
    destruct (sorted_last _ _ _ Hsorted Hl _ Hm) as [Heq|Hlt].
    - injection Heq as ->. lia.
    - simpl in Hlt. lia. }
  assert (HinW : forall t y, HistoryParser.td_turn t = Num y ->
                   (inWindow t = true
                    <-> (Z.max 1 (latest - turnsBack) <= y <= latest)%Z)).
  { intros t y Ey. unfold inWindow. rewrite Ey, Elatest. cbn.
    rewrite andb_true_iff, !Z.leb_le. reflexivity. }
  destruct (HistoryParser.relevantTurnsOf history turnsBack) as [|t1 [|t2 more]] eqn:Er;
    [simpl in Elen; lia | simpl in Elen; lia |].
  cbn [head]. 
  assert (Ht1 : t1 ∈ filter inWindow (HistoryParser.turns history))
    by (rewrite <- Hrel; left).
  apply list_elem_of_filter in Ht1 as [Hw1 Ht1]. apply Is_true_true in Hw1.
  destruct (HinNum _ Ht1) as (first & Efirst & Hfirst).
  pose proof (proj1 (HinW _ _ Efirst) Hw1) as Hfw.
  assert (HlastW : inWindow latestTurn = true) by (apply (HinW _ _ Elatest); lia).
  assert (Hlast : last (t1 :: t2 :: more) = Some latestTurn).
  { rewrite Hrel. apply last_filter; assumption. }
  rewrite Hlast. intros [= <-].
  assert (HsortedT : StronglySorted
                       (fun a b => Spec.turnLt (HistoryParser.td_turn a)
                                     (HistoryParser.td_turn b))
                       (HistoryParser.turns history)).
  { clear -Hsorted. induction (HistoryParser.turns history) as [|t l IH];
      [constructor|].
    cbn [map] in Hsorted. apply StronglySorted_inv in Hsorted as [Hl Ht].
    constructor; [apply IH, Hl|]. apply Forall_forall. intros t' Ht'.
    rewrite Forall_forall in Ht. apply Ht. apply list_elem_of_fmap.
    exists t'. split; [reflexivity | exact Ht']. }
  pose proof (sorted_filter _ inWindow _ HsortedT) as HsortedW.
  rewrite <- Hrel in HsortedW.
  apply StronglySorted_inv in HsortedW as [_ Hafter]. rewrite Forall_forall in Hafter.
  exists first, latest.
  split; [exact Hfirst|]. split; [exact Hlatest|]. split.
  { intros y Hy. apply Hsame in Hy. apply list_elem_of_fmap in Hy as (t & Ey & Ht).
    apply (Hmax t Ht). symmetry. exact Ey. }
  split.
  { split; [lia|].
    assert (Hl2 : latestTurn ∈ t2 :: more).
    { apply last_Some_elem_of. exact Hlast. }
    specialize (Hafter _ Hl2). rewrite Efirst, Elatest in Hafter. exact Hafter. }
  split.
  { intros y Hy Hlow. apply Hsame in Hy. apply list_elem_of_fmap in Hy as (t & Ey & Ht).
    symmetry in Ey. pose proof (Hmax t Ht y Ey) as Hup.
    assert (Hw : inWindow t = true) by (apply (HinW _ _ Ey); lia).
    assert (Htw : t ∈ t1 :: t2 :: more).
    { rewrite Hrel. apply list_elem_of_filter. split; [rewrite Hw; exact I | exact Ht]. }
    apply elem_of_cons in Htw as [->|Htw]; [assert (y = first) by congruence; lia|].
    specialize (Hafter _ Htw). rewrite Efirst, Ey in Hafter. simpl in Hafter. lia. }
  eapply Forall_impl; [apply (trends_fields t1 latestTurn (c :: cs))|].
  intros tr (Hs & He & Hn). rewrite Hs, He, Hn, Efirst, Elatest. repeat split.
Qed.

Lemma NoDup_constant {A} (l : list A) (x : A) :
  NoDup l -> Forall (fun y => y = x) l -> length l <= 1.
Proof.
  intros Hnd Hall. destruct l as [|a [|b l']]; simpl; [lia | lia |].
  exfalso. inversion Hall as [|? ? Ha Hrest]; subst.
  inversion Hrest as [|? ? Hb _]; subst.
  inversion Hnd as [|? ? Hnotin _]; subst. apply Hnotin. left.
Qed.

(** X29. A statistics file whose data rows all carry one turn number gives
    no trends: with a single turn in the history the analysis is null. *)
Theorem X29_single_turn_no_trends (statsFile scoresFile : option jsstring)
    (turnsBack : Z) (n : num) :
  Forall (fun r => HistoryParser.rs_turn r = n)
    (HistoryParser.parsePlayerStatsCSV statsFile) ->
  HistoryParser.analyzeTrends statsFile scoresFile turnsBack = None.
Proof.
  intros Hall. unfold HistoryParser.analyzeTrends.
  destruct (HistoryParser.parseGameHistory statsFile scoresFile) as [history|] eqn:Eh;
    [|reflexivity].
  destruct (history_rows _ _ _ Eh) as (_ & Hturns & _).
  assert (Hlen : length (HistoryParser.turns history) <= 1).
  { rewrite <- (length_map HistoryParser.td_turn), Hturns.
    apply (NoDup_constant _ n); [apply dedup_NoDup|].
    apply Forall_forall. intros y Hy. apply (proj1 (dedup_elem_of _ _)) in Hy.
    apply list_elem_of_fmap in Hy as (r & -> & Hr).
    rewrite Forall_forall in Hall. apply Hall, Hr. }
  unfold HistoryParser.trendsOfHistory.
  destruct (Nat.ltb_spec (length (HistoryParser.turns history)) 2); [reflexivity | lia].
Qed.

End TrendWindow.

(** ** Scores and the civs of the trends *)

Section ScoreFacts.
Context `{R : Runtime}.

Lemma mapGet_mapUpdate {K V} `{EqDecision K} (k k' : K) (f : option V -> V)
    (m : list (K * V)) :
  HistoryParser.mapGet k (HistoryParser.mapUpdate k' f m)
  = if bool_decide (k' = k) then Some (f (HistoryParser.mapGet k' m))
    else HistoryParser.mapGet k m.
Proof.
  induction m as [|[k0 v] rest IH]; cbn [HistoryParser.mapUpdate HistoryParser.mapGet].
  - case_bool_decide; reflexivity.
  - destruct (decide (k0 = k')) as [->|Hne].
    + rewrite (bool_decide_eq_true_2 (k' = k')) by reflexivity.
      cbn [HistoryParser.mapGet]. case_bool_decide; reflexivity.
    + rewrite (bool_decide_eq_false_2 (k0 = k')) by exact Hne.
      cbn [HistoryParser.mapGet]. rewrite IH.
      destruct (decide (k0 = k)) as [->|Hne'].
      * rewrite (bool_decide_eq_true_2 (k = k)) by reflexivity.
        rewrite (bool_decide_eq_false_2 (k' = k)) by congruence. reflexivity.
      * rewrite (bool_decide_eq_false_2 (k0 = k)) by exact Hne'. reflexivity.
Qed.


Lemma mapIndexed_lookup {A B} (f : nat -> A -> B) (l : list A) :
  forall i j, HistoryParser.mapIndexed f i l !! j = f (i + j) <$> (l !! j).
Proof.
  induction l as [|x xs IH]; intros i j; cbn [HistoryParser.mapIndexed]; [reflexivity|].
  destruct j as [|j]; cbn.
  - rewrite Nat.add_0_r. reflexivity.
  - rewrite IH. do 2 f_equal. lia.
Qed.

(** [scoresByTurn.get(turn)?.get(pid)] once the rows are read: the last
    row of the pair wins. *)
Lemma scoreSteps_last (rows : list HistoryParser.RawPlayerScore) (turn pid : num) :
  forall acc,
    HistoryParser.mapGet turn (fold_left HistoryParser.scoreStep rows acc)
      ≫= HistoryParser.mapGet pid
    = match last (filter (fun row => HistoryParser.sc_turn row = turn
                                     /\ HistoryParser.playerId row = pid) rows) with
      | Some row => Some (HistoryParser.sc_score row)
      | None => HistoryParser.mapGet turn acc ≫= HistoryParser.mapGet pid
      end.
Proof.
  induction rows as [|row rest IH]; intros acc; cbn [fold_left]; [reflexivity|].
  rewrite IH. rewrite filter_cons.
  assert (Hstep : HistoryParser.mapGet turn (HistoryParser.scoreStep acc row)
                    ≫= HistoryParser.mapGet pid
                  = if decide (HistoryParser.sc_turn row = turn
                               /\ HistoryParser.playerId row = pid)
                    then Some (HistoryParser.sc_score row)
                    else HistoryParser.mapGet turn acc ≫= HistoryParser.mapGet pid).
  { unfold HistoryParser.scoreStep. rewrite mapGet_mapUpdate.
    case_bool_decide as Hturn.
    - cbn [mbind option_bind]. rewrite mapGet_mapUpdate. case_bool_decide as Hpid.
      + rewrite decide_True by (by split). reflexivity.
      + rewrite decide_False by tauto. rewrite Hturn.
        destruct (HistoryParser.mapGet turn acc); reflexivity.
    - rewrite decide_False by tauto. reflexivity. }
  rewrite Hstep.
  destruct (decide (HistoryParser.sc_turn row = turn /\ HistoryParser.playerId row = pid));
    [|reflexivity].
  change (row :: filter _ rest) with ([row] ++ filter (fun row0 =>
            HistoryParser.sc_turn row0 = turn /\ HistoryParser.playerId row0 = pid) rest).
  rewrite last_app. destruct (last (filter _ rest)); reflexivity.
Qed.

(** X21. Scores are attached by position: the score of the row at
    position [i] of a turn is the score cell of the last row of the scores
    file that has the number of the turn and the player index [i], and 0
    when the scores file has no such row; the civilization of the row
    plays no part. *)
Theorem X21_scores_by_position (statsFile scoresFile : option jsstring)
    (history : HistoryParser.GameHistory) :
  HistoryParser.parseGameHistory statsFile scoresFile = Some history ->
  forall t i s,
    t ∈ HistoryParser.turns history ->
    HistoryParser.civStats t !! i = Some s ->
    HistoryParser.score s
    = Spec.scoreAt (HistoryParser.parsePlayerScoresCSV scoresFile)
        (HistoryParser.td_turn t) i.
Proof.
  unfold HistoryParser.parseGameHistory.
  destruct (HistoryParser.parsePlayerStatsCSV statsFile) as [|s0 raw]; [discriminate|].
  intros [= <-] t i s. cbn [HistoryParser.turns].
  rewrite sortTurns_Permutation. intros Ht Hs.
  apply list_elem_of_fmap in Ht as ([k rows] & -> & _).
  cbn [HistoryParser.toTurnData HistoryParser.civStats HistoryParser.td_turn] in *.
  rewrite mapIndexed_lookup in Hs. cbn [Nat.add] in Hs.
  destruct (rows !! i) as [r|]; [|discriminate]. cbn in Hs. injection Hs as <-.
  cbn [HistoryParser.toCivStatistics HistoryParser.score].
  pose proof (scoreSteps_last (HistoryParser.parsePlayerScoresCSV scoresFile) k
                (Num (Z.of_nat i)) []) as Hlast.
  cbn [HistoryParser.mapGet mbind option_bind] in Hlast.
  unfold Spec.scoreAt.
  destruct (HistoryParser.mapGet k _) as [inner|]; cbn [mbind option_bind] in Hlast.
  - rewrite Hlast. destruct (last _); reflexivity.
  - destruct (last _); [discriminate Hlast | reflexivity].
Qed.



End ScoreFacts.

Section HistoryMoreExamples.

Lemma unorderedStats_turns :
  map HistoryParser.rs_turn (HistoryParser.parsePlayerStatsCSV (Some Examples.unorderedStats))
  = [Num 3; Num 1; Num 3; Num 2].
Proof. vm_compute. reflexivity. Qed.

Lemma X18_witness :
  exists history,
    @HistoryParser.parseGameHistory Reference.runtime (Some Examples.unorderedStats) None
    = Some history
    /\ map HistoryParser.td_turn (HistoryParser.turns history) = [Num 1; Num 2; Num 3]
    /\ StronglySorted Spec.turnLt (map HistoryParser.td_turn (HistoryParser.turns history)).
Proof.
  eexists. split; [vm_compute; reflexivity|]. split; [vm_compute; reflexivity|].
  refine (proj2 (@X18_turns_ascending Reference.runtime (Some Examples.unorderedStats)
                   None _ _) _).
  - vm_compute. reflexivity.
  - rewrite unorderedStats_turns. repeat constructor.
Defined.

Lemma X19_witness :
  exists history,
    @HistoryParser.parseGameHistory Reference.runtime (Some Examples.unorderedStats) None
    = Some history
    /\ map (fun t => length (HistoryParser.civStats t)) (HistoryParser.turns history)
       = [1; 1; 2]
    /\ Forall Spec.wellFiled (HistoryParser.turns history).
Proof.
  eexists. split; [vm_compute; reflexivity|]. split; [vm_compute; reflexivity|].
  refine (proj2 (@X19_rows_filed_by_turn Reference.runtime (Some Examples.unorderedStats)
                   None _ _)).
  vm_compute. reflexivity.
Defined.

Lemma X20_witness :
  exists history,
    @HistoryParser.parseGameHistory Reference.runtime (Some Examples.unorderedStats) None
    = Some history
    /\ map Spec.filedRow (flat_map HistoryParser.civStats (HistoryParser.turns history))
       ≡ₚ [(Num 3, js "ROME"); (Num 1, js "ROME"); (Num 3, js "EGYPT"); (Num 2, js "ROME")].
Proof.
  eexists. split; [vm_compute; reflexivity|].
  refine (@X20_rows_conserved Reference.runtime (Some Examples.unorderedStats) None _ _).
  vm_compute. reflexivity.
Defined.

Lemma X22_witness :
  exists rows,
    @HistoryParser.getLatestTurnStatsFullCivsOnly Reference.runtime
      (Some Examples.oneTurnStats) None = Some rows
    /\ map HistoryParser.rawCivName rows = [js "ROME"; js "EGYPT"]
    /\ Forall (fun s => HistoryParser.isCityState_ s = false) rows.
Proof.
  eexists. split; [vm_compute; reflexivity|]. split; [vm_compute; reflexivity|].
  refine (proj2 (@X22_full_civs_only Reference.runtime (Some Examples.oneTurnStats) None)
            _ _).
  vm_compute. reflexivity.
Defined.



Lemma X26_witness :
  let rows :=
    default [] (@HistoryParser.getLatestTurnStats Reference.runtime
                  (Some Examples.oneTurnStats) None) in
  exists egypt rome,
    HistoryParser.calculateVictoryProgress rows = [rome; egypt]
    /\ HistoryParser.vp_civilization egypt = js "Egypt"
    /\ HistoryParser.vp_civilization rome = js "Rome"
    /\ (HistoryParser.sci_position (HistoryParser.vp_science egypt)
        < HistoryParser.sci_position (HistoryParser.vp_science rome))%Z.
Proof.
  intros rows. eexists. eexists.
  split; [vm_compute; reflexivity|]. split; [reflexivity|]. split; [reflexivity|].
  refine (proj1 (X26_victory_order rows _ _ _ _ _ _) _).
  - by_evaluation.
  - vm_compute. repeat constructor.
  - vm_compute. right. left.
  - vm_compute. left.
  - reflexivity.
Defined.

Lemma X27_witness :
  exists trends first latest,
    @HistoryParser.analyzeTrends Reference.runtime (Some Examples.sparseStats) None 7
    = Some trends
    /\ length trends = 1
    /\ (Z.max 1 (latest - 7) <= first < latest)%Z
    /\ Forall (fun tr => HistoryParser.startTurn tr = Num first
                         /\ HistoryParser.endTurn tr = Num latest
                         /\ HistoryParser.turnsAnalyzed tr = Num (latest - first))
         trends.
Proof.
  assert (Hnum : Forall Spec.isNum
                   (map HistoryParser.rs_turn
                      (HistoryParser.parsePlayerStatsCSV (Some Examples.sparseStats)))).
  { assert (Hraw : map HistoryParser.rs_turn
                     (HistoryParser.parsePlayerStatsCSV (Some Examples.sparseStats))
                   = [Num 1; Num 5; Num 9; Num 15]) by (vm_compute; reflexivity).
    rewrite Hraw. repeat constructor. }
  assert (Ht : exists trends,
             @HistoryParser.analyzeTrends Reference.runtime (Some Examples.sparseStats)
               None 7 = Some trends /\ length trends = 1)
    by (eexists; split; [vm_compute; reflexivity | reflexivity]).
  destruct Ht as (trends & Ht & Hlen).
  destruct (@X27_trend_window Reference.runtime (Some Examples.sparseStats) None 7
              trends Hnum Ht) as (first & latest & _ & _ & _ & Hwin & _ & Hall).
  exists trends, first, latest. repeat split; try assumption; apply Hwin.
Defined.

Lemma X29_witness :
  @HistoryParser.analyzeTrends Reference.runtime (Some Examples.oneTurnStats) None 10
  = None.
Proof.
  refine (@X29_single_turn_no_trends Reference.runtime (Some Examples.oneTurnStats)
            None 10 (Num 7) _).
  vm_compute. repeat constructor.
Defined.

End HistoryMoreExamples.

Section ScoreExamples.

(** In [Examples.rescoredLog] the player index 1 has two rows at turn 1:
    the row of Egypt, at position 1 of turn 1, gets the score 28 of the
    second; position 1 of turn 2 has no row of the scores file and gets 0. *)
Lemma X21_witness :
  exists history t1 t2 s1 s2,
    @HistoryParser.parseGameHistory Reference.runtime (Some Examples.twoByTwoStats)
      (Some Examples.rescoredLog) = Some history
    /\ HistoryParser.turns history = [t1; t2]
    /\ HistoryParser.civStats t1 !! 1 = Some s1
    /\ HistoryParser.civStats t2 !! 1 = Some s2
    /\ HistoryParser.rawCivName s1 = js "EGYPT"
    /\ HistoryParser.score s1 = Num 28
    /\ HistoryParser.score s2 = Num 0.
Proof.
  eexists. eexists. eexists. eexists. eexists.
  split; [vm_compute; reflexivity|]. split; [reflexivity|].
  split; [vm_compute; reflexivity|]. split; [vm_compute; reflexivity|].
  split; [reflexivity|].
  split.
  - refine (eq_trans
              (@X21_scores_by_position Reference.runtime (Some Examples.twoByTwoStats)
                 (Some Examples.rescoredLog) _ _ _ 1 _ _ _) _).
    + vm_compute. reflexivity.
    + left.
    + reflexivity.
    + vm_compute. reflexivity.
  - refine (eq_trans
              (@X21_scores_by_position Reference.runtime (Some Examples.twoByTwoStats)
                 (Some Examples.rescoredLog) _ _ _ 1 _ _ _) _).
    + vm_compute. reflexivity.
    + right. left.
    + reflexivity.
    + vm_compute. reflexivity.
Defined.


End ScoreExamples.
